(** * open_manipulator_x_moveit: position controller and joystick teleop

    A shallow embedding of
      - open_manipulator_position_ctrl/src/position_controller.cpp
      - the callbacks, [set_goal] and the service-call wrappers of
        open_manipulator_x_teleop/src/open_manipulator_x_teleop_joystick.cpp
    and the properties of the motion-execution core and of the joystick
    node that hold of them.

    C++ [double] is IEEE binary64, modelled by Rocq's primitive floats;
    [int] is modelled by [Z], with the conversions written out;
    Eigen vectors and matrices are lists (a matrix is the list of its rows);
    [std::map] is an association list sorted by key.  An access outside a
    container, which C++ leaves undefined (or which trips an Eigen
    assertion), is an explicit fault that stops the run.

    What is not among the sources is a parameter: the sample interval
    ITERATION_TIME, the generator [calcMinimumJerkTra] of robotis_math and
    the content of freshly resized matrices.  The examples instantiate
    them with a tick of 0.01 s and a closed-form minimum-jerk generator. *)

From Stdlib Require Import ZArith Bool String Lia ZifyBool.
From Stdlib Require Import Floats.PrimFloat Floats.FloatOps Floats.SpecFloat.
From Stdlib Require Import Numbers.Cyclic.Int63.Uint63.
From stdpp Require Import base list.

Set Warnings "-inexact-float".

Local Open Scope string_scope.
Local Open Scope list_scope.
Local Open Scope Z_scope.

(** ** Doubles and ints *)

Module Double.

(** Magnitude of a finite double with mantissa [m] and exponent [e],
    rounded towards zero. *)
Definition magnitude (m : positive) (e : Z) : Z :=
  if 0 <=? e then Z.shiftl (Z.pos m) e else Z.shiftr (Z.pos m) (- e).

(** Is [m * 2^e] an integer? *)
Definition integral (m : positive) (e : Z) : bool :=
  (0 <=? e) || (Z.shiftl (magnitude m e) (- e) =? Z.pos m).

(** [double(n)] for an [int] n: exact, since |n| < 2^53. *)
Definition of_int (n : Z) : float :=
  if n <? 0 then (- of_uint63 (Uint63.of_Z (- n)))%float
  else of_uint63 (Uint63.of_Z n).

(** [floor] of <cmath>: the largest integral double not above [x];
    zeros, infinities and NaN are returned as they are. *)
Definition floor (x : float) : float :=
  match Prim2SF x with
  | S754_finite s m e =>
      if 0 <=? e then x
      else
        let q := magnitude m e in
        if s then (if integral m e then of_int (- q) else of_int (- (q + 1)))
        else of_int q
  | _ => x
  end.

Definition INT_MIN : Z := - 2 ^ 31.
Definition INT_MAX : Z := 2 ^ 31 - 1.

(** [int(x)]: truncation towards zero; the conversion is undefined
    ([None]) when the truncated value is not an [int], and for NaN and
    the infinities. *)
Definition to_int (x : float) : option Z :=
  match Prim2SF x with
  | S754_zero _ => Some 0
  | S754_finite s m e =>
      let a := magnitude m e in
      let v := if s then - a else a in
      if (INT_MIN <=? v) && (v <=? INT_MAX) then Some v else None
  | _ => None
  end.

(** [|a - b| <= eps], the tolerance used for "approximately equal". *)
Definition close (eps a b : float) : bool :=
  PrimFloat.leb (PrimFloat.abs (a - b)) eps.

End Double.

(** [int] arithmetic: signed overflow is undefined. *)
Definition int_ok (n : Z) : option Z :=
  if (Double.INT_MIN <=? n) && (n <=? Double.INT_MAX) then Some n else None.

(** ** Eigen containers *)

Abbreviation VectorXd := (list float).
Abbreviation MatrixXd := (list (list float)).

Module Eigen.

(** [v(i)]. *)
Definition get (v : VectorXd) (i : Z) : option float :=
  if 0 <=? i then v !! Z.to_nat i else None.

(** [v(i) = x]. *)
Definition set (v : VectorXd) (i : Z) (x : float) : option VectorXd :=
  if (0 <=? i) && (i <? Z.of_nat (length v))
  then Some (<[Z.to_nat i := x]> v) else None.

(** [VectorXd::Zero(n)]. *)
Definition Zero (n : Z) : VectorXd := replicate (Z.to_nat n) 0%float.

Definition rows (m : MatrixXd) : Z := Z.of_nat (length m).

(** [m(i, j)]. *)
Definition coeff (m : MatrixXd) (i j : Z) : option float :=
  if (0 <=? i) && (0 <=? j)
  then (m !! Z.to_nat i) ≫= (fun r => r !! Z.to_nat j)
  else None.

(** [m.coeffRef(i, j) = x]. *)
Definition coeffRef (m : MatrixXd) (i j : Z) (x : float) : option MatrixXd :=
  if (0 <=? i) && (0 <=? j) then
    match m !! Z.to_nat i with
    | Some r =>
        if (j <? Z.of_nat (length r))
        then Some (<[Z.to_nat i := <[Z.to_nat j := x]> r]> m)
        else None
    | None => None
    end
  else None.

(** [m.resize(r, c)]: Eigen leaves the coefficients of the resized
    matrix uninitialised (or as they were, when the size does not
    change); [fill] stands for what they hold.  Every coefficient the
    controller reads is written after the resize. *)
Definition resize (fill : float) (r c : Z) : option MatrixXd :=
  if (0 <=? r) && (0 <=? c)
  then Some (replicate (Z.to_nat r) (replicate (Z.to_nat c) fill))
  else None.

(** Is [m] an [r] x [c] matrix? *)
Definition has_shape (m : MatrixXd) (r c : Z) : bool :=
  (rows m =? r) && forallb (fun row => Z.of_nat (length row) =? c) m.

(** Column [j] of [m] becomes the single column of [src], row by row. *)
Fixpoint write_column (m : MatrixXd) (j : nat) (src : MatrixXd) : MatrixXd :=
  match m, src with
  | r :: m', (x :: _) :: src' => <[j := x]> r :: write_column m' j src'
  | _, _ => m
  end.

(** [m.block(0, j, n, 1) = src]: the block must lie inside [m], and
    [src] must be [n] x 1. *)
Definition assign_block_column (m : MatrixXd) (j n : Z) (src : MatrixXd)
  : option MatrixXd :=
  if (0 <=? j) && (0 <=? n) && (n <=? rows m)
     && forallb (fun row => j <? Z.of_nat (length row)) (take (Z.to_nat n) m)
     && has_shape src n 1
  then Some (write_column m (Z.to_nat j) src)
  else None.

End Eigen.

(** ** ROS messages *)

(** [ros::Duration] and its [toSec]. *)
Record Duration := { sec : Z; nsec : Z }.

Definition toSec (d : Duration) : float :=
  (Double.of_int (sec d) + 1e-9 * Double.of_int (nsec d))%float.

(** trajectory_msgs/JointTrajectoryPoint *)
Record JointTrajectoryPoint := {
  positions : list float;
  velocities : list float;
  accelerations : list float;
  time_from_start : Duration
}.

(** trajectory_msgs/JointTrajectory *)
Record JointTrajectory := {
  joint_names : list string;
  points : list JointTrajectoryPoint
}.

(** moveit_msgs/RobotTrajectory *)
Record RobotTrajectory := { joint_trajectory : JointTrajectory }.

(** moveit_msgs/DisplayTrajectory *)
Record DisplayTrajectory := { trajectory : list RobotTrajectory }.

(** sensor_msgs/JointState *)
Record JointState := { name : list string; position : list float }.

(** What the node sends out: messages published on
    /robotis/open_manipulator/goal_joint_states and console logs. *)
Inductive Effect :=
| Publish (msg : JointState)
| ROS_INFO (text : string)
| ROS_ERROR (text : string).

(** ** [std::map<std::string, uint8_t>]

    An association list kept sorted by key, as iteration over a
    [std::map] visits the keys in increasing order. *)

Definition JointIdMap := list (string * Z).

Module StdMap.

Fixpoint find (m : JointIdMap) (k : string) : option Z :=
  match m with
  | [] => None
  | (k', v) :: m' => if String.eqb k' k then Some v else find m' k
  end.

Fixpoint insert (m : JointIdMap) (k : string) (v : Z) : JointIdMap :=
  match m with
  | [] => [(k, v)]
  | (k', v') :: m' =>
      match String.compare k k' with
      | Lt => (k, v) :: m
      | Eq => (k, v) :: m'
      | Gt => (k', v') :: insert m' k v
      end
  end.

(** [m[k]]: a key that is absent is first inserted with the
    value-initialised mapped value, 0. *)
Definition index (m : JointIdMap) (k : string) : JointIdMap * Z :=
  match find m k with
  | Some v => (m, v)
  | None => (insert m k 0, 0)
  end.

Definition keys (m : JointIdMap) : list string := map fst m.

End StdMap.

(** ** The controller's state *)

(** Constants of position_controller.h, which is not among the
    sources. *)

(** Modelled from the spec: MAX_JOINT_NUM is declared in
    position_controller.h; the arm has arity 4 (joint1..joint4 are
    registered, and the gripper is component 4 of the present
    configuration). *)
Definition MAX_JOINT_NUM : Z := 4.

(** Modelled from the spec: MAX_GRIPPER_NUM is declared in
    position_controller.h; the gripper trajectory is 1-DoF. *)
Definition MAX_GRIPPER_NUM : Z := 1.

(** Modelled from the spec: DEGREE2RADIAN is a macro of the robotis_math
    headers; degrees times pi/180. *)
Definition M_PI : float := 3.14159265358979323846%float.
Definition DEGREE2RADIAN : float := (M_PI / 180.0)%float.

(** [motion_planning_tool::MotionPlanningTool], as far as the controller
    touches it. *)
Record MotionPlanningTool := {
  moveit_msg_ : DisplayTrajectory;
  points_ : Z;
  time_from_start_ : Duration;
  display_planned_path_positions_ : MatrixXd;
  display_planned_path_velocities_ : MatrixXd;
  display_planned_path_accelerations_ : MatrixXd
}.

(** The member variables of [PositionController].  [emitted_] collects
    what the node has published and logged, oldest first;
    [sleeping_threads_] counts the trajectory threads that are in their
    half-second sleep. *)
Record Controller := {
  is_moving_ : bool;
  move_time_ : float;
  all_time_steps_ : Z;
  step_cnt_ : Z;
  moveit_execution_ : bool;
  gripper_ : bool;
  joint_id_ : JointIdMap;
  present_joint_position_ : VectorXd;
  goal_joint_position_ : VectorXd;
  goal_gripper_position_ : VectorXd;
  goal_joint_trajectory_ : MatrixXd;
  goal_gripper_trajectory_ : MatrixXd;
  motionPlanningTool_ : MotionPlanningTool;
  sleeping_threads_ : nat;
  emitted_ : list Effect
}.

(** Field updates. *)
Definition with_is_moving (v : bool) (s : Controller) : Controller :=
  {| is_moving_ := v; move_time_ := move_time_ s;
     all_time_steps_ := all_time_steps_ s; step_cnt_ := step_cnt_ s;
     moveit_execution_ := moveit_execution_ s; gripper_ := gripper_ s;
     joint_id_ := joint_id_ s;
     present_joint_position_ := present_joint_position_ s;
     goal_joint_position_ := goal_joint_position_ s;
     goal_gripper_position_ := goal_gripper_position_ s;
     goal_joint_trajectory_ := goal_joint_trajectory_ s;
     goal_gripper_trajectory_ := goal_gripper_trajectory_ s;
     motionPlanningTool_ := motionPlanningTool_ s;
     sleeping_threads_ := sleeping_threads_ s; emitted_ := emitted_ s |}.

Definition with_move_time (v : float) (s : Controller) : Controller :=
  {| is_moving_ := is_moving_ s; move_time_ := v;
     all_time_steps_ := all_time_steps_ s; step_cnt_ := step_cnt_ s;
     moveit_execution_ := moveit_execution_ s; gripper_ := gripper_ s;
     joint_id_ := joint_id_ s;
     present_joint_position_ := present_joint_position_ s;
     goal_joint_position_ := goal_joint_position_ s;
     goal_gripper_position_ := goal_gripper_position_ s;
     goal_joint_trajectory_ := goal_joint_trajectory_ s;
     goal_gripper_trajectory_ := goal_gripper_trajectory_ s;
     motionPlanningTool_ := motionPlanningTool_ s;
     sleeping_threads_ := sleeping_threads_ s; emitted_ := emitted_ s |}.

Definition with_all_time_steps (v : Z) (s : Controller) : Controller :=
  {| is_moving_ := is_moving_ s; move_time_ := move_time_ s;
     all_time_steps_ := v; step_cnt_ := step_cnt_ s;
     moveit_execution_ := moveit_execution_ s; gripper_ := gripper_ s;
     joint_id_ := joint_id_ s;
     present_joint_position_ := present_joint_position_ s;
     goal_joint_position_ := goal_joint_position_ s;
     goal_gripper_position_ := goal_gripper_position_ s;
     goal_joint_trajectory_ := goal_joint_trajectory_ s;
     goal_gripper_trajectory_ := goal_gripper_trajectory_ s;
     motionPlanningTool_ := motionPlanningTool_ s;
     sleeping_threads_ := sleeping_threads_ s; emitted_ := emitted_ s |}.

Definition with_step_cnt (v : Z) (s : Controller) : Controller :=
  {| is_moving_ := is_moving_ s; move_time_ := move_time_ s;
     all_time_steps_ := all_time_steps_ s; step_cnt_ := v;
     moveit_execution_ := moveit_execution_ s; gripper_ := gripper_ s;
     joint_id_ := joint_id_ s;
     present_joint_position_ := present_joint_position_ s;
     goal_joint_position_ := goal_joint_position_ s;
     goal_gripper_position_ := goal_gripper_position_ s;
     goal_joint_trajectory_ := goal_joint_trajectory_ s;
     goal_gripper_trajectory_ := goal_gripper_trajectory_ s;
     motionPlanningTool_ := motionPlanningTool_ s;
     sleeping_threads_ := sleeping_threads_ s; emitted_ := emitted_ s |}.

Definition with_moveit_execution (v : bool) (s : Controller) : Controller :=
  {| is_moving_ := is_moving_ s; move_time_ := move_time_ s;
     all_time_steps_ := all_time_steps_ s; step_cnt_ := step_cnt_ s;
     moveit_execution_ := v; gripper_ := gripper_ s;
     joint_id_ := joint_id_ s;
     present_joint_position_ := present_joint_position_ s;
     goal_joint_position_ := goal_joint_position_ s;
     goal_gripper_position_ := goal_gripper_position_ s;
     goal_joint_trajectory_ := goal_joint_trajectory_ s;
     goal_gripper_trajectory_ := goal_gripper_trajectory_ s;
     motionPlanningTool_ := motionPlanningTool_ s;
     sleeping_threads_ := sleeping_threads_ s; emitted_ := emitted_ s |}.

Definition with_gripper (v : bool) (s : Controller) : Controller :=
  {| is_moving_ := is_moving_ s; move_time_ := move_time_ s;
     all_time_steps_ := all_time_steps_ s; step_cnt_ := step_cnt_ s;
     moveit_execution_ := moveit_execution_ s; gripper_ := v;
     joint_id_ := joint_id_ s;
     present_joint_position_ := present_joint_position_ s;
     goal_joint_position_ := goal_joint_position_ s;
     goal_gripper_position_ := goal_gripper_position_ s;
     goal_joint_trajectory_ := goal_joint_trajectory_ s;
     goal_gripper_trajectory_ := goal_gripper_trajectory_ s;
     motionPlanningTool_ := motionPlanningTool_ s;
     sleeping_threads_ := sleeping_threads_ s; emitted_ := emitted_ s |}.

Definition with_joint_id (v : JointIdMap) (s : Controller) : Controller :=
  {| is_moving_ := is_moving_ s; move_time_ := move_time_ s;
     all_time_steps_ := all_time_steps_ s; step_cnt_ := step_cnt_ s;
     moveit_execution_ := moveit_execution_ s; gripper_ := gripper_ s;
     joint_id_ := v;
     present_joint_position_ := present_joint_position_ s;
     goal_joint_position_ := goal_joint_position_ s;
     goal_gripper_position_ := goal_gripper_position_ s;
     goal_joint_trajectory_ := goal_joint_trajectory_ s;
     goal_gripper_trajectory_ := goal_gripper_trajectory_ s;
     motionPlanningTool_ := motionPlanningTool_ s;
     sleeping_threads_ := sleeping_threads_ s; emitted_ := emitted_ s |}.

Definition with_present_joint_position (v : VectorXd) (s : Controller)
  : Controller :=
  {| is_moving_ := is_moving_ s; move_time_ := move_time_ s;
     all_time_steps_ := all_time_steps_ s; step_cnt_ := step_cnt_ s;
     moveit_execution_ := moveit_execution_ s; gripper_ := gripper_ s;
     joint_id_ := joint_id_ s;
     present_joint_position_ := v;
     goal_joint_position_ := goal_joint_position_ s;
     goal_gripper_position_ := goal_gripper_position_ s;
     goal_joint_trajectory_ := goal_joint_trajectory_ s;
     goal_gripper_trajectory_ := goal_gripper_trajectory_ s;
     motionPlanningTool_ := motionPlanningTool_ s;
     sleeping_threads_ := sleeping_threads_ s; emitted_ := emitted_ s |}.

Definition with_goal_joint_position (v : VectorXd) (s : Controller)
  : Controller :=
  {| is_moving_ := is_moving_ s; move_time_ := move_time_ s;
     all_time_steps_ := all_time_steps_ s; step_cnt_ := step_cnt_ s;
     moveit_execution_ := moveit_execution_ s; gripper_ := gripper_ s;
     joint_id_ := joint_id_ s;
     present_joint_position_ := present_joint_position_ s;
     goal_joint_position_ := v;
     goal_gripper_position_ := goal_gripper_position_ s;
     goal_joint_trajectory_ := goal_joint_trajectory_ s;
     goal_gripper_trajectory_ := goal_gripper_trajectory_ s;
     motionPlanningTool_ := motionPlanningTool_ s;
     sleeping_threads_ := sleeping_threads_ s; emitted_ := emitted_ s |}.

Definition with_goal_gripper_position (v : VectorXd) (s : Controller)
  : Controller :=
  {| is_moving_ := is_moving_ s; move_time_ := move_time_ s;
     all_time_steps_ := all_time_steps_ s; step_cnt_ := step_cnt_ s;
     moveit_execution_ := moveit_execution_ s; gripper_ := gripper_ s;
     joint_id_ := joint_id_ s;
     present_joint_position_ := present_joint_position_ s;
     goal_joint_position_ := goal_joint_position_ s;
     goal_gripper_position_ := v;
     goal_joint_trajectory_ := goal_joint_trajectory_ s;
     goal_gripper_trajectory_ := goal_gripper_trajectory_ s;
     motionPlanningTool_ := motionPlanningTool_ s;
     sleeping_threads_ := sleeping_threads_ s; emitted_ := emitted_ s |}.

Definition with_goal_joint_trajectory (v : MatrixXd) (s : Controller)
  : Controller :=
  {| is_moving_ := is_moving_ s; move_time_ := move_time_ s;
     all_time_steps_ := all_time_steps_ s; step_cnt_ := step_cnt_ s;
     moveit_execution_ := moveit_execution_ s; gripper_ := gripper_ s;
     joint_id_ := joint_id_ s;
     present_joint_position_ := present_joint_position_ s;
     goal_joint_position_ := goal_joint_position_ s;
     goal_gripper_position_ := goal_gripper_position_ s;
     goal_joint_trajectory_ := v;
     goal_gripper_trajectory_ := goal_gripper_trajectory_ s;
     motionPlanningTool_ := motionPlanningTool_ s;
     sleeping_threads_ := sleeping_threads_ s; emitted_ := emitted_ s |}.

Definition with_goal_gripper_trajectory (v : MatrixXd) (s : Controller)
  : Controller :=
  {| is_moving_ := is_moving_ s; move_time_ := move_time_ s;
     all_time_steps_ := all_time_steps_ s; step_cnt_ := step_cnt_ s;
     moveit_execution_ := moveit_execution_ s; gripper_ := gripper_ s;
     joint_id_ := joint_id_ s;
     present_joint_position_ := present_joint_position_ s;
     goal_joint_position_ := goal_joint_position_ s;
     goal_gripper_position_ := goal_gripper_position_ s;
     goal_joint_trajectory_ := goal_joint_trajectory_ s;
     goal_gripper_trajectory_ := v;
     motionPlanningTool_ := motionPlanningTool_ s;
     sleeping_threads_ := sleeping_threads_ s; emitted_ := emitted_ s |}.

Definition with_motionPlanningTool (v : MotionPlanningTool) (s : Controller)
  : Controller :=
  {| is_moving_ := is_moving_ s; move_time_ := move_time_ s;
     all_time_steps_ := all_time_steps_ s; step_cnt_ := step_cnt_ s;
     moveit_execution_ := moveit_execution_ s; gripper_ := gripper_ s;
     joint_id_ := joint_id_ s;
     present_joint_position_ := present_joint_position_ s;
     goal_joint_position_ := goal_joint_position_ s;
     goal_gripper_position_ := goal_gripper_position_ s;
     goal_joint_trajectory_ := goal_joint_trajectory_ s;
     goal_gripper_trajectory_ := goal_gripper_trajectory_ s;
     motionPlanningTool_ := v;
     sleeping_threads_ := sleeping_threads_ s; emitted_ := emitted_ s |}.

Definition with_sleeping_threads (v : nat) (s : Controller) : Controller :=
  {| is_moving_ := is_moving_ s; move_time_ := move_time_ s;
     all_time_steps_ := all_time_steps_ s; step_cnt_ := step_cnt_ s;
     moveit_execution_ := moveit_execution_ s; gripper_ := gripper_ s;
     joint_id_ := joint_id_ s;
     present_joint_position_ := present_joint_position_ s;
     goal_joint_position_ := goal_joint_position_ s;
     goal_gripper_position_ := goal_gripper_position_ s;
     goal_joint_trajectory_ := goal_joint_trajectory_ s;
     goal_gripper_trajectory_ := goal_gripper_trajectory_ s;
     motionPlanningTool_ := motionPlanningTool_ s;
     sleeping_threads_ := v; emitted_ := emitted_ s |}.

(** The node sends [e]. *)
Definition emit (e : Effect) (s : Controller) : Controller :=
  {| is_moving_ := is_moving_ s; move_time_ := move_time_ s;
     all_time_steps_ := all_time_steps_ s; step_cnt_ := step_cnt_ s;
     moveit_execution_ := moveit_execution_ s; gripper_ := gripper_ s;
     joint_id_ := joint_id_ s;
     present_joint_position_ := present_joint_position_ s;
     goal_joint_position_ := goal_joint_position_ s;
     goal_gripper_position_ := goal_gripper_position_ s;
     goal_joint_trajectory_ := goal_joint_trajectory_ s;
     goal_gripper_trajectory_ := goal_gripper_trajectory_ s;
     motionPlanningTool_ := motionPlanningTool_ s;
     sleeping_threads_ := sleeping_threads_ s;
     emitted_ := emitted_ s ++ [e] |}.

(** Updates of the planning tool's members. *)
Definition tool_with_msg (v : DisplayTrajectory) (t : MotionPlanningTool) :=
  {| moveit_msg_ := v; points_ := points_ t;
     time_from_start_ := time_from_start_ t;
     display_planned_path_positions_ := display_planned_path_positions_ t;
     display_planned_path_velocities_ := display_planned_path_velocities_ t;
     display_planned_path_accelerations_ :=
       display_planned_path_accelerations_ t |}.

Definition tool_with_points (v : Z) (t : MotionPlanningTool) :=
  {| moveit_msg_ := moveit_msg_ t; points_ := v;
     time_from_start_ := time_from_start_ t;
     display_planned_path_positions_ := display_planned_path_positions_ t;
     display_planned_path_velocities_ := display_planned_path_velocities_ t;
     display_planned_path_accelerations_ :=
       display_planned_path_accelerations_ t |}.

Definition tool_with_time (v : Duration) (t : MotionPlanningTool) :=
  {| moveit_msg_ := moveit_msg_ t; points_ := points_ t;
     time_from_start_ := v;
     display_planned_path_positions_ := display_planned_path_positions_ t;
     display_planned_path_velocities_ := display_planned_path_velocities_ t;
     display_planned_path_accelerations_ :=
       display_planned_path_accelerations_ t |}.

Definition tool_with_tables (p v a : MatrixXd) (t : MotionPlanningTool) :=
  {| moveit_msg_ := moveit_msg_ t; points_ := points_ t;
     time_from_start_ := time_from_start_ t;
     display_planned_path_positions_ := p;
     display_planned_path_velocities_ := v;
     display_planned_path_accelerations_ := a |}.

(** ** Faults

    Where C++ leaves the behaviour undefined, trips an assertion or
    throws, the run stops; the state reached so far is kept. *)
Inductive Fault :=
| OutOfBounds      (* access outside a vector, matrix or message array *)
| BadSize          (* resize to a negative size, block of the wrong shape *)
| BadConversion    (* double that is not an int converted to int *)
| Overflow         (* signed int overflow *)
| OutOfRangeThrown (* std::out_of_range thrown by at() *).

Inductive Result (A : Type) :=
| Ok (a : A)
| Crash (f : Fault) (s : Controller).
Arguments Ok {A} a.
Arguments Crash {A} f s.

Definition bind {A B} (r : Result A) (k : A -> Result B) : Result B :=
  match r with
  | Ok a => k a
  | Crash f s => Crash f s
  end.

(** [x], or fault [f] in state [s] when there is no [x]. *)
Definition or_crash {A} (x : option A) (f : Fault) (s : Controller)
  : Result A :=
  match x with
  | Some a => Ok a
  | None => Crash f s
  end.

Notation "'let?' x ':=' r 'in' k" := (bind r (fun x => k))
  (at level 10, x pattern, r at level 100, k at level 200).

(** [for (x : l) body]. *)
Fixpoint for_each {A} (l : list A)
    (body : A -> Controller -> Result Controller) (s : Controller)
  : Result Controller :=
  match l with
  | [] => Ok s
  | x :: l' => let? s' := body x s in for_each l' body s'
  end.

(** The indices [0, 1, ..., n-1] of a counting loop. *)
Definition upto (n : Z) : list Z := seqZ 0 n.

(** The elements of [l], each with its index. *)
Definition indexed {A} (l : list A) : list (Z * A) :=
  imap (fun i x => (Z.of_nat i, x)) l.

(** ** position_controller.cpp *)

Definition set_positions (m : MatrixXd) (s : Controller) : Controller :=
  let t := motionPlanningTool_ s in
  with_motionPlanningTool
    (tool_with_tables m (display_planned_path_velocities_ t)
       (display_planned_path_accelerations_ t) t) s.

Definition set_velocities (m : MatrixXd) (s : Controller) : Controller :=
  let t := motionPlanningTool_ s in
  with_motionPlanningTool
    (tool_with_tables (display_planned_path_positions_ t) m
       (display_planned_path_accelerations_ t) t) s.

Definition set_accelerations (m : MatrixXd) (s : Controller) : Controller :=
  let t := motionPlanningTool_ s in
  with_motionPlanningTool
    (tool_with_tables (display_planned_path_positions_ t)
       (display_planned_path_velocities_ t) m t) s.

(** A planning tool that has not seen a path yet
    ([MotionPlanningTool] is declared outside the sources). *)
Definition fresh_tool : MotionPlanningTool :=
  {| moveit_msg_ := {| trajectory := [] |};
     points_ := 0;
     time_from_start_ := {| sec := 0; nsec := 0 |};
     display_planned_path_positions_ := [];
     display_planned_path_velocities_ := [];
     display_planned_path_accelerations_ := [] |}.

(** The constructor's member initialisers followed by
    [initPositionController], which the constructor calls inside
    [ROS_ASSERT] (so in a build that keeps assertions). *)
Definition initPositionController : Controller :=
  {| is_moving_ := false;
     move_time_ := 0.0;
     all_time_steps_ := 0;
     step_cnt_ := 0;
     moveit_execution_ := false;
     gripper_ := false;
     joint_id_ :=
       StdMap.insert
         (StdMap.insert
            (StdMap.insert (StdMap.insert [] "joint1" 1) "joint2" 2)
            "joint3" 3)
         "joint4" 4;
     present_joint_position_ := Eigen.Zero (MAX_JOINT_NUM + MAX_GRIPPER_NUM);
     goal_joint_position_ := Eigen.Zero MAX_JOINT_NUM;
     goal_gripper_position_ := Eigen.Zero MAX_GRIPPER_NUM;
     goal_joint_trajectory_ := [];
     goal_gripper_trajectory_ := [];
     motionPlanningTool_ := fresh_tool;
     sleeping_threads_ := 0%nat;
     emitted_ := [ROS_INFO "open_manipulator_position_controller : Init OK!"] |}.

Section PositionController.

(** The sample interval ITERATION_TIME of position_controller.h. *)
Variable ITERATION_TIME : float.

(** [robotis_framework::calcMinimumJerkTra] of the robotis_math
    library: (pos, vel, accel) at the start, (pos, vel, accel) at the
    end, sample time, movement time; the result is one column. *)
Variable calcMinimumJerkTra :
  float -> float -> float -> float -> float -> float -> float -> float ->
  MatrixXd.

(** What a coefficient holds after [resize] and before it is written. *)
Variable uninitialized : float.

(** The first two statements of [calculateGripperGoalTrajectory],
    which the source heads "set movement time": the step count, and the
    movement time snapped to the tick grid. *)
Definition set_movement_time (s : Controller) : Result Controller :=
  let? n := or_crash
              (Double.to_int
                 (Double.floor (move_time_ s / ITERATION_TIME + 1.0)%float))
              BadConversion s in
  let s := with_all_time_steps n s in
  let? n1 := or_crash (int_ok (all_time_steps_ s - 1)) Overflow s in
  Ok (with_move_time (Double.of_int n1 * ITERATION_TIME)%float s).

Definition calculateGripperGoalTrajectory
    (initial_position target_position : VectorXd) (s : Controller)
  : Result Controller :=
  (* set movement time *)
  let? s := set_movement_time s in
  let? m := or_crash
              (Eigen.resize uninitialized (all_time_steps_ s) MAX_GRIPPER_NUM)
              BadSize s in
  let s := with_goal_gripper_trajectory m s in
  (* calculate gripper trajectory *)
  let? s :=
    for_each (upto MAX_GRIPPER_NUM)
      (fun index s =>
         let? init_position_value :=
           or_crash (Eigen.get initial_position index) OutOfBounds s in
         let? target_position_value :=
           or_crash (Eigen.get target_position index) OutOfBounds s in
         let trajectory :=
           calcMinimumJerkTra init_position_value 0.0 0.0
             target_position_value 0.0 0.0
             ITERATION_TIME (move_time_ s) in
         let? m :=
           or_crash
             (Eigen.assign_block_column (goal_gripper_trajectory_ s)
                index (all_time_steps_ s) trajectory)
             BadSize s in
         Ok (with_goal_gripper_trajectory m s))
      s in
  let s := with_step_cnt 0 s in
  let s := with_is_moving true s in
  let s := with_gripper true s in
  Ok (emit (ROS_INFO "Start Gripper Trajectory") s).

(** The body shared by [gripOn] and [gripOff], which differ in the
    goal angle only. *)
Definition grip (goal_angle : float) (s : Controller) : Result Controller :=
  let initial_position := Eigen.Zero MAX_GRIPPER_NUM in
  let? present := or_crash (Eigen.get (present_joint_position_ s) 4)
                    OutOfBounds s in
  let? initial_position := or_crash (Eigen.set initial_position 0 present)
                             OutOfBounds s in
  let? goal := or_crash (Eigen.set (goal_gripper_position_ s) 0 goal_angle)
                 OutOfBounds s in
  let s := with_goal_gripper_position goal s in
  let target_position := goal_gripper_position_ s in
  let s := with_move_time 2.0 s in
  calculateGripperGoalTrajectory initial_position target_position s.

Definition gripOn (s : Controller) : Result Controller :=
  grip (-75.0 * DEGREE2RADIAN)%float s.

Definition gripOff (s : Controller) : Result Controller :=
  grip (0.0 * DEGREE2RADIAN)%float s.

Definition moveGroupActionFeedbackMsgCallback (state : string)
    (s : Controller) : Controller :=
  if negb (is_moving_ s) && String.eqb state "MONITOR"
  then with_moveit_execution true s
  else s.

(** One iteration of the innermost loop of the trajectory thread: joint
    [_joint_index] of waypoint [_point_index]. *)
Definition ingest_joint (_point_index : Z) (point : JointTrajectoryPoint)
    (joint : Z * string) (s : Controller) : Result Controller :=
  let '(_joint_index, _joint_name) := joint in
  let? _joint_position :=
    or_crash (Eigen.get (positions point) _joint_index) OutOfBounds s in
  let? _joint_velocity :=
    or_crash (Eigen.get (velocities point) _joint_index) OutOfBounds s in
  let? _joint_acceleration :=
    or_crash (Eigen.get (accelerations point) _joint_index) OutOfBounds s in
  let '(ids, id) := StdMap.index (joint_id_ s) _joint_name in
  let s := with_joint_id ids s in
  let? m := or_crash
              (Eigen.coeffRef
                 (display_planned_path_positions_ (motionPlanningTool_ s))
                 _point_index (id - 1) _joint_position)
              OutOfBounds s in
  let s := set_positions m s in
  let '(ids, id) := StdMap.index (joint_id_ s) _joint_name in
  let s := with_joint_id ids s in
  let? m := or_crash
              (Eigen.coeffRef
                 (display_planned_path_velocities_ (motionPlanningTool_ s))
                 _point_index (id - 1) _joint_velocity)
              OutOfBounds s in
  let s := set_velocities m s in
  let '(ids, id) := StdMap.index (joint_id_ s) _joint_name in
  let s := with_joint_id ids s in
  let? m := or_crash
              (Eigen.coeffRef
                 (display_planned_path_accelerations_ (motionPlanningTool_ s))
                 _point_index (id - 1) _joint_acceleration)
              OutOfBounds s in
  Ok (set_accelerations m s).

(** Waypoint [_point_index] of a trajectory (the local [via_time], which
    is written and never read, is left out). *)
Definition ingest_point (names : list string)
    (p : Z * JointTrajectoryPoint) (s : Controller) : Result Controller :=
  let '(_point_index, point) := p in
  let s := with_motionPlanningTool
             (tool_with_time (time_from_start point) (motionPlanningTool_ s))
             s in
  for_each (indexed names) (ingest_joint _point_index point) s.

(** Every row of the position table starts as the goal joint position. *)
Definition prefill_cell (_point_index _name_index : Z) (s : Controller)
  : Result Controller :=
  let? g := or_crash (Eigen.get (goal_joint_position_ s) _name_index)
              OutOfBounds s in
  let? m := or_crash
              (Eigen.coeffRef
                 (display_planned_path_positions_ (motionPlanningTool_ s))
                 _point_index _name_index g)
              OutOfBounds s in
  Ok (set_positions m s).

(** One trajectory of the message. *)
Definition ingest_trajectory (tra : RobotTrajectory) (s : Controller)
  : Result Controller :=
  let jt := joint_trajectory tra in
  let s := with_motionPlanningTool
             (tool_with_points (Z.of_nat (length (points jt)))
                (motionPlanningTool_ s)) s in
  let n := points_ (motionPlanningTool_ s) in
  let? p := or_crash (Eigen.resize uninitialized n MAX_JOINT_NUM) BadSize s in
  let? v := or_crash (Eigen.resize uninitialized n MAX_JOINT_NUM) BadSize s in
  let? a := or_crash (Eigen.resize uninitialized n MAX_JOINT_NUM) BadSize s in
  let s := with_motionPlanningTool
             (tool_with_tables p v a (motionPlanningTool_ s)) s in
  let? s :=
    for_each (upto n)
      (fun _point_index =>
         for_each (upto MAX_JOINT_NUM) (prefill_cell _point_index))
      s in
  for_each (indexed (points jt)) (ingest_point (joint_names jt)) s.

(** [moveItTragectoryGenerateThread], up to its half-second sleep. *)
Definition thread_before_sleep (s : Controller) : Result Controller :=
  let? s := for_each (trajectory (moveit_msg_ (motionPlanningTool_ s)))
              ingest_trajectory s in
  let s := with_move_time (toSec (time_from_start_ (motionPlanningTool_ s)))
             s in
  Ok (with_all_time_steps (points_ (motionPlanningTool_ s)) s).

(** [moveItTragectoryGenerateThread], from the sleep on. *)
Definition thread_after_sleep (s : Controller) : Controller :=
  let s := with_goal_joint_trajectory
             (display_planned_path_positions_ (motionPlanningTool_ s)) s in
  let s := emit (ROS_INFO "Get Joint Trajectory") s in
  if moveit_execution_ s then
    let s := with_is_moving true s in
    let s := with_step_cnt 0 s in
    let s := with_moveit_execution false s in
    emit (ROS_INFO "Send Motion Trajectory") s
  else s.

(** The thread run from start to end with nothing in between. *)
Definition moveItTragectoryGenerateThread (s : Controller)
  : Result Controller :=
  let? s := thread_before_sleep s in
  Ok (thread_after_sleep s).

(** The callback stores the message; the thread it starts is
    [moveItTragectoryGenerateThread]. *)
Definition displayPlannedPathMsgCallback (msg : DisplayTrajectory)
    (s : Controller) : Controller :=
  with_motionPlanningTool (tool_with_msg msg (motionPlanningTool_ s)) s.

Definition presentJointPositionMsgCallback (msg : JointState)
    (s : Controller) : Result Controller :=
  for_each (upto (MAX_JOINT_NUM + MAX_GRIPPER_NUM))
    (fun index s =>
       let? x := or_crash (Eigen.get (position msg) index)
                   OutOfRangeThrown s in
       let? v := or_crash (Eigen.set (present_joint_position_ s) index x)
                   OutOfBounds s in
       Ok (with_present_joint_position v s))
    s.

Definition gripperPositionMsgCallback (data : string) (s : Controller)
  : Result Controller :=
  if String.eqb data "grip_on" then gripOn s
  else if String.eqb data "grip_off" then gripOff s
  else
    Ok (emit
          (ROS_ERROR
             "If you want to grip or release something, publish 'grip_on' or 'grip_off'")
          s).

(** The message [process] builds on every call: the registered joints
    in key order, then the gripper. *)
Definition joint_state_entry (joint_name : string)
    (acc : Controller * JointState) : Result (Controller * JointState) :=
  let '(s, msg) := acc in
  let '(ids, id) := StdMap.index (joint_id_ s) joint_name in
  let s := with_joint_id ids s in
  let? x := or_crash (Eigen.get (goal_joint_position_ s) (id - 1))
              OutOfBounds s in
  Ok (s, {| name := name msg ++ [joint_name];
            position := position msg ++ [x] |}).

Fixpoint joint_state_entries (names : list string)
    (acc : Controller * JointState) : Result (Controller * JointState) :=
  match names with
  | [] => Ok acc
  | n :: names' =>
      let? acc' := joint_state_entry n acc in
      joint_state_entries names' acc'
  end.

(** The first part of [process]: while moving, the goal position becomes
    row [step_cnt_] of the active trajectory and the step advances. *)
Definition advance (s : Controller) : Result Controller :=
  if is_moving_ s then
    let? s :=
      if gripper_ s then
        for_each (upto MAX_GRIPPER_NUM)
          (fun index s =>
             let? x := or_crash
                         (Eigen.coeff (goal_gripper_trajectory_ s)
                            (step_cnt_ s) index)
                         OutOfBounds s in
             let? v := or_crash
                         (Eigen.set (goal_gripper_position_ s) index x)
                         OutOfBounds s in
             Ok (with_goal_gripper_position v s))
          s
      else
        for_each (upto MAX_JOINT_NUM)
          (fun index s =>
             let? x := or_crash
                         (Eigen.coeff (goal_joint_trajectory_ s)
                            (step_cnt_ s) index)
                         OutOfBounds s in
             let? v := or_crash
                         (Eigen.set (goal_joint_position_ s) index x)
                         OutOfBounds s in
             Ok (with_goal_joint_position v s))
          s in
    let? c := or_crash (int_ok (step_cnt_ s + 1)) Overflow s in
    Ok (with_step_cnt c s)
  else Ok s.

Definition process (s : Controller) : Result Controller :=
  let? s := advance s in
  let? (s, send_to_joint_position) :=
    joint_state_entries (StdMap.keys (joint_id_ s))
      (s, {| name := []; position := [] |}) in
  let gripper_name := "grip_joint" in
  let? g := or_crash (Eigen.get (goal_gripper_position_ s) 0)
              OutOfBounds s in
  let send_to_joint_position :=
    {| name := name send_to_joint_position ++ [gripper_name];
       position := position send_to_joint_position ++ [g] |} in
  let s := if is_moving_ s then emit (Publish send_to_joint_position) s
           else s in
  if is_moving_ s then
    if step_cnt_ s >=? all_time_steps_ s then
      let s := with_is_moving false s in
      let s := with_step_cnt 0 s in
      let s := with_gripper false s in
      Ok (emit (ROS_INFO "End Trajectory") s)
    else Ok s
  else Ok s.

End PositionController.

(** ** The trajectory generator *)

(** Modelled from the spec: [robotis_framework::calcMinimumJerkTra]
    belongs to the robotis_math library and is not among the sources.
    TrajectoryGenerator of the specification: for each sample time
    [t = i * dt] in [0, duration], the quintic polynomial that meets the
    position, velocity and acceleration given at both ends, with the
    closed-form minimum-jerk coefficients and
    [floor(duration/dt) + 1] samples.  Edge case of the specification:
    for [duration <= 0] or [dt <= 0] generation fails and no row is
    synthesized, not even a single one; the signature the controller
    calls returns a matrix, so the failure is the matrix without rows. *)
Definition minimumJerkTra (q0 v0 a0 q1 v1 a1 dt duration : float) : MatrixXd :=
  let T := duration in
  let T2 := (T * T)%float in
  let T3 := (T2 * T)%float in
  let T4 := (T3 * T)%float in
  let T5 := (T4 * T)%float in
  let h := (q1 - q0 - v0 * T - a0 * T2 / 2.0)%float in
  let hv := (v1 - v0 - a0 * T)%float in
  let ha := (a1 - a0)%float in
  let c3 := ((10.0 * h - 4.0 * hv * T + 0.5 * ha * T2) / T3)%float in
  let c4 := ((-15.0 * h + 7.0 * hv * T - ha * T2) / T4)%float in
  let c5 := ((6.0 * h - 3.0 * hv * T + 0.5 * ha * T2) / T5)%float in
  let sample (i : Z) : list float :=
    let t := (Double.of_int i * dt)%float in
    let t2 := (t * t)%float in
    let t3 := (t2 * t)%float in
    let t4 := (t3 * t)%float in
    let t5 := (t4 * t)%float in
    [(q0 + v0 * t + 0.5 * a0 * t2 + c3 * t3 + c4 * t4 + c5 * t5)%float] in
  if PrimFloat.ltb 0 duration && PrimFloat.ltb 0 dt then
    match Double.to_int (Double.floor (duration / dt)%float) with
    | Some k => map sample (upto (k + 1))
    | None => []
    end
  else [].

(** Modelled from the spec: ITERATION_TIME is defined in
    position_controller.h, which is not among the sources; the tick
    interval of the specification's reference scenario, 0.01 s. *)
Definition TICK : float := 0.01%float.

(** ** The node as a reactive system

    The node's main loop calls [process] at the control rate and
    [ros::spinOnce] delivers the pending messages in between.  A planned
    path starts a thread; its run up to the sleep is taken with the
    arrival of the path, its run after the sleep is an event of its
    own, so that other messages may arrive while the thread sleeps. *)
Inductive Event :=
| Tick
| PresentJointStates (msg : JointState)
| MoveGroupFeedback (state : string)
| DisplayPlannedPath (msg : DisplayTrajectory)
| ThreadWakes
| GripperCommand (data : string).

Section Node.

Variable ITERATION_TIME : float.
Variable calcMinimumJerkTra :
  float -> float -> float -> float -> float -> float -> float -> float ->
  MatrixXd.
Variable uninitialized : float.

Definition handle (e : Event) (s : Controller) : Result Controller :=
  match e with
  | Tick => process s
  | PresentJointStates msg => presentJointPositionMsgCallback msg s
  | MoveGroupFeedback state => Ok (moveGroupActionFeedbackMsgCallback state s)
  | DisplayPlannedPath msg =>
      let s := displayPlannedPathMsgCallback msg s in
      let? s := thread_before_sleep uninitialized s in
      Ok (with_sleeping_threads (S (sleeping_threads_ s)) s)
  | ThreadWakes =>
      match sleeping_threads_ s with
      | O => Ok s
      | S k => Ok (with_sleeping_threads k (thread_after_sleep s))
      end
  | GripperCommand data =>
      gripperPositionMsgCallback ITERATION_TIME calcMinimumJerkTra
        uninitialized data s
  end.

Fixpoint run (events : list Event) (s : Controller) : Result Controller :=
  match events with
  | [] => Ok s
  | e :: events' => let? s' := handle e s in run events' s'
  end.

End Node.

(** Runs of [process] alone: [k] ticks of the main loop with no message
    in between. *)
Fixpoint ticks (k : nat) (s : Controller) : Result Controller :=
  match k with
  | O => Ok s
  | S k' => let? s' := process s in ticks k' s'
  end.

(** ** open_manipulator_x_teleop_joystick.cpp *)

Module Teleop.

Definition NUM_OF_JOINT : Z := 4.
Definition DELTA : float := 0.01%float.
Definition JOINT_DELTA : float := 0.05%float.
Definition PATH_TIME : float := 0.5%float.

(** open_manipulator_msgs/srv/SetJointPosition, request part. *)
Record SetJointPosition_Request := {
  jp_planning_group : string;
  jp_joint_name : list string;
  jp_position : list float;
  jp_path_time : float
}.

(** open_manipulator_msgs/srv/SetKinematicsPose, request part (the
    fields the node leaves at their defaults are not listed). *)
Record SetKinematicsPose_Request := {
  kp_planning_group : string;
  kp_position_x : float;
  kp_position_y : float;
  kp_position_z : float;
  kp_path_time : float
}.

(** A request handed to one of the three service clients. *)
Inductive Sent :=
| goal_joint_space_path (r : SetJointPosition_Request)
| goal_tool_control (r : SetJointPosition_Request)
| goal_task_space_path_from_present_position_only
    (r : SetKinematicsPose_Request).

(** The node: its two position members and the requests sent so far,
    oldest first. *)
Record Node := {
  present_joint_angle_ : list float;
  present_kinematic_position_ : list float;
  sent_ : list Sent
}.

(** The constructor: both vectors resized, nothing sent. *)
Definition fresh_node : Node :=
  {| present_joint_angle_ := replicate (Z.to_nat NUM_OF_JOINT) 0%float;
     present_kinematic_position_ := replicate 3 0%float;
     sent_ := [] |}.

(** A call either returns a [bool] or leaves by the [std::out_of_range]
    that [vector::at] throws. *)
Inductive Outcome :=
| Returns (value : bool) (node : Node)
| Throws_out_of_range (node : Node).

(** [client->async_send_request(request, callback)]: the request is
    queued; the callback runs later, when the response arrives. *)
Definition async_send_request (r : Sent) (n : Node) : Node :=
  {| present_joint_angle_ := present_joint_angle_ n;
     present_kinematic_position_ := present_kinematic_position_ n;
     sent_ := sent_ n ++ [r] |}.

(** The lambda given to [async_send_request]; what it returns goes to
    the client library, not to the caller of the wrapper. *)
Definition response_received_callback (is_planned : bool) : bool :=
  is_planned.

Definition set_joint_space_path (joint_name : list string)
    (joint_angle : list float) (path_time : float) (n : Node) : Outcome :=
  let request :=
    {| jp_planning_group := ""; jp_joint_name := joint_name;
       jp_position := joint_angle; jp_path_time := path_time |} in
  let n := async_send_request (goal_joint_space_path request) n in
  Returns false n.

Definition set_tool_control (joint_angle : list float) (n : Node)
  : Outcome :=
  let request :=
    {| jp_planning_group := ""; jp_joint_name := [] ++ ["gripper"];
       jp_position := joint_angle; jp_path_time := 0.0 |} in
  let n := async_send_request (goal_tool_control request) n in
  Returns false n.

Definition set_task_space_path_from_present_position_only
    (kinematics_pose : list float) (path_time : float) (n : Node)
  : Outcome :=
  match kinematics_pose !! 0%nat with
  | None => Throws_out_of_range n
  | Some x =>
      match kinematics_pose !! 1%nat with
      | None => Throws_out_of_range n
      | Some y =>
          match kinematics_pose !! 2%nat with
          | None => Throws_out_of_range n
          | Some z =>
              let request :=
                {| kp_planning_group := "gripper";
                   kp_position_x := x; kp_position_y := y;
                   kp_position_z := z; kp_path_time := path_time |} in
              let n :=
                async_send_request
                  (goal_task_space_path_from_present_position_only request)
                  n in
              Returns false n
          end
      end
  end.

End Teleop.

(** ** One tick, as a function of a well-formed state

    The definitions below say what a call of [process] amounts to when
    every access it makes is inside its container. *)

(** Every registered id names a column of the joint vector. *)
Definition ids_valid (ids : JointIdMap) : bool :=
  forallb (fun kv => (1 <=? snd kv) && (snd kv <=? MAX_JOINT_NUM)) ids.

(** The goal vectors have the sizes [initPositionController] gives them. *)
Definition goals_sized (s : Controller) : Prop :=
  length (goal_joint_position_ s) = Z.to_nat MAX_JOINT_NUM /\
  length (goal_gripper_position_ s) = Z.to_nat MAX_GRIPPER_NUM.

(** The position [process] sends for a registered joint. *)
Definition joint_setpoint (s : Controller) (joint_name : string) : float :=
  default 0%float
    (StdMap.find (joint_id_ s) joint_name ≫=
     fun id => Eigen.get (goal_joint_position_ s) (id - 1)).

(** The message [process] builds from the goal positions. *)
Definition setpoint (s : Controller) : JointState :=
  {| name := StdMap.keys (joint_id_ s) ++ ["grip_joint"];
     position :=
       map (joint_setpoint s) (StdMap.keys (joint_id_ s)) ++
       [default 0%float (Eigen.get (goal_gripper_position_ s) 0)] |}.

(** The buffer being played, and the number of its columns that are read. *)
Definition active_trajectory (s : Controller) : MatrixXd :=
  if gripper_ s then goal_gripper_trajectory_ s else goal_joint_trajectory_ s.

Definition active_width (s : Controller) : nat :=
  if gripper_ s then Z.to_nat MAX_GRIPPER_NUM else Z.to_nat MAX_JOINT_NUM.

(** The state after [advance] has copied [row] and stepped. *)
Definition advanced (row : list float) (s : Controller) : Controller :=
  with_step_cnt (step_cnt_ s + 1)
    (if gripper_ s
     then with_goal_gripper_position (take (active_width s) row) s
     else with_goal_joint_position (take (active_width s) row) s).

(** The state after the end of a trajectory. *)
Definition stopped (s : Controller) : Controller :=
  emit (ROS_INFO "End Trajectory")
    (with_gripper false (with_step_cnt 0 (with_is_moving false s))).

(** The state after a tick that plays [row]. *)
Definition ticked (row : list float) (s : Controller) : Controller :=
  let s1 := advanced row s in
  let s2 := emit (Publish (setpoint s1)) s1 in
  if step_cnt_ s2 >=? all_time_steps_ s2 then stopped s2 else s2.

(** The first [n] rows of the active buffer are there, each with the
    columns that are read. *)
Definition rows_ready (s : Controller) (n : Z) : bool :=
  (n <=? Eigen.rows (active_trajectory s)) &&
  forallb (fun row => Nat.leb (active_width s) (length row))
    (take (Z.to_nat n) (active_trajectory s)).


(** The controller is idle, with nothing left of the motion. *)
Definition idle (s : Controller) : Prop :=
  is_moving_ s = false /\ step_cnt_ s = 0 /\ gripper_ s = false.

(** The state the examples play from: grip_on has just been handled,
    right after start-up. *)
Definition scenario_A_armed : Controller :=
  match
    gripperPositionMsgCallback TICK minimumJerkTra 0%float "grip_on"
      initPositionController
  with
  | Ok s => s
  | Crash _ s => s
  end.

(** ** A planned path, as a function of a well-formed message *)

(** [joint_name] is in the table, with the id of a column. *)
Definition registered (ids : JointIdMap) (joint_name : string) : bool :=
  match StdMap.find ids joint_name with
  | Some id => (1 <=? id) && (id <=? MAX_JOINT_NUM)
  | None => false
  end.

(** The waypoint has a position, a velocity and an acceleration for each
    of the [k] joints of its trajectory. *)
Definition complete (k : nat) (p : JointTrajectoryPoint) : bool :=
  Nat.leb k (length (positions p)) &&
  Nat.leb k (length (velocities p)) &&
  Nat.leb k (length (accelerations p)).

Definition trajectory_well_formed (ids : JointIdMap) (tra : RobotTrajectory)
  : bool :=
  let jt := joint_trajectory tra in
  forallb (registered ids) (joint_names jt) &&
  forallb (complete (length (joint_names jt))) (points jt).

(** The column written for [joint_name]. *)
Definition column (ids : JointIdMap) (joint_name : string) : nat :=
  Z.to_nat (default 0 (StdMap.find ids joint_name) - 1).

(** The write of one joint of a waypoint into a row of the position
    table: the joint's value goes to the joint's column. *)
Definition write_joint (ids : JointIdMap) (values : list float)
    (r : list float) (joint : Z * string) : list float :=
  <[column ids (snd joint) :=
      default 0%float (Eigen.get values (fst joint))]> r.

(** A row of the position table: [row] with the joints of the trajectory
    written in turn. *)
Definition overlay (ids : JointIdMap) (names : list string)
    (values : list float) (row : list float) : list float :=
  fold_left (write_joint ids values) (indexed names) row.

(** The position table of a trajectory: one row per waypoint, the goal
    joint position overlaid with the waypoint. *)
Definition planned_positions (ids : JointIdMap) (goal : VectorXd)
    (tra : RobotTrajectory) : MatrixXd :=
  let jt := joint_trajectory tra in
  map (fun p => overlay ids (joint_names jt) (positions p) goal) (points jt).

(** [m] has [n] rows of [MAX_JOINT_NUM] columns. *)
Definition shaped (n : nat) (m : MatrixXd) : Prop :=
  length m = n /\
  forall i row, m !! i = Some row -> length row = Z.to_nat MAX_JOINT_NUM.

(** A planned path for the four joints, with two waypoints. *)
Definition example_path : DisplayTrajectory :=
  {| trajectory :=
       [{| joint_trajectory :=
             {| joint_names := ["joint1"; "joint2"; "joint3"; "joint4"];
                points :=
                  [{| positions := [0.1; 0.2; 0.3; 0.4]%float;
                      velocities := [0.0; 0.0; 0.0; 0.0]%float;
                      accelerations := [0.0; 0.0; 0.0; 0.0]%float;
                      time_from_start := {| sec := 0; nsec := 0 |} |};
                   {| positions := [0.5; 0.6; 0.7; 0.8]%float;
                      velocities := [0.0; 0.0; 0.0; 0.0]%float;
                      accelerations := [0.0; 0.0; 0.0; 0.0]%float;
                      time_from_start := {| sec := 1; nsec := 0 |} |}] |} |}]
  |}.

(** A planned path that moves joint1 and a joint the controller has not
    registered. *)
Definition path_with_unknown_joint : DisplayTrajectory :=
  {| trajectory :=
       [{| joint_trajectory :=
             {| joint_names := ["joint1"; "grip_joint"];
                points :=
                  [{| positions := [0.1; 0.2]%float;
                      velocities := [0.0; 0.0]%float;
                      accelerations := [0.0; 0.0]%float;
                      time_from_start := {| sec := 1; nsec := 0 |} |}] |} |}]
  |}.

(** ** The gate of planned paths *)

(** The state a run ends in, whether it completes or stops at a fault. *)
Definition outcome_state {X} (state : X -> Controller) (r : Result X)
  : Controller :=
  match r with
  | Ok x => state x
  | Crash _ s => s
  end.

(** Neither the playing flag nor the confirmation flag has changed. *)
Definition gate_kept (s s' : Controller) : Prop :=
  is_moving_ s' = is_moving_ s /\ moveit_execution_ s' = moveit_execution_ s.

(** Events that neither confirm an execution nor command the gripper. *)
Definition unconfirming (e : Event) : bool :=
  match e with
  | MoveGroupFeedback state => negb (String.eqb state "MONITOR")
  | GripperCommand data =>
      negb (String.eqb data "grip_on") && negb (String.eqb data "grip_off")
  | _ => true
  end.

(** ** A gripper command, as a function of a well-formed state *)

(** The state [calculateGripperGoalTrajectory] leaves when it arms a
    trajectory of [n] steps from [x] to [y], with tick [dt] and generator
    [gen]. *)
Definition gripper_armed (dt : float)
    (gen : float -> float -> float -> float -> float -> float -> float ->
           float -> MatrixXd)
    (n : Z) (x y : float) (s : Controller) : Controller :=
  let duration := (Double.of_int (n - 1) * dt)%float in
  emit (ROS_INFO "Start Gripper Trajectory")
    (with_gripper true
       (with_is_moving true
          (with_step_cnt 0
             (with_goal_gripper_trajectory
                (gen x 0.0 0.0 y 0.0 0.0 dt duration)%float
                (with_move_time duration (with_all_time_steps n s)))))).

(** A concrete state for the examples: the controller right after start-up,
    asked for a movement of [duration] seconds. *)
Definition requested (duration : float) : Controller :=
  with_move_time duration initPositionController.

(** The tool [t'] is [t] with other tables of [n] rows. *)
Definition retabled (n : nat) (t t' : MotionPlanningTool) : Prop :=
  shaped n (display_planned_path_positions_ t') /\
  shaped n (display_planned_path_velocities_ t') /\
  shaped n (display_planned_path_accelerations_ t') /\
  moveit_msg_ t' = moveit_msg_ t /\
  points_ t' = points_ t /\
  time_from_start_ t' = time_from_start_ t.

(** The tool [t'] is [t] with another position table. *)
Definition repositioned (t t' : MotionPlanningTool) : Prop :=
  display_planned_path_velocities_ t' = display_planned_path_velocities_ t /\
  display_planned_path_accelerations_ t'
  = display_planned_path_accelerations_ t /\
  moveit_msg_ t' = moveit_msg_ t /\
  points_ t' = points_ t /\
  time_from_start_ t' = time_from_start_ t.

(** ** Runs of the node *)

(** The id table of [s'] is that of [s], and the position vectors have
    kept their sizes. *)
Definition layout_kept (s s' : Controller) : Prop :=
  joint_id_ s' = joint_id_ s /\
  length (goal_joint_position_ s') = length (goal_joint_position_ s) /\
  length (goal_gripper_position_ s') = length (goal_gripper_position_ s) /\
  length (present_joint_position_ s')
  = length (present_joint_position_ s).

(** Events other than the arrival of a planned path. *)
Definition pathless (e : Event) : bool :=
  match e with
  | DisplayPlannedPath _ => false
  | _ => true
  end.

(** What the playback members satisfy as long as no planned path has
    arrived: the step is within the step count, no thread sleeps, a
    playing controller plays the gripper buffer, which has one row per
    step, and an idle one is at step 0 with the gripper flag down. *)
Definition gripper_playback (s : Controller) : Prop :=
  0 <= step_cnt_ s <= all_time_steps_ s /\
  sleeping_threads_ s = 0%nat /\
  if is_moving_ s
  then gripper_ s = true /\
       Eigen.rows (goal_gripper_trajectory_ s) = all_time_steps_ s
  else step_cnt_ s = 0 /\ gripper_ s = false.

(** The messages published so far, oldest first. *)
Definition published (s : Controller) : list JointState :=
  omap (fun e => match e with Publish msg => Some msg | _ => None end)
    (emitted_ s).

(** [f] applied to the state a result ends in. *)
Definition map_state (f : Controller -> Controller) (r : Result Controller)
  : Result Controller :=
  match r with
  | Ok s => Ok (f s)
  | Crash e s => Crash e (f s)
  end.

(** ** What a motion publishes *)

(** The goal vector of the gripper, or that of the joints. *)
Definition goal_of (gripper : bool) (s : Controller) : VectorXd :=
  if gripper then goal_gripper_position_ s else goal_joint_position_ s.

(** The message of a tick that plays [row] in the motion armed in [s0]:
    the one [process] builds once [row] is the goal of the active kind. *)
Definition setpoint_of_row (s0 : Controller) (row : list float)
  : JointState :=
  setpoint (advanced row s0).

(** [k] ticks into the motion armed in [s0]: the buffers and the layout
    are those of [s0], the goal of the other kind is untouched, the rows
    played so far have been published in order, and the goal of the
    active kind is the row played last. *)
Definition played (s0 : Controller) (k : nat) (s : Controller) : Prop :=
  joint_id_ s = joint_id_ s0 /\
  all_time_steps_ s = all_time_steps_ s0 /\
  goal_joint_trajectory_ s = goal_joint_trajectory_ s0 /\
  goal_gripper_trajectory_ s = goal_gripper_trajectory_ s0 /\
  goals_sized s /\
  goal_of (negb (gripper_ s0)) s = goal_of (negb (gripper_ s0)) s0 /\
  published s
  = published s0 ++
    map (setpoint_of_row s0) (take k (active_trajectory s0)) /\
  (forall k' row,
     k = S k' -> active_trajectory s0 !! k' = Some row ->
     goal_of (gripper_ s0) s = take (active_width s0) row) /\
  if Z.of_nat k <? all_time_steps_ s0
  then is_moving_ s = true /\ gripper_ s = gripper_ s0 /\
       step_cnt_ s = Z.of_nat k
  else idle s.

(** ** The callbacks of the joystick node *)

Module Joystick.

(** sensor_msgs/msg/Joy: [float32[] axes] and [int32[] buttons].  An axis
    is promoted to [double] where it is compared with a [double]; every
    [float] is a [double], so a list of doubles covers the axes. *)
Record Joy := { axes : list float; buttons : list Z }.

(** open_manipulator_msgs/msg/KinematicsPose: the position of its pose. *)
Record KinematicsPose := {
  pose_position_x : float;
  pose_position_y : float;
  pose_position_z : float
}.

(** The node, and the lines it has printed on standard output. *)
Record State := { node : Teleop.Node; stdout : list string }.

(** A callback returns, or it is left by the [std::out_of_range] that
    [vector::at] throws. *)
Inductive Callback :=
| Returned (s : State)
| Threw (s : State).

Definition with_present_joint_angle (v : list float) (s : State) : State :=
  {| node :=
       {| Teleop.present_joint_angle_ := v;
          Teleop.present_kinematic_position_ :=
            Teleop.present_kinematic_position_ (node s);
          Teleop.sent_ := Teleop.sent_ (node s) |};
     stdout := stdout s |}.

Definition with_present_kinematic_position (v : list float) (s : State)
  : State :=
  {| node :=
       {| Teleop.present_joint_angle_ := Teleop.present_joint_angle_ (node s);
          Teleop.present_kinematic_position_ := v;
          Teleop.sent_ := Teleop.sent_ (node s) |};
     stdout := stdout s |}.

(** [printf(line)]; the newline that ends the line is not kept. *)
Definition printf (line : string) (s : State) : State :=
  {| node := node s; stdout := stdout s ++ [line] |}.

(** One iteration of the loop of [joint_states_callback], for the name
    at index [i]: the new [temp_angle], or nothing when
    [msg->position.at(i)] throws. *)
Definition joint_states_step (msg : JointState) (temp_angle : list float)
    (i : nat) (joint_name : string) : option (list float) :=
  if String.eqb joint_name "joint1" then
    position msg !! i ≫= fun x => Some (<[0%nat := x]> temp_angle)
  else if String.eqb joint_name "joint2" then
    position msg !! i ≫= fun x => Some (<[1%nat := x]> temp_angle)
  else if String.eqb joint_name "joint3" then
    position msg !! i ≫= fun x => Some (<[2%nat := x]> temp_angle)
  else if String.eqb joint_name "joint4" then
    position msg !! i ≫= fun x => Some (<[3%nat := x]> temp_angle)
  else Some temp_angle.

(** The loop from index [i] on, over the names that are left. *)
Fixpoint joint_states_loop (msg : JointState) (i : nat) (names : list string)
    (temp_angle : list float) : option (list float) :=
  match names with
  | [] => Some temp_angle
  | joint_name :: names' =>
      joint_states_step msg temp_angle i joint_name ≫=
      joint_states_loop msg (S i) names'
  end.

Definition joint_states_callback (msg : JointState) (s : State) : Callback :=
  let temp_angle := replicate (Z.to_nat Teleop.NUM_OF_JOINT) 0%float in
  match joint_states_loop msg 0 (name msg) temp_angle with
  | Some temp_angle => Returned (with_present_joint_angle temp_angle s)
  | None => Threw s
  end.

Definition kinematics_pose_callback (msg : KinematicsPose) (s : State)
  : Callback :=
  let temp_position := [] in
  let temp_position := temp_position ++ [pose_position_x msg] in
  let temp_position := temp_position ++ [pose_position_y msg] in
  let temp_position := temp_position ++ [pose_position_z msg] in
  Returned (with_present_kinematic_position temp_position s).

(** The end of a branch of [set_goal]: the wrapper's [bool] is dropped,
    an exception goes on to the caller. *)
Definition call (wrapper : Teleop.Node -> Teleop.Outcome) (s : State)
  : Callback :=
  match wrapper (node s) with
  | Teleop.Returns _ n => Returned {| node := n; stdout := stdout s |}
  | Teleop.Throws_out_of_range n => Threw {| node := n; stdout := stdout s |}
  end.

(** [l.at(i)], then [k] with the element. *)
Definition at_ {A} (l : list A) (i : nat) (s : State) (k : A -> Callback)
  : Callback :=
  match l !! i with
  | Some x => k x
  | None => Threw s
  end.

Section Literals.

(** [set_goal] takes a [const char*] and compares it with [==], so it
    compares addresses, not characters.  Where string literals are
    stored, and whether two literals with the same characters share
    their storage, is left to the compiler: [literal_of_set_goal c] is
    the address of the literal [c] written in [set_goal],
    [literal_of_joy_callback c] that of the literal [c] written in
    [joy_callback]. *)
Variable literal_of_set_goal : string -> Z.
Variable literal_of_joy_callback : string -> Z.

(** The local [goalJoint], which is resized and never used, is left
    out. *)
Definition set_goal (str : Z) (s : State) : Callback :=
  let goalPose := replicate 3 0%float in
  if str =? literal_of_set_goal "x+" then
    let s := printf "increase(++) x axis in cartesian space" s in
    let goalPose := <[0%nat := Teleop.DELTA]> goalPose in
    call (Teleop.set_task_space_path_from_present_position_only
            goalPose Teleop.PATH_TIME) s
  else if str =? literal_of_set_goal "x-" then
    let s := printf "decrease(--) x axis in cartesian space" s in
    let goalPose := <[0%nat := (- Teleop.DELTA)%float]> goalPose in
    call (Teleop.set_task_space_path_from_present_position_only
            goalPose Teleop.PATH_TIME) s
  else if str =? literal_of_set_goal "y+" then
    let s := printf "increase(++) y axis in cartesian space" s in
    let goalPose := <[1%nat := Teleop.DELTA]> goalPose in
    call (Teleop.set_task_space_path_from_present_position_only
            goalPose Teleop.PATH_TIME) s
  else if str =? literal_of_set_goal "y-" then
    let s := printf "decrease(--) y axis in cartesian space" s in
    let goalPose := <[1%nat := (- Teleop.DELTA)%float]> goalPose in
    call (Teleop.set_task_space_path_from_present_position_only
            goalPose Teleop.PATH_TIME) s
  else if str =? literal_of_set_goal "z+" then
    let s := printf "increase(++) z axis in cartesian space" s in
    let goalPose := <[2%nat := Teleop.DELTA]> goalPose in
    call (Teleop.set_task_space_path_from_present_position_only
            goalPose Teleop.PATH_TIME) s
  else if str =? literal_of_set_goal "z-" then
    let s := printf "decrease(--) z axis in cartesian space" s in
    let goalPose := <[2%nat := (- Teleop.DELTA)%float]> goalPose in
    call (Teleop.set_task_space_path_from_present_position_only
            goalPose Teleop.PATH_TIME) s
  else if str =? literal_of_set_goal "gripper open" then
    let s := printf "open gripper" s in
    let joint_angle := [] ++ [0.01%float] in
    call (Teleop.set_tool_control joint_angle) s
  else if str =? literal_of_set_goal "gripper close" then
    let s := printf "close gripper" s in
    let joint_angle := [] ++ [(-0.01)%float] in
    call (Teleop.set_tool_control joint_angle) s
  else if str =? literal_of_set_goal "home" then
    let s := printf "home pose" s in
    let path_time := 2.0%float in
    let joint_name := ["joint1"; "joint2"; "joint3"; "joint4"] in
    let joint_angle := [0.0; -1.05; 0.35; 0.70]%float in
    call (Teleop.set_joint_space_path joint_name joint_angle path_time) s
  else if str =? literal_of_set_goal "init" then
    let s := printf "init pose" s in
    let path_time := 2.0%float in
    let joint_name := ["joint1"; "joint2"; "joint3"; "joint4"] in
    let joint_angle := [0.0; 0.0; 0.0; 0.0]%float in
    call (Teleop.set_joint_space_path joint_name joint_angle path_time) s
  else Returned s.

(** The first chain of [joy_callback]: at most one motion. *)
Definition joy_motion (msg : Joy) (s : State) : Callback :=
  at_ (axes msg) 1 s (fun a =>
  if PrimFloat.leb 0.9 a then set_goal (literal_of_joy_callback "x+") s else
  at_ (axes msg) 1 s (fun a =>
  if PrimFloat.leb a (-0.9) then set_goal (literal_of_joy_callback "x-") s else
  at_ (axes msg) 0 s (fun a =>
  if PrimFloat.leb 0.9 a then set_goal (literal_of_joy_callback "y+") s else
  at_ (axes msg) 0 s (fun a =>
  if PrimFloat.leb a (-0.9) then set_goal (literal_of_joy_callback "y-") s else
  at_ (buttons msg) 3 s (fun b =>
  if b =? 1 then set_goal (literal_of_joy_callback "z+") s else
  at_ (buttons msg) 0 s (fun b =>
  if b =? 1 then set_goal (literal_of_joy_callback "z-") s else
  at_ (buttons msg) 5 s (fun b =>
  if b =? 1 then set_goal (literal_of_joy_callback "home") s else
  at_ (buttons msg) 4 s (fun b =>
  if b =? 1 then set_goal (literal_of_joy_callback "init") s else
  Returned s)))))))).

(** The second chain: at most one gripper command. *)
Definition joy_gripper (msg : Joy) (s : State) : Callback :=
  at_ (buttons msg) 2 s (fun b =>
  if b =? 1 then set_goal (literal_of_joy_callback "gripper close") s else
  at_ (buttons msg) 1 s (fun b =>
  if b =? 1 then set_goal (literal_of_joy_callback "gripper open") s else
  Returned s)).

Definition joy_callback (msg : Joy) (s : State) : Callback :=
  match joy_motion msg s with
  | Returned s => joy_gripper msg s
  | Threw s => Threw s
  end.

End Literals.

(** The words [set_goal] knows. *)
Definition commands : list string :=
  ["x+"; "x-"; "y+"; "y-"; "z+"; "z-";
   "gripper open"; "gripper close"; "home"; "init"].

(** The component of [present_joint_angle_] that [joint_states_callback]
    writes for a joint name. *)
Definition slot (joint_name : string) : option nat :=
  if String.eqb joint_name "joint1" then Some 0%nat
  else if String.eqb joint_name "joint2" then Some 1%nat
  else if String.eqb joint_name "joint3" then Some 2%nat
  else if String.eqb joint_name "joint4" then Some 3%nat
  else None.

(** The state a callback ends in. *)
Definition final (c : Callback) : State :=
  match c with
  | Returned s => s
  | Threw s => s
  end.

(** A compiler that stores each literal once: the address of a literal
    is its rank among the words used, whichever function
    it is written in. *)
Definition pooled (c : string) : Z :=
  (fix rank (l : list string) (n : Z) : Z :=
     match l with
     | [] => n
     | c' :: l' => if String.eqb c' c then n else rank l' (n + 1)
     end) commands 4096.

End Joystick.

(** ** What a joystick message may cause *)

(** From [s] to [s']: at most [n] requests were sent, one line was
    printed for each, and the node's view of the arm did not change. *)
Definition sent_at_most (n : nat) (s s' : Joystick.State) : Prop :=
  Teleop.present_joint_angle_ (Joystick.node s')
  = Teleop.present_joint_angle_ (Joystick.node s) /\
  Teleop.present_kinematic_position_ (Joystick.node s')
  = Teleop.present_kinematic_position_ (Joystick.node s) /\
  exists (requests : list Teleop.Sent) (lines : list string),
    Teleop.sent_ (Joystick.node s')
    = Teleop.sent_ (Joystick.node s) ++ requests /\
    Joystick.stdout s' = Joystick.stdout s ++ lines /\
    length requests = length lines /\
    (length requests <= n)%nat.

(** The literals of [set_goal] have addresses of their own. *)
Definition distinct_literals (literal : string -> Z) : Prop :=
  forall c c',
    In c Joystick.commands -> In c' Joystick.commands ->
    literal c = literal c' -> c = c'.

(** The request of a step of [Teleop.DELTA] along x. *)
Definition step_along_x : Teleop.Sent :=
  Teleop.goal_task_space_path_from_present_position_only
    {| Teleop.kp_planning_group := "gripper";
       Teleop.kp_position_x := Teleop.DELTA;
       Teleop.kp_position_y := 0.0;
       Teleop.kp_position_z := 0.0;
       Teleop.kp_path_time := Teleop.PATH_TIME |}.

(** * Properties *)

(** ** Containers *)

Lemma to_int_range (x : float) (n : Z) :
  Double.to_int x = Some n -> Double.INT_MIN <= n <= Double.INT_MAX.
Proof.
  unfold Double.to_int.
  destruct (Prim2SF x) as [sg| | |sg m e]; try discriminate.
  - intros [= <-]. unfold Double.INT_MIN, Double.INT_MAX. lia.
  - destruct (_ && _) eqn:E; [|discriminate].
    intros [= <-]. apply andb_true_iff in E. lia.
Qed.

Lemma int_ok_in_range (n : Z) :
  Double.INT_MIN <= n <= Double.INT_MAX -> int_ok n = Some n.
Proof.
  intros [H1 H2]. unfold int_ok.
  destruct (Double.INT_MIN <=? n) eqn:E1; [|lia].
  destruct (n <=? Double.INT_MAX) eqn:E2; [reflexivity|lia].
Qed.

Lemma write_column_fresh (fill : float) (src : MatrixXd) :
  forallb (fun row => Z.of_nat (length row) =? 1) src = true ->
  Eigen.write_column (replicate (length src) [fill]) 0 src = src.
Proof.
  induction src as [|row src IH]; simpl; [reflexivity|].
  intros H. apply andb_true_iff in H as [Hrow Hsrc].
  apply Z.eqb_eq in Hrow.
  destruct row as [|x [|y row]]; simpl length in Hrow; try lia.
  simpl. now rewrite IH.
Qed.

Lemma assign_block_column_fresh (fill : float) (n : Z) (src : MatrixXd) :
  0 <= n ->
  Eigen.has_shape src n 1 = true ->
  Eigen.assign_block_column
    (replicate (Z.to_nat n) (replicate (Z.to_nat 1) fill)) 0 n src = Some src.
Proof.
  intros Hn Hs. unfold Eigen.assign_block_column. rewrite Hs.
  unfold Eigen.has_shape, Eigen.rows in Hs.
  apply andb_true_iff in Hs as [Hrows Hcols].
  apply Z.eqb_eq in Hrows.
  assert (Hlen : Z.to_nat n = length src) by lia.
  unfold Eigen.rows. rewrite length_replicate.
  replace (0 <=? 0) with true by reflexivity.
  destruct (0 <=? n) eqn:E1; [|lia].
  destruct (n <=? Z.of_nat (Z.to_nat n)) eqn:E2;
    [|apply Z.leb_gt in E2; lia].
  rewrite firstn_all2 by (rewrite length_replicate; lia).
  assert (Hall : forallb (fun row : list float => 0 <? Z.of_nat (length row))
                   (replicate (Z.to_nat n) (replicate (Z.to_nat 1) fill))
                 = true).
  { apply forallb_forall. intros row Hin.
    apply list_elem_of_In, elem_of_replicate in Hin as [-> _]. reflexivity. }
  rewrite Hall. simpl. rewrite Hlen.
  f_equal. now apply write_column_fresh.
Qed.

(** Projections of updated states. *)
Tactic Notation "fields" :=
  cbn [is_moving_ move_time_ all_time_steps_ step_cnt_ moveit_execution_
       gripper_ joint_id_ present_joint_position_ goal_joint_position_
       goal_gripper_position_ goal_joint_trajectory_ goal_gripper_trajectory_
       motionPlanningTool_ sleeping_threads_ emitted_
       with_is_moving with_move_time with_all_time_steps with_step_cnt
       with_moveit_execution with_gripper with_joint_id
       with_present_joint_position with_goal_joint_position
       with_goal_gripper_position with_goal_joint_trajectory
       with_goal_gripper_trajectory with_motionPlanningTool
       with_sleeping_threads emit
       moveit_msg_ points_ time_from_start_ display_planned_path_positions_
       display_planned_path_velocities_ display_planned_path_accelerations_
       tool_with_msg tool_with_points tool_with_time tool_with_tables
       set_positions set_velocities set_accelerations
       or_crash bind].

Tactic Notation "fields" "in" "*" :=
  cbn [is_moving_ move_time_ all_time_steps_ step_cnt_ moveit_execution_
       gripper_ joint_id_ present_joint_position_ goal_joint_position_
       goal_gripper_position_ goal_joint_trajectory_ goal_gripper_trajectory_
       motionPlanningTool_ sleeping_threads_ emitted_
       with_is_moving with_move_time with_all_time_steps with_step_cnt
       with_moveit_execution with_gripper with_joint_id
       with_present_joint_position with_goal_joint_position
       with_goal_gripper_position with_goal_joint_trajectory
       with_goal_gripper_trajectory with_motionPlanningTool
       with_sleeping_threads emit
       moveit_msg_ points_ time_from_start_ display_planned_path_positions_
       display_planned_path_velocities_ display_planned_path_accelerations_
       tool_with_msg tool_with_points tool_with_time tool_with_tables
       set_positions set_velocities set_accelerations
       or_crash bind] in *.

(** ** Gripper commands *)

Section GripperTrajectory.

Variable dt : float.
Variable gen :
  float -> float -> float -> float -> float -> float -> float -> float ->
  MatrixXd.
Variable fill : float.

Lemma calculateGripperGoalTrajectory_arms
    (initial_position target_position : VectorXd) (s : Controller)
    (n : Z) (x y : float) :
  Double.to_int (Double.floor (move_time_ s / dt + 1.0)%float) = Some n ->
  0 <= n ->
  Eigen.get initial_position 0 = Some x ->
  Eigen.get target_position 0 = Some y ->
  Eigen.has_shape
    (gen x 0.0 0.0 y 0.0 0.0 dt (Double.of_int (n - 1) * dt))%float n 1
  = true ->
  calculateGripperGoalTrajectory dt gen fill
    initial_position target_position s
  = Ok (gripper_armed dt gen n x y s).
Proof.
  intros Hn Hpos Hx Hy Hshape.
  unfold calculateGripperGoalTrajectory, set_movement_time.
  rewrite Hn. fields.
  rewrite int_ok_in_range
    by (apply to_int_range in Hn;
        unfold Double.INT_MIN, Double.INT_MAX in *; lia).
  fields. unfold Eigen.resize.
  destruct (0 <=? n) eqn:E; [|lia].
  replace (0 <=? MAX_GRIPPER_NUM) with true by reflexivity.
  cbn [andb]. fields.
  change (upto MAX_GRIPPER_NUM) with [0].
  cbn [for_each]. rewrite Hx, Hy. fields.
  change MAX_GRIPPER_NUM with 1.
  rewrite (assign_block_column_fresh fill n _ Hpos Hshape).
  reflexivity.
Qed.

(** A grip command towards [angle], issued when the gripper is observed
    at [x]. *)
Lemma grip_arms (angle : float) (s : Controller) (n : Z) (x : float) :
  Eigen.get (present_joint_position_ s) 4 = Some x ->
  (0 < length (goal_gripper_position_ s))%nat ->
  Double.to_int (Double.floor (2.0 / dt + 1.0)%float) = Some n ->
  0 <= n ->
  Eigen.has_shape
    (gen x 0.0 0.0 angle 0.0 0.0 dt (Double.of_int (n - 1) * dt))%float n 1
  = true ->
  grip dt gen fill angle s
  = Ok (gripper_armed dt gen n x angle
          (with_move_time 2.0
             (with_goal_gripper_position
                (<[0%nat := angle]> (goal_gripper_position_ s)) s))).
Proof.
  intros Hx Hg Hn Hpos Hshape. unfold grip.
  rewrite Hx. fields.
  change (Eigen.set (Eigen.Zero MAX_GRIPPER_NUM) 0 x) with (Some [x]).
  fields. unfold Eigen.set at 1.
  replace (0 <=? 0) with true by reflexivity.
  destruct (0 <? Z.of_nat (length (goal_gripper_position_ s))) eqn:E; [|lia].
  cbn [andb]. fields.
  apply calculateGripperGoalTrajectory_arms; try assumption.
  - reflexivity.
  - fields. unfold Eigen.get. simpl.
    destruct (goal_gripper_position_ s); [simpl in Hg; lia|reflexivity].
Qed.

End GripperTrajectory.

(** C1: a grip_on or grip_off command arms a freshly generated one-column
    trajectory: the generator is called with the observed gripper position
    (component 4 of the present configuration) as start, the commanded
    angle (-75 degrees in radians, or 0) as end, zero velocities and
    accelerations at both ends, and the requested 2 s snapped to the tick
    grid; playback is armed at step 0 of the gripper buffer.  With a tick
    of 0.01 s the duration is exactly 2.0, there are 201 steps, and rows 0
    and 200 of the armed table are the generator's first and last samples,
    hence as close to the start angle and to the target as the generator
    makes them. *)
Theorem grip_command_arms_gripper_trajectory
    (dt : float)
    (gen : float -> float -> float -> float -> float -> float -> float ->
           float -> MatrixXd)
    (fill : float) (data : string) (target : float) (s : Controller)
    (x : float) (n : Z) :
  (data = "grip_on" /\ target = (-75.0 * DEGREE2RADIAN)%float) \/
  (data = "grip_off" /\ target = 0.0%float) ->
  Eigen.get (present_joint_position_ s) 4 = Some x ->
  (0 < length (goal_gripper_position_ s))%nat ->
  Double.to_int (Double.floor (2.0 / dt + 1.0)%float) = Some n ->
  0 <= n ->
  Eigen.has_shape
    (gen x 0.0 0.0 target 0.0 0.0 dt (Double.of_int (n - 1) * dt))%float n 1
  = true ->
  exists s',
    gripperPositionMsgCallback dt gen fill data s = Ok s' /\
    goal_gripper_trajectory_ s'
    = (gen x 0.0 0.0 target 0.0 0.0 dt (move_time_ s'))%float /\
    move_time_ s' = (Double.of_int (n - 1) * dt)%float /\
    all_time_steps_ s' = n /\
    Eigen.rows (goal_gripper_trajectory_ s') = n /\
    step_cnt_ s' = 0 /\ is_moving_ s' = true /\ gripper_ s' = true /\
    Eigen.get (goal_gripper_position_ s') 0 = Some target /\
    (dt = TICK ->
     n = 201 /\ move_time_ s' = 2.0%float /\
     forall eps first last : float,
       Eigen.coeff (gen x 0.0 0.0 target 0.0 0.0 TICK 2.0)%float 0 0
       = Some first ->
       Eigen.coeff (gen x 0.0 0.0 target 0.0 0.0 TICK 2.0)%float 200 0
       = Some last ->
       Double.close eps first x = true ->
       Double.close eps last target = true ->
       exists row0 row200 : float,
         Eigen.coeff (goal_gripper_trajectory_ s') 0 0 = Some row0 /\
         Eigen.coeff (goal_gripper_trajectory_ s') 200 0 = Some row200 /\
         Double.close eps row0 x = true /\
         Double.close eps row200 target = true).
Proof.
  intros Hdata Hx Hg Hn Hpos Hshape.
  assert (Hgrip : gripperPositionMsgCallback dt gen fill data s
                  = grip dt gen fill target s).
  { destruct Hdata as [[-> ->] | [-> ->]]; reflexivity. }
  rewrite Hgrip, (grip_arms dt gen fill target s n x Hx Hg Hn Hpos Hshape).
  eexists; split; [reflexivity|].
  unfold gripper_armed. fields.
  repeat split.
  - unfold Eigen.has_shape in Hshape.
    apply andb_true_iff in Hshape as [Hrows _]. now apply Z.eqb_eq in Hrows.
  - unfold Eigen.get. simpl.
    destruct (goal_gripper_position_ s); [simpl in Hg; lia|reflexivity].
  - subst dt. revert Hn. vm_compute. congruence.
  - subst dt.
    assert (n = 201) as -> by (revert Hn; vm_compute; congruence).
    reflexivity.
  - intros eps first last Hfirst Hlast Hc0 Hc1. subst dt.
    assert (n = 201) as -> by (revert Hn; vm_compute; congruence).
    change (Double.of_int (201 - 1) * TICK)%float with 2.0%float.
    exists first, last. auto.
Qed.

(** Scenario A: grip_on right after start-up, tick 0.01 s, with the
    minimum-jerk generator. *)
Lemma grip_command_arms_gripper_trajectory_scenario_A :
  exists s',
    gripperPositionMsgCallback TICK minimumJerkTra 0%float "grip_on"
      initPositionController = Ok s' /\
    all_time_steps_ s' = 201 /\ move_time_ s' = 2.0%float /\
    step_cnt_ s' = 0 /\ is_moving_ s' = true /\ gripper_ s' = true /\
    exists row0 row200 : float,
      Eigen.coeff (goal_gripper_trajectory_ s') 0 0 = Some row0 /\
      Eigen.coeff (goal_gripper_trajectory_ s') 200 0 = Some row200 /\
      Double.close 1e-12 row0 0.0 = true /\
      Double.close 1e-12 row200 (-75.0 * DEGREE2RADIAN) = true.
Proof.
  destruct (grip_command_arms_gripper_trajectory TICK minimumJerkTra 0%float
              "grip_on" (-75.0 * DEGREE2RADIAN)%float initPositionController
              0%float 201)
    as (s' & Hrun & _ & _ & Hsteps & _ & Hcnt & Hmov & Hgrp & _ & Htick).
  - left. split; reflexivity.
  - reflexivity.
  - simpl. lia.
  - vm_compute. reflexivity.
  - lia.
  - vm_compute. reflexivity.
  - destruct (Htick eq_refl) as (_ & Htime & Hrows).
    destruct (Hrows 1e-12%float 0.0%float (-1.3089969389957474)%float)
      as (row0 & row200 & H0 & H200 & Hc0 & Hc200);
      try (vm_compute; reflexivity).
    exists s'. repeat (split; [assumption|]).
    exists row0, row200. repeat (split; [assumption|]). assumption.
Defined.

(** ** Step count and snapped duration *)

(** What [set_movement_time] computes, in double arithmetic. *)
Lemma set_movement_time_spec (dt : float) (s s' : Controller) :
  set_movement_time dt s = Ok s' ->
  exists n,
    Double.to_int (Double.floor (move_time_ s / dt + 1.0)%float) = Some n /\
    s' = with_move_time (Double.of_int (n - 1) * dt)%float
           (with_all_time_steps n s).
Proof.
  unfold set_movement_time.
  destruct (Double.to_int _) as [n|] eqn:Hn; [|discriminate].
  fields. destruct (int_ok (n - 1)) as [n1|] eqn:Hn1; [|discriminate].
  fields. intros [= <-]. exists n. split; [reflexivity|].
  unfold int_ok in Hn1. destruct (_ && _); [|discriminate].
  now injection Hn1 as <-.
Qed.

(** C2, refuted as stated: a request for 0.295 s at a tick of 0.01 s is
    given 30 steps and snapped to 29 ticks, 0.29 s; deriving the step
    count again from the snapped duration gives 29, not 30, and snapping
    again gives 0.28 s: in double arithmetic 0.29 / 0.01 lies just below
    29. *)
Lemma snapping_not_idempotent :
  match set_movement_time TICK (requested 0.295%float) with
  | Ok s1 =>
      all_time_steps_ s1 = 30 /\
      move_time_ s1 = 0.29%float /\
      match set_movement_time TICK s1 with
      | Ok s2 =>
          all_time_steps_ s2 = 29 /\
          move_time_ s2 = 0.28000000000000003%float /\
          all_time_steps_ s2 <> all_time_steps_ s1 /\
          move_time_ s2 <> move_time_ s1
      | Crash _ _ => False
      end
  | Crash _ _ => False
  end.
Proof.
  vm_compute. repeat split; discriminate.
Qed.

(** C2, amended: the step count is [floor(duration/dt + 1.0)] and the
    snapped duration [(numSteps - 1) * dt], both evaluated in double
    arithmetic.  For the duration every grip command requests, 2.0 s, at
    a tick of 0.01 s, the step count is 201 = floor(2.0/0.01) + 1, the
    snapped duration is 2.0 again, and snapping is idempotent: a second
    pass leaves the state as the first pass made it. *)
Theorem step_count_and_snapping :
  (forall (dt : float) (s s' : Controller),
     set_movement_time dt s = Ok s' ->
     exists n,
       Double.to_int (Double.floor (move_time_ s / dt + 1.0)%float) = Some n /\
       all_time_steps_ s' = n /\
       move_time_ s' = (Double.of_int (n - 1) * dt)%float) /\
  (forall s : Controller,
     exists s',
       set_movement_time TICK (with_move_time 2.0 s) = Ok s' /\
       Double.to_int (Double.floor (2.0 / TICK)%float) = Some (201 - 1) /\
       all_time_steps_ s' = 201 /\
       move_time_ s' = (Double.of_int (201 - 1) * TICK)%float /\
       move_time_ s' = 2.0%float /\
       set_movement_time TICK s' = Ok s').
Proof.
  split.
  - intros dt s s' Hrun.
    destruct (set_movement_time_spec dt s s' Hrun) as (n & Hn & ->).
    exists n. repeat split; assumption.
  - intros s. exists (with_move_time 2.0 (with_all_time_steps 201 s)).
    repeat split; vm_compute; reflexivity.
Qed.

(** ** Requests that the specification wants rejected *)

(** What [calculateGripperGoalTrajectory] leaves when the block
    assignment of the generated column is ill-formed: the step count, the
    movement time and the gripper buffer have been overwritten, nothing
    else. *)
Lemma calculateGripperGoalTrajectory_outcome
    (dt : float)
    (gen : float -> float -> float -> float -> float -> float -> float ->
           float -> MatrixXd)
    (fill : float) (initial_position target_position : VectorXd)
    (s : Controller) (n : Z) (x y : float) :
  Double.to_int (Double.floor (move_time_ s / dt + 1.0)%float) = Some n ->
  0 <= n ->
  Eigen.get initial_position 0 = Some x ->
  Eigen.get target_position 0 = Some y ->
  calculateGripperGoalTrajectory dt gen fill
    initial_position target_position s
  = if Eigen.has_shape
         (gen x 0.0 0.0 y 0.0 0.0 dt (Double.of_int (n - 1) * dt))%float n 1
    then Ok (gripper_armed dt gen n x y s)
    else Crash BadSize
           (with_goal_gripper_trajectory (replicate (Z.to_nat n) [fill])
              (with_move_time (Double.of_int (n - 1) * dt)%float
                 (with_all_time_steps n s))).
Proof.
  intros Hn Hpos Hx Hy.
  destruct (Eigen.has_shape _ n 1) eqn:Hshape.
  - now apply calculateGripperGoalTrajectory_arms.
  - unfold calculateGripperGoalTrajectory, set_movement_time.
    rewrite Hn. fields.
    rewrite int_ok_in_range
      by (apply to_int_range in Hn;
          unfold Double.INT_MIN, Double.INT_MAX in *; lia).
    fields. unfold Eigen.resize.
    destruct (0 <=? n) eqn:E; [|lia].
    replace (0 <=? MAX_GRIPPER_NUM) with true by reflexivity.
    cbn [andb]. fields.
    change (upto MAX_GRIPPER_NUM) with [0].
    cbn [for_each]. rewrite Hx, Hy. fields.
    unfold Eigen.assign_block_column. rewrite Hshape, andb_false_r.
    reflexivity.
Qed.

(** C8, refuted as stated: right after start-up the movement time is 0.
    A generation request made then is not rejected and the state is not
    left as it was, whatever the generator does with a movement of 0 s:
    the step count has become 1 and the gripper buffer has one row. *)
Lemma zero_duration_changes_the_state :
  move_time_ initPositionController = 0.0%float /\
  all_time_steps_ initPositionController = 0 /\
  goal_gripper_trajectory_ initPositionController = [] /\
  forall (gen : float -> float -> float -> float -> float -> float ->
                float -> float -> MatrixXd)
         (fill : float),
    let s' :=
      outcome_state id
        (calculateGripperGoalTrajectory TICK gen fill
           (Eigen.Zero 1) (Eigen.Zero 1) initPositionController) in
    all_time_steps_ s' = 1 /\
    Eigen.rows (goal_gripper_trajectory_ s') = 1 /\
    s' <> initPositionController.
Proof.
  repeat (split; [reflexivity|]). intros gen fill.
  rewrite (calculateGripperGoalTrajectory_outcome TICK gen fill
             (Eigen.Zero 1) (Eigen.Zero 1) initPositionController
             1 0%float 0%float)
    by (try reflexivity; lia).
  cbv zeta.
  destruct (Eigen.has_shape _ 1 1) eqn:Hshape; cbn [outcome_state id].
  - unfold gripper_armed. fields.
    split; [reflexivity|]. split.
    + unfold Eigen.has_shape in Hshape.
      apply andb_true_iff in Hshape as [Hrows _]. now apply Z.eqb_eq in Hrows.
    + intros H. apply (f_equal all_time_steps_) in H. discriminate H.
  - split; [reflexivity|]. split; [reflexivity|].
    intros H. apply (f_equal all_time_steps_) in H. discriminate H.
Qed.

(** C8, amended: [calculateGripperGoalTrajectory] checks neither the
    duration nor the tick, and there is no InvalidParameter error.
    Whenever the step count [n = int(floor(move_time_/dt + 1.0))] is
    defined and not negative, the step count and the movement time are
    overwritten, the gripper buffer is resized to [n] rows and the
    generator is called.  If it returns a column of [n] rows, the column
    is installed and playback is armed at step 0; if it returns anything
    else, the assignment of the column is ill-formed, and the playing
    flag, the step and the gripper flag stay as they were while the step
    count, the movement time and the buffer have changed.  For a request
    of 0 s at a tick of 0.01 s the step count is 1 and the snapped
    duration is 0. *)
Theorem generation_request_is_never_rejected
    (dt : float)
    (gen : float -> float -> float -> float -> float -> float -> float ->
           float -> MatrixXd)
    (fill : float) (initial_position target_position : VectorXd)
    (s : Controller) (n : Z) (x y : float) :
  Double.to_int (Double.floor (move_time_ s / dt + 1.0)%float) = Some n ->
  0 <= n ->
  Eigen.get initial_position 0 = Some x ->
  Eigen.get target_position 0 = Some y ->
  calculateGripperGoalTrajectory dt gen fill
    initial_position target_position s
  = (if Eigen.has_shape
          (gen x 0.0 0.0 y 0.0 0.0 dt (Double.of_int (n - 1) * dt))%float n 1
     then Ok (gripper_armed dt gen n x y s)
     else Crash BadSize
            (with_goal_gripper_trajectory (replicate (Z.to_nat n) [fill])
               (with_move_time (Double.of_int (n - 1) * dt)%float
                  (with_all_time_steps n s)))) /\
  all_time_steps_
    (outcome_state id
       (calculateGripperGoalTrajectory dt gen fill
          initial_position target_position s)) = n /\
  Eigen.rows
    (goal_gripper_trajectory_
       (outcome_state id
          (calculateGripperGoalTrajectory dt gen fill
             initial_position target_position s))) = n /\
  (dt = TICK -> move_time_ s = 0.0%float ->
   n = 1 /\ (Double.of_int (n - 1) * dt)%float = 0.0%float).
Proof.
  intros Hn Hpos Hx Hy.
  pose proof (calculateGripperGoalTrajectory_outcome dt gen fill
                initial_position target_position s n x y Hn Hpos Hx Hy)
    as Hrun.
  split; [exact Hrun|]. rewrite Hrun.
  destruct (Eigen.has_shape _ n 1) eqn:Hshape; cbn [outcome_state id].
  - unfold gripper_armed. fields. split; [reflexivity|]. split.
    + unfold Eigen.has_shape in Hshape.
      apply andb_true_iff in Hshape as [Hrows _]. now apply Z.eqb_eq in Hrows.
    + intros -> Hmt. rewrite Hmt in Hn. vm_compute in Hn.
      injection Hn as <-. split; reflexivity.
  - fields. split; [reflexivity|]. split.
    + unfold Eigen.rows. rewrite length_replicate. lia.
    + intros -> Hmt. rewrite Hmt in Hn. vm_compute in Hn.
      injection Hn as <-. split; reflexivity.
Qed.

(** C8 at start-up, with the generator of the specification, which
    synthesizes nothing for a movement of 0 s: the request is not
    rejected with the state as it was; the step count has become 1 and
    the gripper buffer has been resized when the assignment fails. *)
Lemma generation_request_is_never_rejected_at_startup :
  calculateGripperGoalTrajectory TICK minimumJerkTra 0%float
    (Eigen.Zero 1) (Eigen.Zero 1) initPositionController
  = Crash BadSize
      (with_goal_gripper_trajectory [[0%float]]
         (with_move_time 0.0%float
            (with_all_time_steps 1 initPositionController))).
Proof.
  destruct (generation_request_is_never_rejected TICK minimumJerkTra 0%float
              (Eigen.Zero 1) (Eigen.Zero 1) initPositionController
              1 0%float 0%float
              ltac:(vm_compute; reflexivity) ltac:(lia) eq_refl eq_refl)
    as (Hrun & _).
  rewrite Hrun. reflexivity.
Defined.

(** ** Manual commands outside the known set *)

(** C9: a manual command other than grip_on and grip_off is answered by
    an error in the log and changes nothing else: is_moving_, the step
    index, both trajectory buffers, the goal positions and every other
    member are as before. *)
Theorem unrecognized_command_is_logged_and_ignored
    (dt : float)
    (gen : float -> float -> float -> float -> float -> float -> float ->
           float -> MatrixXd)
    (fill : float) (data : string) (s : Controller) :
  data <> "grip_on" ->
  data <> "grip_off" ->
  exists s',
    gripperPositionMsgCallback dt gen fill data s = Ok s' /\
    emitted_ s'
    = (emitted_ s ++
       [ROS_ERROR
          "If you want to grip or release something, publish 'grip_on' or 'grip_off'"])%list /\
    is_moving_ s' = is_moving_ s /\
    step_cnt_ s' = step_cnt_ s /\
    all_time_steps_ s' = all_time_steps_ s /\
    move_time_ s' = move_time_ s /\
    gripper_ s' = gripper_ s /\
    moveit_execution_ s' = moveit_execution_ s /\
    goal_gripper_trajectory_ s' = goal_gripper_trajectory_ s /\
    goal_joint_trajectory_ s' = goal_joint_trajectory_ s /\
    goal_gripper_position_ s' = goal_gripper_position_ s /\
    goal_joint_position_ s' = goal_joint_position_ s /\
    present_joint_position_ s' = present_joint_position_ s /\
    joint_id_ s' = joint_id_ s /\
    motionPlanningTool_ s' = motionPlanningTool_ s /\
    sleeping_threads_ s' = sleeping_threads_ s.
Proof.
  intros Hon Hoff. unfold gripperPositionMsgCallback.
  apply String.eqb_neq in Hon, Hoff. rewrite Hon, Hoff.
  eexists; split; [reflexivity|]. fields. repeat split.
Qed.

(** Scenario B: the token "foo". *)
Lemma unrecognized_command_foo :
  exists s',
    gripperPositionMsgCallback TICK minimumJerkTra 0%float "foo"
      initPositionController = Ok s' /\
    is_moving_ s' = false /\ step_cnt_ s' = 0 /\
    goal_gripper_trajectory_ s' = [] /\ goal_joint_trajectory_ s' = [].
Proof.
  destruct (unrecognized_command_is_logged_and_ignored TICK minimumJerkTra
              0%float "foo" initPositionController)
    as (s' & Hrun & _ & Hmov & Hcnt & _ & _ & _ & _ & Hgt & Hjt & _);
    try discriminate.
  exists s'. repeat (split; [assumption|]). assumption.
Defined.

(** ** The teleop wrappers *)

(** C10, refuted as stated: with a pose of fewer than three coordinates
    [set_task_space_path_from_present_position_only] does not return
    false; [at] throws before anything is sent. *)
Lemma short_pose_throws :
  Teleop.set_task_space_path_from_present_position_only
    [Teleop.DELTA; 0.0%float] Teleop.PATH_TIME Teleop.fresh_node
  = Teleop.Throws_out_of_range Teleop.fresh_node
  /\ forall n,
       Teleop.set_task_space_path_from_present_position_only
         [Teleop.DELTA; 0.0%float] Teleop.PATH_TIME Teleop.fresh_node
       <> Teleop.Returns false n.
Proof.
  split; [reflexivity|]. intros n. discriminate.
Qed.

(** C10, amended: whenever one of the three wrappers returns, it returns
    false, having queued its request; the value never depends on the
    service's answer.  [set_joint_space_path] and [set_tool_control]
    return for every input;
    [set_task_space_path_from_present_position_only] returns exactly when
    the pose has at least three coordinates, and otherwise throws
    [std::out_of_range] with nothing sent. *)
Theorem teleop_wrappers_return_false
    (joint_name : list string) (joint_angle kinematics_pose : list float)
    (path_time : float) (n : Teleop.Node) :
  (exists n',
     Teleop.set_joint_space_path joint_name joint_angle path_time n
     = Teleop.Returns false n' /\
     Teleop.sent_ n'
     = (Teleop.sent_ n ++
        [Teleop.goal_joint_space_path
           {| Teleop.jp_planning_group := "";
              Teleop.jp_joint_name := joint_name;
              Teleop.jp_position := joint_angle;
              Teleop.jp_path_time := path_time |}])%list) /\
  (exists n',
     Teleop.set_tool_control joint_angle n = Teleop.Returns false n' /\
     Teleop.sent_ n'
     = (Teleop.sent_ n ++
        [Teleop.goal_tool_control
           {| Teleop.jp_planning_group := "";
              Teleop.jp_joint_name := ["gripper"];
              Teleop.jp_position := joint_angle;
              Teleop.jp_path_time := 0.0 |}])%list) /\
  match
    Teleop.set_task_space_path_from_present_position_only
      kinematics_pose path_time n
  with
  | Teleop.Returns value n' =>
      value = false /\
      (3 <= length kinematics_pose)%nat /\
      exists r, Teleop.sent_ n'
                = (Teleop.sent_ n ++
                   [Teleop.goal_task_space_path_from_present_position_only
                      r])%list
  | Teleop.Throws_out_of_range n' =>
      (length kinematics_pose < 3)%nat /\ n' = n
  end.
Proof.
  split; [|split].
  - eexists; split; reflexivity.
  - eexists; split; reflexivity.
  - unfold Teleop.set_task_space_path_from_present_position_only.
    destruct kinematics_pose as [|x [|y [|z rest]]]; simpl;
      try (split; [lia|reflexivity]).
    split; [reflexivity|]. split; [lia|]. eexists; reflexivity.
Qed.

(** ** One tick *)

Lemma with_joint_id_same (s : Controller) : with_joint_id (joint_id_ s) s = s.
Proof. destruct s; reflexivity. Qed.

Lemma find_registered (ids : JointIdMap) (k : string) :
  ids_valid ids = true ->
  In k (StdMap.keys ids) ->
  exists id, StdMap.find ids k = Some id /\ 1 <= id <= MAX_JOINT_NUM.
Proof.
  unfold ids_valid, StdMap.keys.
  induction ids as [|[k' v] ids IH]; simpl; [tauto|].
  intros Hv Hin. apply andb_true_iff in Hv as [Hkv Hids].
  destruct (String.eqb_spec k' k) as [->|Hne].
  - exists v. split; [reflexivity|]. apply andb_true_iff in Hkv. lia.
  - destruct Hin as [Heq|Hin]; [contradiction|]. now apply IH.
Qed.

Lemma index_registered (ids : JointIdMap) (k : string) (id : Z) :
  StdMap.find ids k = Some id -> StdMap.index ids k = (ids, id).
Proof. unfold StdMap.index. now intros ->. Qed.

Lemma get_in_range (v : VectorXd) (i : Z) :
  0 <= i < Z.of_nat (length v) -> exists x, Eigen.get v i = Some x.
Proof.
  intros Hi. unfold Eigen.get.
  destruct (0 <=? i) eqn:E; [|lia].
  destruct (lookup_lt_is_Some_2 v (Z.to_nat i)) as [x Hx]; [lia|].
  now exists x.
Qed.

Lemma joint_state_entries_registered
    (ks : list string) (s : Controller) (msg : JointState) :
  ids_valid (joint_id_ s) = true ->
  length (goal_joint_position_ s) = Z.to_nat MAX_JOINT_NUM ->
  (forall k, In k ks -> In k (StdMap.keys (joint_id_ s))) ->
  joint_state_entries ks (s, msg)
  = Ok (s, {| name := name msg ++ ks;
              position := position msg ++ map (joint_setpoint s) ks |}).
Proof.
  intros Hids Hlen. revert msg.
  induction ks as [|k ks IH]; intros msg Hks; simpl.
  - rewrite !app_nil_r. now destruct msg.
  - destruct (find_registered _ k Hids) as (id & Hfind & Hid);
      [apply Hks; now left|].
    rewrite (index_registered _ _ _ Hfind), with_joint_id_same.
    destruct (get_in_range (goal_joint_position_ s) (id - 1)) as [x Hx];
      [rewrite Hlen; unfold MAX_JOINT_NUM in *; lia|].
    rewrite Hx. fields. rewrite IH by (intros k' Hk'; apply Hks; now right).
    simpl. rewrite <- !app_assoc. simpl.
    unfold joint_setpoint at 2. rewrite Hfind. simpl. rewrite Hx.
    reflexivity.
Qed.

Lemma coeff_of_row (m : MatrixXd) (i j : Z) (row : list float) (x : float) :
  0 <= i -> 0 <= j ->
  m !! Z.to_nat i = Some row ->
  row !! Z.to_nat j = Some x ->
  Eigen.coeff m i j = Some x.
Proof.
  intros Hi Hj Hrow Hx. unfold Eigen.coeff.
  destruct (0 <=? i) eqn:Ei; [|lia].
  destruct (0 <=? j) eqn:Ej; [|lia].
  simpl. rewrite Hrow. exact Hx.
Qed.

(** [advance] on a state that is playing a row inside its buffer. *)
Lemma advance_playing (s : Controller) (row : list float) :
  is_moving_ s = true ->
  goals_sized s ->
  0 <= step_cnt_ s < Double.INT_MAX ->
  active_trajectory s !! Z.to_nat (step_cnt_ s) = Some row ->
  (active_width s <= length row)%nat ->
  advance s = Ok (advanced row s).
Proof.
  intros Hmov [Hgj Hgg] Hstep Hrow Hwidth.
  unfold advance, advanced, active_trajectory, active_width in *.
  change (Z.to_nat MAX_GRIPPER_NUM) with 1%nat in *.
  change (Z.to_nat MAX_JOINT_NUM) with 4%nat in *.
  rewrite Hmov.
  assert (Hnext : int_ok (step_cnt_ s + 1) = Some (step_cnt_ s + 1)).
  { apply int_ok_in_range. unfold Double.INT_MIN, Double.INT_MAX in *. lia. }
  assert (Hs : 0 <= step_cnt_ s) by lia.
  destruct (gripper_ s).
  - change (upto MAX_GRIPPER_NUM) with [0]. cbn [for_each].
    destruct row as [|x row]; [simpl in Hwidth; lia|].
    rewrite (coeff_of_row _ _ 0 _ x Hs (Z.le_refl 0) Hrow eq_refl).
    destruct (goal_gripper_position_ s) as [|g [|g' gs]] eqn:Hg;
      simpl in Hgg; try lia.
    fields.
    change (Eigen.set [g] 0 x) with (Some [x]).
    fields. rewrite Hnext. reflexivity.
  - change (upto MAX_JOINT_NUM) with [0; 1; 2; 3]. cbn [for_each].
    destruct row as [|x0 [|x1 [|x2 [|x3 row]]]]; simpl in Hwidth; try lia.
    destruct (goal_joint_position_ s) as [|a [|b [|c [|d [|e gs]]]]] eqn:Hg;
      simpl in Hgj; try lia.
    rewrite (coeff_of_row _ _ 0 _ x0 Hs ltac:(lia) Hrow eq_refl).
    fields.
    change (Eigen.set [a; b; c; d] 0 x0) with (Some [x0; b; c; d]).
    fields.
    rewrite (coeff_of_row _ _ 1 _ x1 Hs ltac:(lia) Hrow eq_refl).
    fields.
    change (Eigen.set [x0; b; c; d] 1 x1) with (Some [x0; x1; c; d]).
    fields.
    rewrite (coeff_of_row _ _ 2 _ x2 Hs ltac:(lia) Hrow eq_refl).
    fields.
    change (Eigen.set [x0; x1; c; d] 2 x2) with (Some [x0; x1; x2; d]).
    fields.
    rewrite (coeff_of_row _ _ 3 _ x3 Hs ltac:(lia) Hrow eq_refl).
    fields.
    change (Eigen.set [x0; x1; x2; d] 3 x3) with (Some [x0; x1; x2; x3]).
    fields. rewrite Hnext. reflexivity.
Qed.

Lemma advanced_frame (row : list float) (s : Controller) :
  is_moving_ (advanced row s) = is_moving_ s /\
  gripper_ (advanced row s) = gripper_ s /\
  all_time_steps_ (advanced row s) = all_time_steps_ s /\
  step_cnt_ (advanced row s) = step_cnt_ s + 1 /\
  joint_id_ (advanced row s) = joint_id_ s /\
  goal_joint_trajectory_ (advanced row s) = goal_joint_trajectory_ s /\
  goal_gripper_trajectory_ (advanced row s) = goal_gripper_trajectory_ s /\
  emitted_ (advanced row s) = emitted_ s /\
  moveit_execution_ (advanced row s) = moveit_execution_ s.
Proof. unfold advanced. destruct (gripper_ s) eqn:E; fields; rewrite ?E; tauto. Qed.

Lemma advanced_sized (row : list float) (s : Controller) :
  goals_sized s ->
  (active_width s <= length row)%nat ->
  goals_sized (advanced row s).
Proof.
  unfold goals_sized, advanced, active_width.
  intros [Hj Hg] Hw.
  destruct (gripper_ s); fields; rewrite length_take; lia.
Qed.

Lemma process_builds_setpoint (s : Controller) :
  ids_valid (joint_id_ s) = true ->
  goals_sized s ->
  joint_state_entries (StdMap.keys (joint_id_ s))
    (s, {| name := []; position := [] |})
  = Ok (s, {| name := StdMap.keys (joint_id_ s);
              position := map (joint_setpoint s) (StdMap.keys (joint_id_ s)) |})
  /\ exists g, Eigen.get (goal_gripper_position_ s) 0 = Some g.
Proof.
  intros Hids [Hj Hg]. split.
  - now rewrite joint_state_entries_registered.
  - apply get_in_range. rewrite Hg. unfold MAX_GRIPPER_NUM. lia.
Qed.

(** A tick of an idle controller sends nothing and changes nothing. *)
Lemma process_idle (s : Controller) :
  is_moving_ s = false ->
  ids_valid (joint_id_ s) = true ->
  goals_sized s ->
  process s = Ok s.
Proof.
  intros Hmov Hids Hsized.
  destruct (process_builds_setpoint s Hids Hsized) as (Hmsg & g & Hg).
  unfold process, advance. rewrite Hmov. fields.
  rewrite Hmsg. fields. rewrite Hg. fields. rewrite !Hmov. reflexivity.
Qed.

(** A tick of a controller that is playing [row]. *)
Lemma process_playing (s : Controller) (row : list float) :
  is_moving_ s = true ->
  ids_valid (joint_id_ s) = true ->
  goals_sized s ->
  0 <= step_cnt_ s < Double.INT_MAX ->
  active_trajectory s !! Z.to_nat (step_cnt_ s) = Some row ->
  (active_width s <= length row)%nat ->
  process s = Ok (ticked row s).
Proof.
  intros Hmov Hids Hsized Hstep Hrow Hwidth.
  unfold process. rewrite (advance_playing s row) by assumption.
  fields.
  pose proof (advanced_frame row s)
    as (Hmov' & _ & _ & _ & Hids' & _).
  pose proof (advanced_sized row s Hsized Hwidth) as Hsized'.
  destruct (process_builds_setpoint (advanced row s)) as (Hmsg & g & Hg);
    [now rewrite Hids'|assumption|].
  rewrite Hmsg. fields. rewrite Hg. fields.
  rewrite Hmov', Hmov. fields. rewrite Hmov', Hmov.
  unfold ticked, setpoint. rewrite Hg. fields.
  destruct (_ >=? _); reflexivity.
Qed.

(** C5, refuted as stated: a tick of the idle controller publishes
    nothing; the message it builds is dropped. *)
Lemma idle_tick_publishes_nothing :
  is_moving_ initPositionController = false /\
  process initPositionController = Ok initPositionController /\
  forall msg, ~ In (Publish msg) (emitted_ initPositionController).
Proof.
  split; [reflexivity|]. split; [reflexivity|].
  intros msg [H|[]]. discriminate.
Qed.

(** C5, amended: a tick publishes the setpoint exactly when the
    controller is playing.  While playing, the tick appends to what the
    node has sent one message, the setpoint made of the goal positions
    just read from the active row (and, on the last step, the
    end-of-trajectory log).  While idle, the tick sends nothing and leaves
    the state as it was. *)
Theorem tick_publishes_only_while_playing (s : Controller) :
  ids_valid (joint_id_ s) = true ->
  goals_sized s ->
  (is_moving_ s = true ->
   0 <= step_cnt_ s < Double.INT_MAX /\
   exists row,
     active_trajectory s !! Z.to_nat (step_cnt_ s) = Some row /\
     (active_width s <= length row)%nat) ->
  exists s',
    process s = Ok s' /\
    if is_moving_ s then
      exists rest,
        emitted_ s' = (emitted_ s ++ Publish (setpoint s') :: rest)%list /\
        (rest = [] \/ rest = [ROS_INFO "End Trajectory"])
    else s' = s.
Proof.
  intros Hids Hsized Hready.
  destruct (is_moving_ s) eqn:Hmov.
  - destruct (Hready eq_refl) as (Hstep & row & Hrow & Hwidth).
    exists (ticked row s). split; [now apply process_playing|].
    pose proof (advanced_frame row s) as (_ & _ & _ & _ & _ & _ & _ & He & _).
    unfold ticked. fields.
    destruct (_ >=? _).
    + exists [ROS_INFO "End Trajectory"]. split; [|now right].
      unfold stopped. fields. rewrite He, <- app_assoc. reflexivity.
    + exists []. split; [|now left].
      fields. rewrite He. reflexivity.
  - exists s. split; [now apply process_idle|reflexivity].
Qed.

(** The first tick of scenario A publishes the start angle. *)
Lemma tick_publishes_only_while_playing_scenario_A :
  exists s',
    process scenario_A_armed = Ok s' /\
    exists rest,
      emitted_ s'
      = (emitted_ scenario_A_armed ++ Publish (setpoint s') :: rest)%list.
Proof.
  destruct (tick_publishes_only_while_playing scenario_A_armed)
    as (s' & Hrun & Hsent).
  - vm_compute. reflexivity.
  - split; reflexivity.
  - intros _.
    assert (step_cnt_ scenario_A_armed = 0) as -> by (vm_compute; reflexivity).
    split; [unfold Double.INT_MAX; lia|].
    exists [0%float]. split; [vm_compute; reflexivity|].
    assert (active_width scenario_A_armed = 1%nat) as ->
      by (vm_compute; reflexivity).
    simpl. lia.
  - exists s'. split; [assumption|].
    change (is_moving_ scenario_A_armed) with true in Hsent.
    destruct Hsent as (rest & Hrest & _). now exists rest.
Defined.

(** ** Playback of an armed motion *)

Lemma ticks_app (a b : nat) (s : Controller) :
  ticks (a + b) s = bind (ticks a s) (ticks b).
Proof.
  revert s. induction a as [|a IH]; intros s; simpl; [reflexivity|].
  destruct (process s) as [s'|f s']; simpl; [apply IH|reflexivity].
Qed.


Lemma rows_ready_row (s : Controller) (n : Z) (i : nat) :
  rows_ready s n = true ->
  Z.of_nat i < n ->
  exists row, active_trajectory s !! i = Some row /\
              (active_width s <= length row)%nat.
Proof.
  unfold rows_ready, Eigen.rows. intros Hready Hi.
  apply andb_true_iff in Hready as [Hrows Hcols].
  destruct (lookup_lt_is_Some_2 (active_trajectory s) i) as [row Hrow];
    [lia|].
  exists row. split; [assumption|].
  rewrite forallb_forall in Hcols.
  apply Nat.leb_le, Hcols, list_elem_of_In.
  apply list_elem_of_lookup. exists i.
  rewrite lookup_take_lt by lia. assumption.
Qed.






(** ** Ingestion of a planned path *)

Lemma coeffRef_in (m : MatrixXd) (i j : Z) (x : float) (row : list float) :
  m !! Z.to_nat i = Some row ->
  0 <= i ->
  0 <= j < Z.of_nat (length row) ->
  Eigen.coeffRef m i j x
  = Some (<[Z.to_nat i := <[Z.to_nat j := x]> row]> m).
Proof.
  intros Hrow Hi Hj. unfold Eigen.coeffRef.
  destruct (0 <=? i) eqn:Ei; [|lia].
  destruct (0 <=? j) eqn:Ej; [|lia].
  simpl. rewrite Hrow.
  destruct (j <? Z.of_nat (length row)) eqn:El; [reflexivity|lia].
Qed.

Lemma shaped_insert (n i : nat) (m : MatrixXd) (row : list float) :
  shaped n m ->
  length row = Z.to_nat MAX_JOINT_NUM ->
  shaped n (<[i := row]> m).
Proof.
  intros [Hlen Hrows] Hrow. split; [now rewrite length_insert|].
  intros i' row' Hi'.
  apply list_lookup_insert_Some in Hi' as [(-> & -> & _)|(_ & Hi')].
  - assumption.
  - eapply Hrows, Hi'.
Qed.

Lemma shaped_row (n i : nat) (m : MatrixXd) :
  shaped n m -> (i < n)%nat ->
  exists row, m !! i = Some row /\ length row = Z.to_nat MAX_JOINT_NUM.
Proof.
  intros [Hlen Hrows] Hi.
  destruct (lookup_lt_is_Some_2 m i) as [row Hrow]; [lia|].
  exists row. split; [assumption|]. eapply Hrows, Hrow.
Qed.

Lemma shaped_resize (fill : float) (n : nat) :
  Eigen.resize fill (Z.of_nat n) MAX_JOINT_NUM
  = Some (replicate n (replicate (Z.to_nat MAX_JOINT_NUM) fill))
  /\ shaped n (replicate n (replicate (Z.to_nat MAX_JOINT_NUM) fill)).
Proof.
  split.
  - unfold Eigen.resize.
    destruct (0 <=? Z.of_nat n) eqn:E; [|lia].
    simpl. now rewrite Nat2Z.id.
  - split; [apply length_replicate|].
    intros i row Hrow. apply lookup_replicate in Hrow as [-> _].
    apply length_replicate.
Qed.

(** A [for_each] loop whose body keeps the controller apart from the
    planning tool as it is, and moves the tool along an invariant indexed
    by the number of iterations made. *)
Lemma for_each_tool {A} (s0 : Controller)
    (I : nat -> MotionPlanningTool -> Prop) (l : list A)
    (body : A -> Controller -> Result Controller) (t0 : MotionPlanningTool) :
  I 0%nat t0 ->
  (forall i x t,
     l !! i = Some x -> I i t ->
     exists t', body x (with_motionPlanningTool t s0)
                = Ok (with_motionPlanningTool t' s0) /\ I (S i) t') ->
  exists t',
    for_each l body (with_motionPlanningTool t0 s0)
    = Ok (with_motionPlanningTool t' s0) /\ I (length l) t'.
Proof.
  revert I t0. induction l as [|x l IH]; intros I t0 H0 Hstep.
  - exists t0. split; [reflexivity|assumption].
  - destruct (Hstep 0%nat x t0 eq_refl H0) as (t1 & Hbody & H1).
    destruct (IH (fun i => I (S i)) t1 H1) as (t' & Hrest & Hend).
    { intros i y t Hy Hi. apply (Hstep (S i) y t Hy Hi). }
    exists t'. simpl. rewrite Hbody. simpl. split; assumption.
Qed.

Section Ingestion.

Variable uninitialized : float.

(** The controller when the path arrives; only its planning tool changes
    while the path is taken in. *)
Variable s0 : Controller.

Hypothesis goal_sized :
  length (goal_joint_position_ s0) = Z.to_nat MAX_JOINT_NUM.

Local Abbreviation ids := (joint_id_ s0).
Local Abbreviation goal := (goal_joint_position_ s0).
Local Notation "'St' t" := (with_motionPlanningTool t s0) (at level 10).
Local Abbreviation P := display_planned_path_positions_.
Local Abbreviation V := display_planned_path_velocities_.
Local Abbreviation A := display_planned_path_accelerations_.

Lemma ingest_joint_ok (n : nat) (t : MotionPlanningTool)
    (_point_index _joint_index : Z) (point : JointTrajectoryPoint)
    (_joint_name : string) (row : list float) :
  shaped n (P t) -> shaped n (V t) -> shaped n (A t) ->
  0 <= _point_index < Z.of_nat n ->
  P t !! Z.to_nat _point_index = Some row ->
  registered ids _joint_name = true ->
  0 <= _joint_index ->
  (Z.to_nat _joint_index < length (positions point))%nat ->
  (Z.to_nat _joint_index < length (velocities point))%nat ->
  (Z.to_nat _joint_index < length (accelerations point))%nat ->
  exists t',
    ingest_joint _point_index point (_joint_index, _joint_name) (St t)
    = Ok (St t') /\
    retabled n t t' /\
    P t' = <[Z.to_nat _point_index :=
               <[column ids _joint_name :=
                   default 0%float
                     (Eigen.get (positions point) _joint_index)]> row]> (P t).
Proof.
  intros HP HV HA Hpi Hrow Hreg Hji Hpos Hvel Hacc.
  unfold registered in Hreg.
  destruct (StdMap.find ids _joint_name) as [id|] eqn:Hfind; [|discriminate].
  assert (Hid : 1 <= id <= MAX_JOINT_NUM) by lia.
  destruct (get_in_range (positions point) _joint_index) as [x Hx]; [lia|].
  destruct (get_in_range (velocities point) _joint_index) as [v Hv]; [lia|].
  destruct (get_in_range (accelerations point) _joint_index) as [a Ha]; [lia|].
  destruct (shaped_row n (Z.to_nat _point_index) _ HV) as (rowV & HrowV & HlenV);
    [lia|].
  destruct (shaped_row n (Z.to_nat _point_index) _ HA) as (rowA & HrowA & HlenA);
    [lia|].
  assert (HlenP : length row = Z.to_nat MAX_JOINT_NUM)
    by (eapply HP, Hrow).
  unfold MAX_JOINT_NUM in *.
  unfold ingest_joint. rewrite Hx, Hv, Ha. fields.
  rewrite (index_registered _ _ _ Hfind). fields.
  rewrite (coeffRef_in _ _ _ _ row Hrow) by lia. fields.
  rewrite (index_registered _ _ _ Hfind). fields.
  rewrite (coeffRef_in _ _ _ _ rowV HrowV) by lia. fields.
  rewrite (index_registered _ _ _ Hfind). fields.
  rewrite (coeffRef_in _ _ _ _ rowA HrowA) by lia. fields.
  eexists (tool_with_tables _ _ _ t). split; [reflexivity|].
  fields. split.
  - split; [|split; [|split; [|repeat split]]];
      (apply shaped_insert; [assumption|now rewrite length_insert]).
  - unfold column. rewrite Hfind. reflexivity.
Qed.

Lemma indexed_lookup {X} (l : list X) (i : nat) (p : Z * X) :
  indexed l !! i = Some p -> fst p = Z.of_nat i /\ l !! i = Some (snd p).
Proof.
  unfold indexed. rewrite list_lookup_imap.
  destruct (l !! i) as [x|]; simpl; [|discriminate].
  intros [= <-]. split; reflexivity.
Qed.

Lemma indexed_length {X} (l : list X) : length (indexed l) = length l.
Proof. apply length_imap. Qed.

Lemma forallb_lookup {X} (f : X -> bool) (l : list X) (i : nat) (x : X) :
  forallb f l = true -> l !! i = Some x -> f x = true.
Proof.
  intros Hall Hx. rewrite forallb_forall in Hall.
  apply Hall, list_elem_of_In, list_elem_of_lookup. now exists i.
Qed.

Lemma ingest_point_ok (n : nat) (t : MotionPlanningTool)
    (_point_index : Z) (point : JointTrajectoryPoint)
    (names : list string) (row : list float) :
  shaped n (P t) -> shaped n (V t) -> shaped n (A t) ->
  0 <= _point_index < Z.of_nat n ->
  P t !! Z.to_nat _point_index = Some row ->
  forallb (registered ids) names = true ->
  complete (length names) point = true ->
  exists t',
    ingest_point names (_point_index, point) (St t) = Ok (St t') /\
    shaped n (P t') /\ shaped n (V t') /\ shaped n (A t') /\
    moveit_msg_ t' = moveit_msg_ t /\
    points_ t' = points_ t /\
    time_from_start_ t' = time_from_start point /\
    P t' = <[Z.to_nat _point_index :=
               overlay ids names (positions point) row]> (P t).
Proof.
  intros HP HV HA Hpi Hrow Hreg Hcomplete.
  unfold complete in Hcomplete.
  apply andb_true_iff in Hcomplete as [Hcomplete Hacc].
  apply andb_true_iff in Hcomplete as [Hpos Hvel].
  apply Nat.leb_le in Hpos, Hvel, Hacc.
  unfold ingest_point.
  change (with_motionPlanningTool
            (tool_with_time (time_from_start point)
               (motionPlanningTool_ (St t))) (St t))
    with (St (tool_with_time (time_from_start point) t)).
  destruct (for_each_tool s0
              (fun k t' =>
                 retabled n (tool_with_time (time_from_start point) t) t' /\
                 P t' = <[Z.to_nat _point_index :=
                            fold_left (write_joint ids (positions point))
                              (take k (indexed names)) row]> (P t))
              (indexed names) (ingest_joint _point_index point)
              (tool_with_time (time_from_start point) t))
    as (t' & Hrun & (HP' & HV' & HA' & Hmsg & Hpts & Htime) & Htable).
  - split; [unfold retabled; fields; tauto|].
    simpl. now rewrite list_insert_id.
  - intros i [ji nm] t1 Hjoint ((HP1 & HV1 & HA1 & Hmsg1 & Hpts1 & Htime1) & Htable1).
    apply indexed_lookup in Hjoint as [Hji Hnm]. simpl in Hji, Hnm. subst ji.
    assert (Hi : (i < length names)%nat) by (eapply lookup_lt_Some, Hnm).
    destruct (ingest_joint_ok n t1 _point_index (Z.of_nat i) point nm
                (fold_left (write_joint ids (positions point))
                   (take i (indexed names)) row))
      as (t2 & Hrun2 & (HP2 & HV2 & HA2 & Hmsg2 & Hpts2 & Htime2) & Htable2);
      try assumption; try lia.
    + rewrite Htable1. apply list_lookup_insert_eq.
      destruct HP as [HlenP _]. lia.
    + eapply forallb_lookup; eassumption.
    + exists t2. split; [assumption|]. split.
      * unfold retabled in *. fields in *.
        repeat (split; [first [assumption|congruence]|]). congruence.
      * rewrite Htable2, Htable1, list_insert_insert_eq.
        f_equal.
        assert (Hidx : indexed names !! i = Some (Z.of_nat i, nm)).
        { unfold indexed. now rewrite list_lookup_imap, Hnm. }
        rewrite (take_S_r _ _ _ Hidx), fold_left_app. reflexivity.
  - exists t'. split; [assumption|].
    repeat (split; [assumption|]).
    rewrite Htable, firstn_all. reflexivity.
Qed.

(** The inner prefill loop: row [_point_index] becomes the goal. *)
Lemma prefill_row_ok (t : MotionPlanningTool) (_point_index : Z)
    (row : list float) :
  0 <= _point_index ->
  P t !! Z.to_nat _point_index = Some row ->
  length row = Z.to_nat MAX_JOINT_NUM ->
  exists t',
    for_each (upto MAX_JOINT_NUM) (prefill_cell _point_index) (St t)
    = Ok (St t') /\
    repositioned t t' /\
    P t' = <[Z.to_nat _point_index := goal]> (P t).
Proof.
  intros Hpi Hrow Hlen.
  assert (Hin : (Z.to_nat _point_index < length (P t))%nat)
    by (eapply lookup_lt_Some, Hrow).
  pose proof goal_sized as Hgoal.
  change (Z.to_nat MAX_JOINT_NUM) with 4%nat in *.
  destruct row as [|f0 [|f1 [|f2 [|f3 [|f4 row]]]]]; simpl in Hlen; try lia.
  destruct goal as [|a [|b [|c [|d [|e gs]]]]] eqn:Eg; simpl in Hgoal; try lia.
  change (upto MAX_JOINT_NUM) with [0; 1; 2; 3].
  cbn [for_each]. unfold prefill_cell. fields. rewrite ?Eg.
  change (Eigen.get [a; b; c; d] 0) with (Some a). fields.
  rewrite (coeffRef_in _ _ _ _ _ Hrow) by (simpl; lia).
  fields. rewrite ?Eg.
  change (Eigen.get [a; b; c; d] 1) with (Some b). fields.
  rewrite (coeffRef_in _ _ _ _ _ (list_lookup_insert_eq _ _ _ Hin))
    by (simpl; lia).
  fields. rewrite list_insert_insert_eq, ?Eg.
  change (Eigen.get [a; b; c; d] 2) with (Some c). fields.
  rewrite (coeffRef_in _ _ _ _ _ (list_lookup_insert_eq _ _ _ Hin))
    by (simpl; lia).
  fields. rewrite list_insert_insert_eq, ?Eg.
  change (Eigen.get [a; b; c; d] 3) with (Some d). fields.
  rewrite (coeffRef_in _ _ _ _ _ (list_lookup_insert_eq _ _ _ Hin))
    by (simpl; lia).
  fields. rewrite list_insert_insert_eq.
  eexists (tool_with_tables _ (V t) (A t) t). split; [reflexivity|].
  split; [repeat split|reflexivity].
Qed.

Lemma upto_lookup (n : Z) (i : nat) (x : Z) :
  upto n !! i = Some x -> x = Z.of_nat i /\ Z.of_nat i < n.
Proof. unfold upto. intros H. apply lookup_seqZ in H. lia. Qed.

Lemma upto_length (n : nat) : length (upto (Z.of_nat n)) = n.
Proof. unfold upto. rewrite length_seqZ. lia. Qed.

(** The prefill loops: every row becomes the goal. *)
Lemma prefill_ok (n : nat) (t : MotionPlanningTool) :
  shaped n (P t) ->
  exists t',
    for_each (upto (Z.of_nat n))
      (fun _point_index =>
         for_each (upto MAX_JOINT_NUM) (prefill_cell _point_index))
      (St t)
    = Ok (St t') /\
    repositioned t t' /\
    P t' = replicate n goal.
Proof.
  intros [HlenP HrowsP].
  destruct (for_each_tool s0
              (fun k t' =>
                 repositioned t t' /\
                 P t' = replicate k goal ++ drop k (P t))
              (upto (Z.of_nat n))
              (fun _point_index =>
                 for_each (upto MAX_JOINT_NUM) (prefill_cell _point_index))
              t)
    as (t' & Hrun & Hrep & Htable).
  - split; [repeat split|reflexivity].
  - intros i x t1 Hx (Hrep1 & Htable1).
    apply upto_lookup in Hx as [-> Hi].
    destruct (lookup_lt_is_Some_2 (P t) i) as [row Hrow]; [lia|].
    assert (Hrow1 : P t1 !! Z.to_nat (Z.of_nat i) = Some row).
    { rewrite Nat2Z.id, Htable1, lookup_app_r
        by (rewrite length_replicate; lia).
      rewrite length_replicate, lookup_drop.
      now replace (i + (i - i))%nat with i by lia. }
    destruct (prefill_row_ok t1 (Z.of_nat i) row ltac:(lia) Hrow1
                (HrowsP _ _ Hrow))
      as (t2 & Hrun2 & Hrep2 & Htable2).
    exists t2. split; [assumption|]. split.
    + unfold repositioned in *. intuition congruence.
    + rewrite Htable2, Htable1, Nat2Z.id.
      rewrite insert_app_r_alt by (rewrite length_replicate; lia).
      rewrite length_replicate, Nat.sub_diag.
      rewrite (drop_S _ _ _ Hrow). simpl.
      rewrite (cons_middle goal), app_assoc, <- replicate_S_end.
      reflexivity.
  - exists t'. split; [assumption|]. split; [assumption|].
    rewrite Htable, upto_length, drop_ge, app_nil_r by lia. reflexivity.
Qed.

Lemma shaped_goal (n : nat) : shaped n (replicate n goal).
Proof.
  split; [apply length_replicate|].
  intros i row Hrow. apply lookup_replicate in Hrow as [-> _].
  apply goal_sized.
Qed.

Lemma ingest_trajectory_unfold (t : MotionPlanningTool)
    (tra : RobotTrajectory) :
  ingest_trajectory uninitialized tra (St t)
  = let jt := joint_trajectory tra in
    let n := Z.of_nat (length (points jt)) in
    let t0 := tool_with_points n t in
    let? p := or_crash (Eigen.resize uninitialized n MAX_JOINT_NUM)
                BadSize (St t0) in
    let? v := or_crash (Eigen.resize uninitialized n MAX_JOINT_NUM)
                BadSize (St t0) in
    let? a := or_crash (Eigen.resize uninitialized n MAX_JOINT_NUM)
                BadSize (St t0) in
    let? s :=
      for_each (upto n)
        (fun _point_index =>
           for_each (upto MAX_JOINT_NUM) (prefill_cell _point_index))
        (St (tool_with_tables p v a t0)) in
    for_each (indexed (points jt)) (ingest_point (joint_names jt)) s.
Proof. reflexivity. Qed.

(** One trajectory of a well-formed path. *)
Lemma ingest_trajectory_ok (t : MotionPlanningTool) (tra : RobotTrajectory) :
  trajectory_well_formed ids tra = true ->
  exists t',
    ingest_trajectory uninitialized tra (St t) = Ok (St t') /\
    moveit_msg_ t' = moveit_msg_ t /\
    points_ t' = Z.of_nat (length (points (joint_trajectory tra))) /\
    P t' = planned_positions ids goal tra.
Proof.
  unfold trajectory_well_formed, planned_positions.
  rewrite ingest_trajectory_unfold. cbv zeta.
  set (jt := joint_trajectory tra). set (n := length (points jt)).
  intros Hwf. apply andb_true_iff in Hwf as [Hnames Hpoints].
  rewrite (proj1 (shaped_resize uninitialized n)). cbn [or_crash bind].
  set (R := replicate n (replicate (Z.to_nat MAX_JOINT_NUM) uninitialized)).
  assert (HR : shaped n R) by apply shaped_resize.
  destruct (prefill_ok n (tool_with_tables R R R (tool_with_points (Z.of_nat n) t)))
    as (t1 & Hrun1 & (HV1 & HA1 & Hmsg1 & Hpts1 & _) & Htable1);
    [exact HR|].
  rewrite Hrun1. cbn [bind].
  cbn [display_planned_path_velocities_ display_planned_path_accelerations_
       moveit_msg_ points_ tool_with_tables tool_with_points]
    in HV1, HA1, Hmsg1, Hpts1.
  destruct (for_each_tool s0
              (fun k t' =>
                 shaped n (P t') /\ shaped n (V t') /\ shaped n (A t') /\
                 moveit_msg_ t' = moveit_msg_ t /\
                 points_ t' = Z.of_nat n /\
                 P t' = map (fun p => overlay ids (joint_names jt)
                                        (positions p) goal)
                          (take k (points jt))
                        ++ replicate (n - k) goal)
              (indexed (points jt)) (ingest_point (joint_names jt)) t1)
    as (t' & Hrun & _ & _ & _ & Hmsg & Hpts & Htable).
  - rewrite Htable1, HV1, HA1. simpl. rewrite Nat.sub_0_r.
    repeat (split; [first [apply shaped_goal|exact HR|assumption]|]).
    reflexivity.
  - intros k [pi point] t2 Hpoint (HP2 & HV2 & HA2 & Hmsg2 & Hpts2 & Htable2).
    apply indexed_lookup in Hpoint as [Hpi Hpoint]. simpl in Hpi, Hpoint.
    subst pi.
    assert (Hk : (k < n)%nat) by (eapply lookup_lt_Some, Hpoint).
    assert (Hlen : length (map (fun p => overlay ids (joint_names jt)
                                           (positions p) goal)
                             (take k (points jt))) = k).
    { rewrite length_map, length_take. fold n. lia. }
    destruct (ingest_point_ok n t2 (Z.of_nat k) point (joint_names jt) goal)
      as (t3 & Hrun3 & HP3 & HV3 & HA3 & Hmsg3 & Hpts3 & _ & Htable3);
      try assumption; try lia.
    + rewrite Nat2Z.id, Htable2, lookup_app_r by lia.
      rewrite Hlen, Nat.sub_diag. apply lookup_replicate_2. lia.
    + eapply forallb_lookup; eassumption.
    + exists t3. split; [assumption|].
      repeat (split; [first [assumption|congruence]|]).
      rewrite Htable3, Htable2, Nat2Z.id.
      rewrite insert_app_r_alt by lia.
      rewrite Hlen, Nat.sub_diag.
      replace (n - k)%nat with (S (n - S k)) by lia.
      rewrite (take_S_r _ _ _ Hpoint), map_app, <- app_assoc.
      reflexivity.
  - exists t'. split; [assumption|].
    split; [assumption|]. split; [assumption|].
    rewrite Htable, indexed_length, firstn_all. fold n.
    rewrite Nat.sub_diag, app_nil_r. reflexivity.
Qed.

(** The thread up to its sleep, on a well-formed path: the position
    table is that of the last trajectory of the message. *)
Lemma thread_before_sleep_ok (t : MotionPlanningTool) :
  forallb (trajectory_well_formed ids) (trajectory (moveit_msg_ t)) = true ->
  exists t',
    thread_before_sleep uninitialized (St t)
    = Ok (with_all_time_steps (points_ t')
            (with_move_time (toSec (time_from_start_ t')) (St t'))) /\
    moveit_msg_ t' = moveit_msg_ t /\
    match last (trajectory (moveit_msg_ t)) with
    | Some tra =>
        P t' = planned_positions ids goal tra /\
        points_ t' = Z.of_nat (length (points (joint_trajectory tra)))
    | None => t' = t
    end.
Proof.
  intros Hwf.
  change (thread_before_sleep uninitialized (St t))
    with (let? s := for_each (trajectory (moveit_msg_ t))
                      (ingest_trajectory uninitialized) (St t) in
          Ok (with_all_time_steps (points_ (motionPlanningTool_ s))
                (with_move_time
                   (toSec (time_from_start_ (motionPlanningTool_ s))) s))).
  destruct (for_each_tool s0
              (fun k t' =>
                 moveit_msg_ t' = moveit_msg_ t /\
                 match last (take k (trajectory (moveit_msg_ t))) with
                 | Some tra =>
                     P t' = planned_positions ids goal tra /\
                     points_ t'
                     = Z.of_nat (length (points (joint_trajectory tra)))
                 | None => t' = t
                 end)
              (trajectory (moveit_msg_ t))
              (ingest_trajectory uninitialized) t)
    as (t' & Hrun & Hmsg & Hlast).
  - split; reflexivity.
  - intros k tra t1 Htra (Hmsg1 & _).
    destruct (ingest_trajectory_ok t1 tra) as (t2 & Hrun2 & Hmsg2 & Hpts2 & Htable2).
    { eapply forallb_lookup; eassumption. }
    exists t2. split; [assumption|]. split; [congruence|].
    rewrite (take_S_r _ _ _ Htra), last_snoc. split; assumption.
  - exists t'. rewrite firstn_all in Hlast.
    split; [|split; assumption].
    rewrite Hrun. reflexivity.
Qed.

End Ingestion.

(** ** What a row of the planned table holds *)

Lemma fold_write_length (ids : JointIdMap) (values : list float)
    (l : list (Z * string)) (row : list float) :
  length (fold_left (write_joint ids values) l row) = length row.
Proof.
  revert row. induction l as [|jn l IH]; intros row; simpl; [reflexivity|].
  rewrite IH. apply length_insert.
Qed.

Lemma fold_write_untouched (ids : JointIdMap) (values : list float)
    (l : list (Z * string)) (row : list float) (j : nat) :
  (forall jn, In jn l -> column ids (snd jn) <> j) ->
  fold_left (write_joint ids values) l row !! j = row !! j.
Proof.
  revert row. induction l as [|jn l IH]; intros row Hl; simpl; [reflexivity|].
  rewrite IH by (intros jn' Hjn'; apply Hl; now right).
  apply list_lookup_insert_ne, Hl. now left.
Qed.

Lemma fold_write_last (ids : JointIdMap) (values : list float)
    (l1 l2 : list (Z * string)) (jn : Z * string) (row : list float) :
  (column ids (snd jn) < length row)%nat ->
  (forall jn', In jn' l2 -> column ids (snd jn') <> column ids (snd jn)) ->
  fold_left (write_joint ids values) (l1 ++ jn :: l2) row
    !! column ids (snd jn)
  = Some (default 0%float (Eigen.get values (fst jn))).
Proof.
  intros Hcol Hl2. rewrite fold_left_app. simpl.
  rewrite fold_write_untouched by assumption.
  apply list_lookup_insert_eq. now rewrite fold_write_length.
Qed.

(** A column that no joint of the trajectory is written to keeps what the
    row held. *)
Lemma overlay_untouched (ids : JointIdMap) (names : list string)
    (values row : list float) (j : nat) :
  (forall nm, In nm names -> column ids nm <> j) ->
  overlay ids names values row !! j = row !! j.
Proof.
  intros Hnames. apply fold_write_untouched. intros [ji nm] Hin.
  apply list_elem_of_In, list_elem_of_lookup in Hin as [i Hi].
  apply indexed_lookup in Hi as [_ Hnm]. simpl in *.
  apply Hnames, list_elem_of_In, list_elem_of_lookup. now exists i.
Qed.

(** The column of a joint holds the waypoint's value for it, unless a
    later joint of the trajectory is written to the same column. *)
Lemma overlay_written (ids : JointIdMap) (names : list string)
    (values row : list float) (ji : nat) (nm : string) (x : float) :
  names !! ji = Some nm ->
  values !! ji = Some x ->
  (column ids nm < length row)%nat ->
  (forall ji' nm',
     (ji < ji')%nat -> names !! ji' = Some nm' ->
     column ids nm' <> column ids nm) ->
  overlay ids names values row !! column ids nm = Some x.
Proof.
  intros Hnm Hx Hcol Hlater. unfold overlay.
  assert (Hidx : indexed names !! ji = Some (Z.of_nat ji, nm)).
  { unfold indexed. now rewrite list_lookup_imap, Hnm. }
  rewrite <- (take_drop_middle _ _ _ Hidx).
  rewrite (fold_write_last ids values _ _ (Z.of_nat ji, nm)); simpl.
  - unfold Eigen.get. destruct (0 <=? Z.of_nat ji) eqn:E; [|lia].
    now rewrite Nat2Z.id, Hx.
  - assumption.
  - intros [ji' nm'] Hin.
    apply list_elem_of_In, list_elem_of_lookup in Hin as [i Hi].
    rewrite lookup_drop in Hi.
    apply indexed_lookup in Hi as [_ Hnm']. simpl in *.
    apply (Hlater (S ji + i)%nat); [lia|assumption].
Qed.

Lemma with_motionPlanningTool_same (s : Controller) :
  with_motionPlanningTool (motionPlanningTool_ s) s = s.
Proof. destruct s; reflexivity. Qed.

Lemma registered_column (ids : JointIdMap) (nm : string) :
  registered ids nm = true ->
  exists id,
    StdMap.find ids nm = Some id /\ 1 <= id <= MAX_JOINT_NUM /\
    column ids nm = Z.to_nat (id - 1) /\
    (column ids nm < Z.to_nat MAX_JOINT_NUM)%nat.
Proof.
  unfold registered, column.
  destruct (StdMap.find ids nm) as [id|]; [|discriminate].
  intros H. exists id. unfold MAX_JOINT_NUM in *. simpl. repeat split; lia.
Qed.

(** The thread, up to its sleep, on a path that has just arrived and is
    well formed. *)
Lemma path_ingested (fill : float) (s : Controller)
    (msg : DisplayTrajectory) :
  length (goal_joint_position_ s) = Z.to_nat MAX_JOINT_NUM ->
  forallb (trajectory_well_formed (joint_id_ s)) (trajectory msg) = true ->
  exists t',
    thread_before_sleep fill (displayPlannedPathMsgCallback msg s)
    = Ok (with_all_time_steps (points_ t')
            (with_move_time (toSec (time_from_start_ t'))
               (with_motionPlanningTool t' s))) /\
    moveit_msg_ t' = msg /\
    match last (trajectory msg) with
    | Some tra =>
        display_planned_path_positions_ t'
        = planned_positions (joint_id_ s) (goal_joint_position_ s) tra /\
        points_ t' = Z.of_nat (length (points (joint_trajectory tra)))
    | None => t' = tool_with_msg msg (motionPlanningTool_ s)
    end.
Proof.
  intros Hgoal Hwf.
  apply (thread_before_sleep_ok fill s Hgoal
           (tool_with_msg msg (motionPlanningTool_ s))).
  exact Hwf.
Qed.

(** C6, refuted as stated: with the goal joint position at zero, the
    example path puts its first waypoint, not the goal, in row 0. *)
Lemma row_0_is_first_waypoint :
  goal_joint_position_ initPositionController
  = [0.0; 0.0; 0.0; 0.0]%float /\
  match
    moveItTragectoryGenerateThread 0%float
      (displayPlannedPathMsgCallback example_path initPositionController)
  with
  | Ok s' =>
      goal_joint_trajectory_ s' !! 0%nat
      = Some [0.1; 0.2; 0.3; 0.4]%float /\
      goal_joint_trajectory_ s' !! 0%nat
      <> Some (goal_joint_position_ initPositionController)
  | Crash _ _ => False
  end.
Proof.
  split; [reflexivity|]. vm_compute. split; [reflexivity|discriminate].
Qed.

(** C6, amended: every row of the table produced from a well-formed path,
    row 0 included, is the goal joint position (the last commanded
    configuration) overlaid with the waypoint of that row: a column that
    belongs to no joint of the path holds the goal position, and the
    column of a joint of the path holds the waypoint's value for that
    joint.  Row 0 thus equals the goal position only in the columns of
    joints the path does not name. *)
Theorem planned_table_rows (fill : float) (s : Controller)
    (msg : DisplayTrajectory) (tra : RobotTrajectory) :
  length (goal_joint_position_ s) = Z.to_nat MAX_JOINT_NUM ->
  forallb (trajectory_well_formed (joint_id_ s)) (trajectory msg) = true ->
  last (trajectory msg) = Some tra ->
  exists s',
    moveItTragectoryGenerateThread fill (displayPlannedPathMsgCallback msg s)
    = Ok s' /\
    Eigen.rows (goal_joint_trajectory_ s')
    = Z.of_nat (length (points (joint_trajectory tra))) /\
    forall (k : nat) (point : JointTrajectoryPoint),
      points (joint_trajectory tra) !! k = Some point ->
      exists row,
        goal_joint_trajectory_ s' !! k = Some row /\
        (forall j : nat,
           (forall nm, In nm (joint_names (joint_trajectory tra)) ->
                       column (joint_id_ s) nm <> j) ->
           row !! j = goal_joint_position_ s !! j) /\
        (forall (ji : nat) (nm : string) (x : float),
           joint_names (joint_trajectory tra) !! ji = Some nm ->
           positions point !! ji = Some x ->
           (forall ji' nm',
              (ji < ji')%nat ->
              joint_names (joint_trajectory tra) !! ji' = Some nm' ->
              column (joint_id_ s) nm' <> column (joint_id_ s) nm) ->
           row !! column (joint_id_ s) nm = Some x).
Proof.
  intros Hgoal Hwf Hlast.
  destruct (path_ingested fill s msg Hgoal Hwf) as (t' & Hrun & _ & Htable).
  rewrite Hlast in Htable. destruct Htable as [Htable Hpoints].
  unfold moveItTragectoryGenerateThread. rewrite Hrun. cbn [bind].
  eexists; split; [reflexivity|].
  assert (Hjt : forall s1,
             goal_joint_trajectory_ (thread_after_sleep s1)
             = display_planned_path_positions_ (motionPlanningTool_ s1)).
  { intros s1. unfold thread_after_sleep. fields.
    destruct (moveit_execution_ s1); reflexivity. }
  rewrite Hjt. fields. rewrite Htable.
  unfold planned_positions, Eigen.rows. rewrite length_map.
  split; [reflexivity|].
  intros k point Hpoint.
  exists (overlay (joint_id_ s) (joint_names (joint_trajectory tra))
            (positions point) (goal_joint_position_ s)).
  split; [|split].
  - rewrite list_lookup_fmap, Hpoint. reflexivity.
  - intros j Hj. now apply overlay_untouched.
  - intros ji nm x Hnm Hx Hlater.
    apply overlay_written with (ji := ji); try assumption.
    rewrite Hgoal.
    assert (Hreg : registered (joint_id_ s) nm = true).
    { apply forallb_lookup with (i := ji)
        (l := joint_names (joint_trajectory tra)); [|assumption].
      assert (Hin : In tra (trajectory msg)).
      { destruct (trajectory msg) as [|t0 l] using rev_ind;
          [discriminate|].
        rewrite last_snoc in Hlast. injection Hlast as ->.
        apply in_app_iff. right. now left. }
      rewrite forallb_forall in Hwf. specialize (Hwf tra Hin).
      unfold trajectory_well_formed in Hwf.
      now apply andb_true_iff in Hwf as [Hnames _]. }
    now destruct (registered_column _ _ Hreg) as (id & _ & _ & _ & Hlt).
Qed.

(** The example path, arriving right after start-up: row 0 is the first
    waypoint, row 1 the second. *)
Lemma planned_table_rows_example :
  exists s',
    moveItTragectoryGenerateThread 0%float
      (displayPlannedPathMsgCallback example_path initPositionController)
    = Ok s' /\
    Eigen.rows (goal_joint_trajectory_ s') = 2 /\
    exists row,
      goal_joint_trajectory_ s' !! 0%nat = Some row /\
      row !! 0%nat = Some 0.1%float /\ row !! 3%nat = Some 0.4%float.
Proof.
  destruct (planned_table_rows 0%float initPositionController example_path
              {| joint_trajectory :=
                   {| joint_names := ["joint1"; "joint2"; "joint3"; "joint4"];
                      points :=
                        [{| positions := [0.1; 0.2; 0.3; 0.4]%float;
                            velocities := [0.0; 0.0; 0.0; 0.0]%float;
                            accelerations := [0.0; 0.0; 0.0; 0.0]%float;
                            time_from_start := {| sec := 0; nsec := 0 |} |};
                         {| positions := [0.5; 0.6; 0.7; 0.8]%float;
                            velocities := [0.0; 0.0; 0.0; 0.0]%float;
                            accelerations := [0.0; 0.0; 0.0; 0.0]%float;
                            time_from_start := {| sec := 1; nsec := 0 |} |}]
                   |} |})
    as (s' & Hrun & Hrows & Hrow); try reflexivity.
  destruct (Hrow 0%nat _ eq_refl) as (row & Hrow0 & _ & Hwritten).
  exists s'. split; [assumption|]. split; [assumption|].
  exists row. split; [assumption|]. split.
  - apply (Hwritten 0%nat "joint1" 0.1%float); try reflexivity.
    intros [|[|[|[|ji']]]] nm' Hlt [= <-]; try lia; discriminate.
  - apply (Hwritten 3%nat "joint4" 0.4%float); try reflexivity.
    intros [|[|[|[|ji']]]] nm' Hlt Hnm'; try lia; discriminate.
Defined.

(** C7, refuted as stated: a path that names joint1 and an unregistered
    joint is not answered by an UnknownJoint error that drops the
    unregistered entry.  The lookup inserts the unknown name in the table
    with id 0, the write to column -1 is outside the matrix, and the
    run stops there: the table has changed, the value of joint1 has
    been written, and step count and movement time are not set. *)
Lemma unknown_joint_is_inserted :
  match
    thread_before_sleep 0%float
      (displayPlannedPathMsgCallback path_with_unknown_joint
         initPositionController)
  with
  | Crash fault s' =>
      fault = OutOfBounds /\
      StdMap.find (joint_id_ initPositionController) "grip_joint" = None /\
      StdMap.find (joint_id_ s') "grip_joint" = Some 0 /\
      joint_id_ s' <> joint_id_ initPositionController /\
      Eigen.coeff (display_planned_path_positions_ (motionPlanningTool_ s'))
        0 0 = Some 0.1%float
  | Ok _ => False
  end.
Proof.
  vm_compute. repeat split; discriminate.
Qed.

(** C7, amended: every joint name of a path is resolved through the
    registered table: the value of a joint goes to the column
    [joint_id_[name] - 1].  When every name of the path is registered and
    every waypoint has a value for each joint, the path is taken in
    completely and the table is left as it was.  There is no UnknownJoint
    error, no dropping of single entries and no rule about paths of which
    no joint resolves. *)
Theorem ingestion_resolves_registered_names (fill : float) (s : Controller)
    (msg : DisplayTrajectory) :
  length (goal_joint_position_ s) = Z.to_nat MAX_JOINT_NUM ->
  forallb (trajectory_well_formed (joint_id_ s)) (trajectory msg) = true ->
  exists s',
    thread_before_sleep fill (displayPlannedPathMsgCallback msg s) = Ok s' /\
    joint_id_ s' = joint_id_ s /\
    forall tra,
      last (trajectory msg) = Some tra ->
      all_time_steps_ s' = Z.of_nat (length (points (joint_trajectory tra))) /\
      forall (k ji : nat) (point : JointTrajectoryPoint) (nm : string)
             (x : float),
        points (joint_trajectory tra) !! k = Some point ->
        joint_names (joint_trajectory tra) !! ji = Some nm ->
        positions point !! ji = Some x ->
        (forall ji' nm',
           (ji < ji')%nat ->
           joint_names (joint_trajectory tra) !! ji' = Some nm' ->
           StdMap.find (joint_id_ s) nm' <> StdMap.find (joint_id_ s) nm) ->
        exists id,
          StdMap.find (joint_id_ s) nm = Some id /\
          Eigen.coeff
            (display_planned_path_positions_ (motionPlanningTool_ s'))
            (Z.of_nat k) (id - 1)
          = Some x.
Proof.
  intros Hgoal Hwf.
  destruct (path_ingested fill s msg Hgoal Hwf) as (t' & Hrun & _ & Htable).
  rewrite Hrun. eexists; split; [reflexivity|]. fields.
  split; [reflexivity|].
  intros tra Hlast. rewrite Hlast in Htable.
  destruct Htable as [Htable Hpoints]. split; [assumption|].
  intros k ji point nm x Hpoint Hnm Hx Hlater.
  assert (Hin : In tra (trajectory msg)).
  { destruct (trajectory msg) as [|t0 l] using rev_ind; [discriminate|].
    rewrite last_snoc in Hlast. injection Hlast as ->.
    apply in_app_iff. right. now left. }
  rewrite forallb_forall in Hwf. specialize (Hwf tra Hin).
  unfold trajectory_well_formed in Hwf.
  apply andb_true_iff in Hwf as [Hnames _].
  assert (Hreg : forall i n', joint_names (joint_trajectory tra) !! i = Some n' ->
                 registered (joint_id_ s) n' = true)
    by (intros i n' Hn'; eapply forallb_lookup; eassumption).
  destruct (registered_column _ _ (Hreg _ _ Hnm))
    as (id & Hfind & Hid & Hcol & Hlt).
  exists id. split; [assumption|].
  apply coeff_of_row
    with (row := overlay (joint_id_ s) (joint_names (joint_trajectory tra))
                   (positions point) (goal_joint_position_ s));
    try lia.
  - rewrite Nat2Z.id, Htable. unfold planned_positions.
    rewrite list_lookup_fmap, Hpoint. reflexivity.
  - rewrite <- Hcol. apply overlay_written with (ji := ji); try assumption.
    + now rewrite Hgoal.
    + intros ji' nm' Hlt' Hnm' Heq. apply (Hlater ji' nm' Hlt' Hnm').
      destruct (registered_column _ _ (Hreg _ _ Hnm'))
        as (id' & Hfind' & Hid' & Hcol' & _).
      rewrite Hfind, Hfind'. f_equal.
      rewrite Hcol, Hcol' in Heq. lia.
Qed.

(** The example path, arriving right after start-up. *)
Lemma ingestion_resolves_registered_names_example :
  exists s',
    thread_before_sleep 0%float
      (displayPlannedPathMsgCallback example_path initPositionController)
    = Ok s' /\
    joint_id_ s' = joint_id_ initPositionController /\
    all_time_steps_ s' = 2.
Proof.
  destruct (ingestion_resolves_registered_names 0%float
              initPositionController example_path)
    as (s' & Hrun & Hids & Hlast); try reflexivity.
  exists s'. split; [assumption|]. split; [assumption|].
  now destruct (Hlast _ eq_refl) as [Hsteps _].
Defined.

(** ** Arming of a planned path *)

Lemma gate_kept_refl (s : Controller) : gate_kept s s.
Proof. split; reflexivity. Qed.

Lemma gate_kept_trans (s1 s2 s3 : Controller) :
  gate_kept s1 s2 -> gate_kept s2 s3 -> gate_kept s1 s3.
Proof. unfold gate_kept. intuition congruence. Qed.

Lemma for_each_gate {X} (l : list X)
    (body : X -> Controller -> Result Controller) :
  (forall x s, gate_kept s (outcome_state id (body x s))) ->
  forall s, gate_kept s (outcome_state id (for_each l body s)).
Proof.
  intros Hbody. induction l as [|x l IH]; intros s; simpl.
  - apply gate_kept_refl.
  - specialize (Hbody x s).
    destruct (body x s) as [s'|f s']; simpl in *; [|assumption].
    eapply gate_kept_trans; [exact Hbody|apply IH].
Qed.

(** Case analysis on the accesses of a loop body. *)
Ltac crash_cases :=
  repeat match goal with
    | |- context [or_crash ?o _ _] => destruct o; fields
    | |- context [StdMap.index ?m ?k] => destruct (StdMap.index m k); fields
    end.

Lemma ingest_joint_gate (_point_index : Z) (point : JointTrajectoryPoint)
    (joint : Z * string) (s : Controller) :
  gate_kept s (outcome_state id (ingest_joint _point_index point joint s)).
Proof.
  unfold ingest_joint. destruct joint as [ji nm].
  crash_cases; simpl; split; reflexivity.
Qed.

Lemma bind_gate (s : Controller) (r : Result Controller)
    (k : Controller -> Result Controller) :
  gate_kept s (outcome_state id r) ->
  (forall s1, gate_kept s1 (outcome_state id (k s1))) ->
  gate_kept s (outcome_state id (bind r k)).
Proof.
  intros Hr Hk. destruct r as [s1|f s1]; simpl in *; [|assumption].
  eapply gate_kept_trans; [exact Hr|apply Hk].
Qed.

Lemma prefill_cell_gate (_point_index _name_index : Z) (s : Controller) :
  gate_kept s (outcome_state id (prefill_cell _point_index _name_index s)).
Proof.
  unfold prefill_cell. crash_cases; simpl; split; reflexivity.
Qed.

Lemma ingest_point_gate (names : list string) (p : Z * JointTrajectoryPoint)
    (s : Controller) :
  gate_kept s (outcome_state id (ingest_point names p s)).
Proof.
  destruct p as [pi point]. unfold ingest_point.
  eapply gate_kept_trans;
    [|apply for_each_gate; intros; apply ingest_joint_gate].
  split; reflexivity.
Qed.

Lemma ingest_trajectory_gate (fill : float) (tra : RobotTrajectory)
    (s : Controller) :
  gate_kept s (outcome_state id (ingest_trajectory fill tra s)).
Proof.
  unfold ingest_trajectory.
  destruct (Eigen.resize _ _ _) as [m|]; cbn [or_crash bind];
    [|split; reflexivity].
  apply bind_gate.
  - eapply gate_kept_trans;
      [|apply for_each_gate; intros pi s1; apply for_each_gate;
        intros ni s2; apply prefill_cell_gate].
    split; reflexivity.
  - intros s1. apply for_each_gate. intros p s2. apply ingest_point_gate.
Qed.

Lemma thread_before_sleep_gate (fill : float) (s : Controller) :
  gate_kept s (outcome_state id (thread_before_sleep fill s)).
Proof.
  unfold thread_before_sleep.
  pose proof (for_each_gate (trajectory (moveit_msg_ (motionPlanningTool_ s)))
                (ingest_trajectory fill) (ingest_trajectory_gate fill) s)
    as Hloop.
  destruct (for_each _ _ _) as [s1|f s1]; simpl in *; assumption.
Qed.

Lemma joint_state_entries_gate (names : list string)
    (acc : Controller * JointState) :
  gate_kept (fst acc) (outcome_state fst (joint_state_entries names acc)).
Proof.
  revert acc. induction names as [|nm names IH]; intros [s msg]; simpl.
  - apply gate_kept_refl.
  - destruct (StdMap.index (joint_id_ s) nm) as [ids' id'].
    destruct (Eigen.get _ _); simpl; [|split; reflexivity].
    eapply gate_kept_trans; [|apply IH]. split; reflexivity.
Qed.

Lemma process_idle_gate (s : Controller) :
  is_moving_ s = false ->
  gate_kept s (outcome_state id (process s)).
Proof.
  intros Hmov. unfold process, advance. rewrite Hmov. cbn [bind].
  pose proof (joint_state_entries_gate (StdMap.keys (joint_id_ s))
                (s, {| name := []; position := [] |})) as Hmsg.
  destruct (joint_state_entries _ _) as [[s1 msg]|f s1]; simpl in *;
    [|assumption].
  destruct Hmsg as [Hmov1 Hflag1].
  destruct (Eigen.get _ _); simpl; [|split; assumption].
  rewrite Hmov1, Hmov. simpl. rewrite Hmov1, Hmov. simpl.
  unfold gate_kept. split; congruence.
Qed.

(** X15: without a confirmation the controller stays idle: neither
    ticks, nor planned paths and the threads they start, nor anything
    else that is not a confirmation or a grip command makes it play,
    whether the run completes or stops at a fault. *)
Lemma without_confirmation_stays_idle (dt : float)
    (gen : float -> float -> float -> float -> float -> float -> float ->
           float -> MatrixXd)
    (fill : float) (events : list Event) (s : Controller) :
  is_moving_ s = false ->
  moveit_execution_ s = false ->
  forallb unconfirming events = true ->
  is_moving_ (outcome_state id (run dt gen fill events s)) = false /\
  moveit_execution_ (outcome_state id (run dt gen fill events s)) = false.
Proof.
  revert s. induction events as [|e events IH]; intros s Hmov Hflag Hev;
    simpl; [split; assumption|].
  simpl in Hev. apply andb_true_iff in Hev as [He Hev].
  assert (Hstep : gate_kept s (outcome_state id (handle dt gen fill e s))).
  { destruct e as [|msg|state|msg| |data]; simpl in *.
    - now apply process_idle_gate.
    - unfold presentJointPositionMsgCallback. apply for_each_gate.
      intros index s1. crash_cases; simpl; split; reflexivity.
    - unfold moveGroupActionFeedbackMsgCallback.
      apply negb_true_iff in He. rewrite He, andb_false_r.
      apply gate_kept_refl.
    - pose proof (thread_before_sleep_gate fill
                    (displayPlannedPathMsgCallback msg s)) as Hthread.
      destruct (thread_before_sleep _ _) as [s1|f s1]; simpl in *;
        exact Hthread.
    - destruct (sleeping_threads_ s); simpl; [apply gate_kept_refl|].
      unfold thread_after_sleep. fields. rewrite Hflag. split; reflexivity.
    - unfold gripperPositionMsgCallback.
      apply andb_true_iff in He as [Hon Hoff].
      apply negb_true_iff in Hon, Hoff. rewrite Hon, Hoff.
      simpl. split; reflexivity. }
  destruct Hstep as [Hmov1 Hflag1].
  destruct (handle dt gen fill e s) as [s1|f s1]; simpl in *.
  - apply IH; [congruence|congruence|assumption].
  - split; congruence.
Qed.

(** X16: a confirmation received while idle, then a well-formed path,
    then the end of the thread's sleep: the controller plays the joint
    buffer from step 0.  The same holds when the confirmation arrives
    while the thread sleeps. *)
Lemma confirmed_path_is_played (dt : float)
    (gen : float -> float -> float -> float -> float -> float -> float ->
           float -> MatrixXd)
    (fill : float) (s : Controller) (msg : DisplayTrajectory) :
  is_moving_ s = false ->
  gripper_ s = false ->
  length (goal_joint_position_ s) = Z.to_nat MAX_JOINT_NUM ->
  forallb (trajectory_well_formed (joint_id_ s)) (trajectory msg) = true ->
  forall events,
    events = [MoveGroupFeedback "MONITOR"; DisplayPlannedPath msg; ThreadWakes]
    \/ events
       = [DisplayPlannedPath msg; MoveGroupFeedback "MONITOR"; ThreadWakes] ->
    exists s',
      run dt gen fill events s = Ok s' /\
      is_moving_ s' = true /\ gripper_ s' = false /\ step_cnt_ s' = 0 /\
      moveit_execution_ s' = false /\
      goal_joint_trajectory_ s'
      = display_planned_path_positions_ (motionPlanningTool_ s') /\
      all_time_steps_ s' = points_ (motionPlanningTool_ s').
Proof.
  intros Hmov Hgrp Hgoal Hwf events [-> | ->]; simpl.
  - unfold moveGroupActionFeedbackMsgCallback. rewrite Hmov. simpl.
    destruct (path_ingested fill (with_moveit_execution true s) msg Hgoal Hwf)
      as (t' & Hrun & _).
    rewrite Hrun. simpl.
    eexists; split; [reflexivity|].
    unfold thread_after_sleep. fields. rewrite Hgrp. repeat split.
  - destruct (path_ingested fill s msg Hgoal Hwf) as (t' & Hrun & _).
    rewrite Hrun. simpl.
    unfold moveGroupActionFeedbackMsgCallback. fields. rewrite Hmov. simpl.
    eexists; split; [reflexivity|].
    unfold thread_after_sleep. fields. rewrite Hgrp. repeat split.
Qed.

(** A planned path that is only previewed (never confirmed) and arrives
    while the gripper motion plays is not armed, but the thread overwrites
    the step count with the path's: at step 3 of 201 the count becomes 2,
    and the next tick ends the gripper motion. *)
Lemma previewed_path_cuts_gripper_motion :
  match
    run TICK minimumJerkTra 0%float
      [GripperCommand "grip_on"; Tick; Tick; Tick;
       DisplayPlannedPath example_path; ThreadWakes]
      initPositionController
  with
  | Ok s =>
      is_moving_ s = true /\ gripper_ s = true /\
      step_cnt_ s = 3 /\ all_time_steps_ s = 2 /\
      match process s with
      | Ok s' => is_moving_ s' = false /\ step_cnt_ s' = 0
      | Crash _ _ => False
      end
  | Crash _ _ => False
  end.
Proof.
  vm_compute. repeat split.
Qed.

(** C4, at the input on which the code departs from it: execution is
    confirmed while the controller is idle, a grip_on command arrives and
    two ticks of the gripper motion are played, then the planned path
    arrives.  When the thread wakes, the controller is playing the gripper
    motion, and the thread arms all the same: the step index goes back to
    0 and the confirmation is used up, while the buffer kind stays
    "gripper" and the step count is the path's, 2 instead of 201.  Two
    ticks later the controller is idle: the gripper motion has been cut
    short and the path has not been played. *)
Theorem path_arms_over_a_playing_gripper_motion :
  match
    run TICK minimumJerkTra 0%float
      [MoveGroupFeedback "MONITOR"; GripperCommand "grip_on"; Tick; Tick;
       DisplayPlannedPath example_path]
      initPositionController
  with
  | Ok s =>
      is_moving_ s = true /\ gripper_ s = true /\ step_cnt_ s = 2 /\
      moveit_execution_ s = true /\ sleeping_threads_ s = 1%nat /\
      Eigen.rows (goal_gripper_trajectory_ s) = 201 /\
      match handle TICK minimumJerkTra 0%float ThreadWakes s with
      | Ok s' =>
          is_moving_ s' = true /\ gripper_ s' = true /\ step_cnt_ s' = 0 /\
          all_time_steps_ s' = 2 /\ moveit_execution_ s' = false /\
          last (emitted_ s') = Some (ROS_INFO "Send Motion Trajectory") /\
          match ticks 2 s' with
          | Ok s'' =>
              is_moving_ s'' = false /\
              goal_joint_position_ s'' = [0.0; 0.0; 0.0; 0.0]%float
          | Crash _ _ => False
          end
      | Crash _ _ => False
      end
  | Crash _ _ => False
  end.
Proof.
  vm_compute. repeat split.
Qed.

(** ** The layout of the state along a run *)

Lemma layout_kept_refl (s : Controller) : layout_kept s s.
Proof. repeat split. Qed.

Lemma layout_kept_trans (s1 s2 s3 : Controller) :
  layout_kept s1 s2 -> layout_kept s2 s3 -> layout_kept s1 s3.
Proof. unfold layout_kept. intuition congruence. Qed.

Lemma set_length (v v' : VectorXd) (i : Z) (x : float) :
  Eigen.set v i x = Some v' -> length v' = length v.
Proof.
  unfold Eigen.set. destruct (_ && _); [|discriminate].
  intros [= <-]. apply length_insert.
Qed.

(** A completed loop keeps the layout when each completed iteration
    does. *)
Lemma for_each_layout {X} (l : list X)
    (body : X -> Controller -> Result Controller) :
  (forall x s s',
     ids_valid (joint_id_ s) = true -> body x s = Ok s' -> layout_kept s s') ->
  forall s s',
    ids_valid (joint_id_ s) = true ->
    for_each l body s = Ok s' -> layout_kept s s'.
Proof.
  intros Hbody. induction l as [|x l IH]; simpl; intros s s' Hids H.
  - injection H as <-. apply layout_kept_refl.
  - destruct (body x s) as [s1|] eqn:E; simpl in H; [|discriminate].
    pose proof (Hbody _ _ _ Hids E) as H1.
    apply layout_kept_trans with s1; [assumption|].
    apply IH; [|assumption].
    destruct H1 as [-> _]. assumption.
Qed.

(** Case analysis of a run that has completed: every step of it has. *)
Ltac completed H :=
  repeat match type of H with
    | context [or_crash ?o _ _] =>
        let E := fresh "E" in
        destruct o eqn:E; fields in *; [|discriminate H]
    end.

Lemma presentJointPositionMsgCallback_layout (msg : JointState)
    (s s' : Controller) :
  ids_valid (joint_id_ s) = true ->
  presentJointPositionMsgCallback msg s = Ok s' -> layout_kept s s'.
Proof.
  unfold presentJointPositionMsgCallback. apply for_each_layout.
  clear. intros index s s' _ H. completed H.
  injection H as <-. apply set_length in E0.
  unfold layout_kept. fields. auto.
Qed.

Lemma advance_layout (s s' : Controller) :
  ids_valid (joint_id_ s) = true ->
  advance s = Ok s' -> layout_kept s s'.
Proof.
  intros Hids. unfold advance.
  destruct (is_moving_ s); [|intros [= <-]; apply layout_kept_refl].
  match goal with
  | |- bind ?r _ = _ -> _ => destruct r as [s1|] eqn:E1
  end; [|discriminate].
  fields. intros H. completed H. injection H as <-.
  assert (layout_kept s s1) as H1.
  { destruct (gripper_ s); revert E1; apply for_each_layout;
      try assumption; clear; intros index s s' _ H; completed H;
      injection H as <-; apply set_length in E0;
      unfold layout_kept; fields; auto. }
  unfold layout_kept in *. fields. assumption.
Qed.

Lemma process_layout (s s' : Controller) :
  ids_valid (joint_id_ s) = true ->
  goals_sized s ->
  process s = Ok s' -> layout_kept s s'.
Proof.
  intros Hids Hsz. unfold process.
  destruct (advance s) as [s1|] eqn:E1; [|discriminate].
  fields. pose proof (advance_layout _ _ Hids E1) as H1.
  assert (Hids1 : ids_valid (joint_id_ s1) = true).
  { destruct H1 as [-> _]. assumption. }
  assert (Hsz1 : goals_sized s1).
  { unfold goals_sized, layout_kept in *. intuition congruence. }
  destruct (process_builds_setpoint s1 Hids1 Hsz1) as [-> [g Hg]].
  fields. rewrite Hg. fields. intros H.
  apply layout_kept_trans with s1; [assumption|].
  destruct (is_moving_ s1) eqn:Hm; fields in *; rewrite ?Hm in H.
  - destruct (_ >=? _); injection H as <-; repeat split.
  - injection H as <-. apply layout_kept_refl.
Qed.

Lemma coeffRef_before_first_column (m : MatrixXd) (i : Z) (x : float) :
  Eigen.coeffRef m i (0 - 1) x = None.
Proof. unfold Eigen.coeffRef. now destruct (0 <=? i). Qed.

(** A joint that is taken in is a registered one: for another name the
    write goes to column -1. *)
Lemma ingest_joint_layout (_point_index : Z) (point : JointTrajectoryPoint)
    (joint : Z * string) (s s' : Controller) :
  ids_valid (joint_id_ s) = true ->
  ingest_joint _point_index point joint s = Ok s' -> layout_kept s s'.
Proof.
  intros _. destruct joint as [ji nm]. unfold ingest_joint.
  intros H. completed H. revert H.
  unfold StdMap.index at 1.
  destruct (StdMap.find (joint_id_ s) nm) as [id|] eqn:Ef; fields.
  - intros H. completed H. revert H.
    rewrite (index_registered _ _ _ Ef). fields.
    intros H. completed H. revert H.
    rewrite (index_registered _ _ _ Ef). fields.
    intros H. completed H. injection H as <-.
    repeat split.
  - rewrite coeffRef_before_first_column. fields. discriminate.
Qed.

Lemma prefill_cell_layout (_point_index _name_index : Z)
    (s s' : Controller) :
  ids_valid (joint_id_ s) = true ->
  prefill_cell _point_index _name_index s = Ok s' -> layout_kept s s'.
Proof.
  intros _. unfold prefill_cell. intros H. completed H.
  injection H as <-. repeat split.
Qed.

Lemma ingest_point_layout (names : list string)
    (p : Z * JointTrajectoryPoint) (s s' : Controller) :
  ids_valid (joint_id_ s) = true ->
  ingest_point names p s = Ok s' -> layout_kept s s'.
Proof.
  intros Hids. destruct p as [pi point]. unfold ingest_point. intros H.
  apply for_each_layout in H;
    [exact H|apply ingest_joint_layout|exact Hids].
Qed.

Lemma ingest_trajectory_layout (fill : float) (tra : RobotTrajectory)
    (s s' : Controller) :
  ids_valid (joint_id_ s) = true ->
  ingest_trajectory fill tra s = Ok s' -> layout_kept s s'.
Proof.
  intros Hids. unfold ingest_trajectory. fields.
  destruct (Eigen.resize _ _ _) as [m|]; fields; [|discriminate].
  match goal with
  | |- bind ?r _ = _ -> _ => destruct r as [s1|] eqn:E1
  end; [|discriminate].
  fields. intros H.
  assert (layout_kept s s1) as H1.
  { apply for_each_layout in E1; [exact E1| |exact Hids].
    intros pi s2 s3 Hids2. apply for_each_layout; [|exact Hids2].
    apply prefill_cell_layout. }
  apply layout_kept_trans with s1; [assumption|].
  apply for_each_layout in H; [exact H|apply ingest_point_layout|].
  destruct H1 as [-> _]. exact Hids.
Qed.

Lemma thread_before_sleep_layout (fill : float) (s s' : Controller) :
  ids_valid (joint_id_ s) = true ->
  thread_before_sleep fill s = Ok s' -> layout_kept s s'.
Proof.
  intros Hids. unfold thread_before_sleep.
  match goal with
  | |- bind ?r _ = _ -> _ => destruct r as [s1|] eqn:E1
  end; [|discriminate].
  fields. intros [= <-].
  apply for_each_layout in E1;
    [|apply ingest_trajectory_layout|exact Hids].
  unfold layout_kept in *. fields. assumption.
Qed.

Lemma grip_layout (dt : float)
    (gen : float -> float -> float -> float -> float -> float -> float ->
           float -> MatrixXd)
    (fill angle : float) (s s' : Controller) :
  grip dt gen fill angle s = Ok s' -> layout_kept s s'.
Proof.
  unfold grip. intros H. completed H. revert H.
  unfold calculateGripperGoalTrajectory.
  match goal with
  | |- bind ?r _ = _ -> _ => destruct r as [s1|] eqn:Es
  end; [|discriminate].
  apply set_movement_time_spec in Es as [n [_ ->]].
  fields. change (upto MAX_GRIPPER_NUM) with [0]. cbn [for_each].
  intros H. completed H. injection H as <-.
  apply set_length in E1.
  unfold layout_kept. fields. rewrite E1. repeat split.
Qed.

Lemma handle_layout (dt : float)
    (gen : float -> float -> float -> float -> float -> float -> float ->
           float -> MatrixXd)
    (fill : float) (e : Event) (s s' : Controller) :
  ids_valid (joint_id_ s) = true ->
  goals_sized s ->
  handle dt gen fill e s = Ok s' -> layout_kept s s'.
Proof.
  intros Hids Hsz. destruct e as [|msg|state|msg| |data]; cbn [handle].
  - now apply process_layout.
  - now apply presentJointPositionMsgCallback_layout.
  - intros [= <-]. unfold moveGroupActionFeedbackMsgCallback.
    destruct (_ && _); repeat split.
  - match goal with
    | |- bind ?r _ = _ -> _ => destruct r as [s1|] eqn:E1
    end; [|discriminate].
    fields. intros [= <-].
    apply thread_before_sleep_layout in E1; [|exact Hids].
    unfold layout_kept in *. fields in *. assumption.
  - destruct (sleeping_threads_ s); intros [= <-]; [apply layout_kept_refl|].
    unfold thread_after_sleep. fields.
    destruct (moveit_execution_ s); repeat split.
  - unfold gripperPositionMsgCallback, gripOn, gripOff.
    destruct (String.eqb data "grip_on"); [apply grip_layout|].
    destruct (String.eqb data "grip_off"); [apply grip_layout|].
    intros [= <-]. repeat split.
Qed.

(** X1: along any run that completes, whatever the events, the id table
    stays as it was and the goal and present position vectors keep their
    sizes, provided the run starts from a state whose ids name columns of
    the joint vector and whose goal vectors have the sizes the constructor
    gives them. *)
Theorem layout_is_invariant (dt : float)
    (gen : float -> float -> float -> float -> float -> float -> float ->
           float -> MatrixXd)
    (fill : float) (events : list Event) (s s' : Controller) :
  ids_valid (joint_id_ s) = true ->
  goals_sized s ->
  run dt gen fill events s = Ok s' ->
  joint_id_ s' = joint_id_ s /\
  goals_sized s' /\
  length (present_joint_position_ s') = length (present_joint_position_ s).
Proof.
  revert s. induction events as [|e events IH]; cbn [run]; intros s Hids Hsz.
  - intros [= <-]. auto.
  - destruct (handle dt gen fill e s) as [s1|] eqn:E1; [|discriminate].
    fields. intros H.
    apply handle_layout in E1 as (Hid & Hj & Hg & Hp); try assumption.
    assert (Hsz1 : goals_sized s1).
    { unfold goals_sized in *. intuition congruence. }
    destruct (IH s1) as (Hid' & Hsz' & Hp'); try assumption.
    { now rewrite Hid. }
    repeat split; try apply Hsz'; congruence.
Qed.

(** X1 at start-up: a grip command, three ticks, a joint state and a
    planned path with its thread. *)
Lemma layout_is_invariant_from_startup :
  exists s',
    run TICK minimumJerkTra 0%float
      [GripperCommand "grip_on"; Tick; Tick; Tick;
       PresentJointStates
         {| name := []; position := [0.1; 0.2; 0.3; 0.4; 0.5]%float |};
       DisplayPlannedPath example_path; ThreadWakes]
      initPositionController = Ok s' /\
    joint_id_ s' = joint_id_ initPositionController /\
    goals_sized s' /\
    length (present_joint_position_ s') = 5%nat.
Proof.
  destruct (run TICK minimumJerkTra 0%float
      [GripperCommand "grip_on"; Tick; Tick; Tick;
       PresentJointStates
         {| name := []; position := [0.1; 0.2; 0.3; 0.4; 0.5]%float |};
       DisplayPlannedPath example_path; ThreadWakes]
      initPositionController) as [s'|] eqn:E; [|vm_compute in E; discriminate].
  exists s'. split; [reflexivity|].
  apply (layout_is_invariant TICK minimumJerkTra 0%float _
           initPositionController s'
           ltac:(reflexivity) ltac:(split; reflexivity) E).
Defined.

(** ** Playback as long as no planned path arrives *)

Lemma for_each_completed {X} (P : Controller -> Prop) (l : list X)
    (body : X -> Controller -> Result Controller) :
  (forall x s s', P s -> body x s = Ok s' -> P s') ->
  forall s s', P s -> for_each l body s = Ok s' -> P s'.
Proof.
  intros Hbody. induction l as [|x l IH]; simpl; intros s s' Hs H.
  - now injection H as <-.
  - destruct (body x s) as [s1|] eqn:E; simpl in H; [|discriminate].
    eauto.
Qed.

Lemma int_ok_value (n c : Z) : int_ok n = Some c -> c = n.
Proof. unfold int_ok. destruct (_ && _); congruence. Qed.

Lemma coeff_row_bound (m : MatrixXd) (i j : Z) (x : float) :
  Eigen.coeff m i j = Some x -> 0 <= i < Eigen.rows m.
Proof.
  unfold Eigen.coeff, Eigen.rows.
  destruct (0 <=? i) eqn:Ei; [|discriminate].
  destruct (0 <=? j); [|discriminate]. cbn [andb].
  destruct (m !! Z.to_nat i) as [row|] eqn:Er; [|discriminate].
  intros _. apply lookup_lt_Some in Er. lia.
Qed.

Lemma write_column_length (m : MatrixXd) (j : nat) (src : MatrixXd) :
  length (Eigen.write_column m j src) = length m.
Proof.
  revert src. induction m as [|r m IH]; intros src; [reflexivity|].
  destruct src as [|[|x row] src]; simpl; auto.
Qed.

(** What a grip command that completes leaves: playback of the gripper
    buffer armed at step 0, one row per step. *)
Lemma grip_completed (dt : float)
    (gen : float -> float -> float -> float -> float -> float -> float ->
           float -> MatrixXd)
    (fill angle : float) (s s' : Controller) :
  grip dt gen fill angle s = Ok s' ->
  is_moving_ s' = true /\ gripper_ s' = true /\ step_cnt_ s' = 0 /\
  0 <= all_time_steps_ s' /\
  Eigen.rows (goal_gripper_trajectory_ s') = all_time_steps_ s' /\
  sleeping_threads_ s' = sleeping_threads_ s /\
  moveit_execution_ s' = moveit_execution_ s.
Proof.
  unfold grip. intros H. completed H. revert H.
  unfold calculateGripperGoalTrajectory.
  match goal with
  | |- bind ?r _ = _ -> _ => destruct r as [s1|] eqn:Es
  end; [|discriminate].
  apply set_movement_time_spec in Es as [n [_ ->]].
  fields. change (upto MAX_GRIPPER_NUM) with [0]. cbn [for_each].
  intros H. completed H. injection H as <-. fields.
  unfold Eigen.resize in E2.
  destruct (0 <=? n) eqn:En; [|discriminate]. cbn [andb] in E2.
  change (0 <=? MAX_GRIPPER_NUM) with true in E2. injection E2 as <-.
  unfold Eigen.assign_block_column in E5.
  destruct (_ && _) in E5; [|discriminate]. injection E5 as <-.
  unfold Eigen.rows. rewrite write_column_length, length_replicate.
  repeat split; lia.
Qed.

Lemma process_gripper_playback (s s' : Controller) :
  ids_valid (joint_id_ s) = true ->
  goals_sized s ->
  gripper_playback s ->
  process s = Ok s' -> gripper_playback s'.
Proof.
  intros Hids Hsz (Hstep & Hsleep & Hplay).
  destruct (is_moving_ s) eqn:Hm.
  - destruct Hplay as [Hg Hrows].
    unfold process.
    destruct (advance s) as [s1|] eqn:E1; [|discriminate].
    fields. pose proof (advance_layout _ _ Hids E1) as H1.
    assert (Hids1 : ids_valid (joint_id_ s1) = true).
    { destruct H1 as [-> _]. assumption. }
    assert (Hsz1 : goals_sized s1).
    { unfold goals_sized, layout_kept in *. intuition congruence. }
    destruct (process_builds_setpoint s1 Hids1 Hsz1) as [-> [g Hg1]].
    fields. rewrite Hg1. fields.
    unfold advance in E1. rewrite Hm, Hg in E1.
    change (upto MAX_GRIPPER_NUM) with [0] in E1. cbn [for_each] in E1.
    completed E1. injection E1 as <-. fields.
    apply coeff_row_bound in E. apply int_ok_value in E2. subst z.
    rewrite Hm. fields. rewrite Hm.
    destruct (_ >=? _) eqn:Ec; intros [= <-]; unfold gripper_playback; fields.
    + repeat split; first [lia|assumption].
    + rewrite Hm. repeat split; first [lia|assumption].
  - rewrite process_idle by assumption. intros [= <-].
    unfold gripper_playback. rewrite Hm. auto.
Qed.

Lemma handle_gripper_playback (dt : float)
    (gen : float -> float -> float -> float -> float -> float -> float ->
           float -> MatrixXd)
    (fill : float) (e : Event) (s s' : Controller) :
  ids_valid (joint_id_ s) = true ->
  goals_sized s ->
  gripper_playback s ->
  pathless e = true ->
  handle dt gen fill e s = Ok s' -> gripper_playback s'.
Proof.
  intros Hids Hsz Hs He.
  destruct e as [|msg|state|msg| |data]; cbn [handle]; try discriminate.
  - now apply process_gripper_playback.
  - unfold presentJointPositionMsgCallback.
    apply for_each_completed; [|assumption].
    clear. intros index s s' Hs H. completed H. injection H as <-.
    exact Hs.
  - intros [= <-]. unfold moveGroupActionFeedbackMsgCallback.
    destruct (_ && _); exact Hs.
  - destruct Hs as (? & Hsleep & ?). rewrite Hsleep. intros [= <-].
    unfold gripper_playback. auto.
  - assert (Hgrip : forall angle,
              grip dt gen fill angle s = Ok s' -> gripper_playback s').
    { intros angle H.
      apply grip_completed in H as (Hm & Hg & Hc & Hn & Hr & Hsl & _).
      unfold gripper_playback. rewrite Hm, Hc, Hsl.
      destruct Hs as (_ & -> & _). repeat split; try lia; assumption. }
    unfold gripperPositionMsgCallback, gripOn, gripOff.
    destruct (String.eqb data "grip_on"); [apply Hgrip|].
    destruct (String.eqb data "grip_off"); [apply Hgrip|].
    intros [= <-]. exact Hs.
Qed.

(** X2: as long as no planned path arrives, every state a run reaches
    has its step within the step count; when it plays, it plays the
    gripper buffer, which has exactly [all_time_steps_] rows; when it is
    idle, the step is 0 and the gripper flag is down.  This holds
    whatever the tick interval and the trajectory generator are. *)
Theorem pathless_runs_keep_playback (dt : float)
    (gen : float -> float -> float -> float -> float -> float -> float ->
           float -> MatrixXd)
    (fill : float) (events : list Event) (s s' : Controller) :
  ids_valid (joint_id_ s) = true ->
  goals_sized s ->
  gripper_playback s ->
  forallb pathless events = true ->
  run dt gen fill events s = Ok s' ->
  gripper_playback s'.
Proof.
  revert s. induction events as [|e events IH]; cbn [run forallb];
    intros s Hids Hsz Hs Hev.
  - now intros [= <-].
  - apply andb_true_iff in Hev as [He Hev].
    destruct (handle dt gen fill e s) as [s1|] eqn:E1; [|discriminate].
    fields. intros H.
    pose proof (handle_gripper_playback _ _ _ _ _ _ Hids Hsz Hs He E1).
    apply handle_layout in E1 as (Hid & Hj & Hg & Hp); try assumption.
    apply (IH s1); try assumption.
    + now rewrite Hid.
    + unfold goals_sized in *. intuition congruence.
Qed.

(** X2 at start-up: two grip commands with ticks in between and after. *)
Lemma pathless_runs_keep_playback_from_startup :
  exists s',
    run TICK minimumJerkTra 0%float
      [Tick; GripperCommand "grip_on"; Tick; Tick;
       MoveGroupFeedback "MONITOR"; GripperCommand "grip_off"; Tick;
       ThreadWakes]
      initPositionController = Ok s' /\
    gripper_playback s'.
Proof.
  destruct (run TICK minimumJerkTra 0%float
      [Tick; GripperCommand "grip_on"; Tick; Tick;
       MoveGroupFeedback "MONITOR"; GripperCommand "grip_off"; Tick;
       ThreadWakes]
      initPositionController) as [s'|] eqn:E; [|vm_compute in E; discriminate].
  exists s'. split; [reflexivity|].
  refine (pathless_runs_keep_playback _ _ _ _ _ _ _ _ _ _ E);
    [reflexivity|split; reflexivity|repeat split; reflexivity|reflexivity].
Defined.

(** ** Where a confirmation comes from *)

Section Runs.

Variable dt : float.
Variable gen :
  float -> float -> float -> float -> float -> float -> float -> float ->
  MatrixXd.
Variable fill : float.

Lemma run_app (a b : list Event) (s : Controller) :
  run dt gen fill (a ++ b) s = bind (run dt gen fill a s) (run dt gen fill b).
Proof.
  revert s. induction a as [|e a IH]; intros s; [reflexivity|].
  cbn [app run]. destruct (handle dt gen fill e s); [apply IH|reflexivity].
Qed.

Lemma run_app_completed (a b : list Event) (s s' : Controller) :
  run dt gen fill (a ++ b) s = Ok s' ->
  exists s1, run dt gen fill a s = Ok s1 /\ run dt gen fill b s1 = Ok s'.
Proof.
  rewrite run_app. destruct (run dt gen fill a s) as [s1|]; [|discriminate].
  intros H. exists s1. auto.
Qed.

(** A run that completes ends in a state with valid ids and goal vectors
    of the right sizes when it starts in one. *)
Lemma run_well_formed (events : list Event) (s s' : Controller) :
  ids_valid (joint_id_ s) = true ->
  goals_sized s ->
  run dt gen fill events s = Ok s' ->
  ids_valid (joint_id_ s') = true /\ goals_sized s'.
Proof.
  revert s. induction events as [|e events IH]; cbn [run]; intros s Hids Hsz.
  - intros [= <-]. auto.
  - destruct (handle dt gen fill e s) as [s1|] eqn:E1; [|discriminate].
    fields. apply handle_layout in E1 as (Hid & Hj & Hg & Hp); try assumption.
    apply IH.
    + now rewrite Hid.
    + unfold goals_sized in *. intuition congruence.
Qed.

End Runs.

(** A tick of a playing controller that completes has found the row of
    the current step in the active buffer, and has played it. *)
Lemma process_completed (s s' : Controller) :
  ids_valid (joint_id_ s) = true ->
  goals_sized s ->
  is_moving_ s = true ->
  process s = Ok s' ->
  exists row,
    active_trajectory s !! Z.to_nat (step_cnt_ s) = Some row /\
    (active_width s <= length row)%nat /\
    0 <= step_cnt_ s < Double.INT_MAX /\
    s' = ticked row s.
Proof.
  intros Hids Hsz Hm H.
  assert (exists row,
            active_trajectory s !! Z.to_nat (step_cnt_ s) = Some row /\
            (active_width s <= length row)%nat /\
            0 <= step_cnt_ s < Double.INT_MAX) as (row & Hrow & Hw & Hstep).
  { unfold process in H.
    destruct (advance s) as [s1|] eqn:E1; [|discriminate]. clear H.
    unfold advance in E1. rewrite Hm in E1.
    unfold active_trajectory, active_width.
    destruct (gripper_ s).
    - change (upto MAX_GRIPPER_NUM) with [0] in E1. cbn [for_each] in E1.
      completed E1.
      match goal with
      | Hc : Eigen.coeff _ _ 0 = Some _, Hi : int_ok _ = Some _ |- _ =>
          pose proof (coeff_row_bound _ _ _ _ Hc) as Hb;
          unfold Eigen.coeff in Hc;
          destruct (_ && _) in Hc; [|discriminate];
          destruct (goal_gripper_trajectory_ s !! Z.to_nat (step_cnt_ s))
            as [row|]; [|discriminate];
          exists row; cbn in Hc; apply lookup_lt_Some in Hc;
          unfold int_ok in Hi;
          destruct (_ && _) eqn:Eb in Hi; [|discriminate];
          apply andb_true_iff in Eb; unfold Double.INT_MAX in *;
          change (Z.to_nat MAX_GRIPPER_NUM) with 1%nat; repeat split; lia
      end.
    - change (upto MAX_JOINT_NUM) with [0; 1; 2; 3] in E1.
      cbn [for_each] in E1. completed E1.
      match goal with
      | Hc : Eigen.coeff _ _ 3 = Some _, Hi : int_ok _ = Some _ |- _ =>
          pose proof (coeff_row_bound _ _ _ _ Hc) as Hb;
          unfold Eigen.coeff in Hc;
          destruct (_ && _) in Hc; [|discriminate];
          destruct (goal_joint_trajectory_ s !! Z.to_nat (step_cnt_ s))
            as [row|]; [|discriminate];
          exists row; cbn in Hc; apply lookup_lt_Some in Hc;
          unfold int_ok in Hi;
          destruct (_ && _) eqn:Eb in Hi; [|discriminate];
          apply andb_true_iff in Eb; unfold Double.INT_MAX in *;
          change (Z.to_nat MAX_JOINT_NUM) with 4%nat; repeat split; lia
      end. }
  exists row. repeat split; try assumption; try lia.
  rewrite (process_playing s row) in H by (assumption || lia).
  now injection H.
Qed.

Lemma ticked_confirmation (row : list float) (s : Controller) :
  moveit_execution_ (ticked row s) = moveit_execution_ s.
Proof.
  unfold ticked, stopped. destruct (_ >=? _); fields;
    apply advanced_frame.
Qed.

(** The confirmation flag after an event that completes: it is up only
    if it was up before, or if the event is a MONITOR feedback received
    while idle. *)
Lemma handle_confirmation (dt : float)
    (gen : float -> float -> float -> float -> float -> float -> float ->
           float -> MatrixXd)
    (fill : float) (e : Event) (s s' : Controller) :
  ids_valid (joint_id_ s) = true ->
  goals_sized s ->
  handle dt gen fill e s = Ok s' ->
  moveit_execution_ s' = true ->
  moveit_execution_ s = true \/
  (e = MoveGroupFeedback "MONITOR" /\ is_moving_ s = false).
Proof.
  intros Hids Hsz.
  destruct e as [|msg|state|msg| |data]; cbn [handle].
  - destruct (is_moving_ s) eqn:Hm.
    + intros H. apply process_completed in H as (row & _ & _ & _ & ->);
        try assumption.
      rewrite ticked_confirmation. auto.
    + rewrite process_idle by assumption. intros [= <-]. auto.
  - unfold presentJointPositionMsgCallback. intros H Hflag. left.
    rewrite <- Hflag. symmetry. revert H.
    apply (for_each_completed
             (fun x => moveit_execution_ x = moveit_execution_ s));
      [|reflexivity].
    clear. intros index s1 s2 Hs H. completed H. injection H as <-.
    exact Hs.
  - intros [= <-]. unfold moveGroupActionFeedbackMsgCallback.
    destruct (is_moving_ s); cbn [negb andb]; [auto|].
    destruct (String.eqb state "MONITOR") eqn:Es; [|auto].
    apply String.eqb_eq in Es as ->. auto.
  - pose proof (thread_before_sleep_gate fill
                  (displayPlannedPathMsgCallback msg s)) as [_ Hg].
    destruct (thread_before_sleep _ _) as [s1|]; [|discriminate].
    fields. intros [= <-]. fields. cbn in Hg.
    intros Hup. left. rewrite <- Hup, Hg. reflexivity.
  - destruct (sleeping_threads_ s); intros [= <-]; [auto|].
    unfold thread_after_sleep. fields.
    destruct (moveit_execution_ s) eqn:Hf; fields; rewrite ?Hf; auto.
  - unfold gripperPositionMsgCallback, gripOn, gripOff.
    destruct (String.eqb data "grip_on");
      [intros H; apply grip_completed in H; intuition congruence|].
    destruct (String.eqb data "grip_off");
      [intros H; apply grip_completed in H; intuition congruence|].
    intros [= <-]. auto.
Qed.

(** X3: the confirmation flag is raised by a MONITOR feedback received
    while the controller is idle, and by nothing else.  If the flag is up
    at the end of a run that started with the flag down, then the run
    contains such a feedback, received in an idle state, and the flag has
    been up ever since: no thread has armed a path in between. *)
Theorem confirmation_comes_from_idle_feedback (dt : float)
    (gen : float -> float -> float -> float -> float -> float -> float ->
           float -> MatrixXd)
    (fill : float) (events : list Event) (s s' : Controller) :
  ids_valid (joint_id_ s) = true ->
  goals_sized s ->
  moveit_execution_ s = false ->
  run dt gen fill events s = Ok s' ->
  moveit_execution_ s' = true ->
  exists (before after : list Event) (s1 : Controller),
    events = before ++ MoveGroupFeedback "MONITOR" :: after /\
    run dt gen fill before s = Ok s1 /\
    is_moving_ s1 = false /\
    forall (a1 a2 : list Event) (s2 : Controller),
      after = a1 ++ a2 ->
      run dt gen fill (before ++ MoveGroupFeedback "MONITOR" :: a1) s
      = Ok s2 ->
      moveit_execution_ s2 = true.
Proof.
  intros Hids Hsz Hdown. revert s'.
  induction events as [|e events IH] using rev_ind; intros s' H Hup.
  - injection H as <-. congruence.
  - pose proof H as Hall.
    apply run_app_completed in H as (sm & Hev & He).
    cbn [run] in He.
    destruct (handle dt gen fill e sm) as [s1|] eqn:E1; [|discriminate].
    injection He as ->.
    destruct (run_well_formed _ _ _ _ _ _ Hids Hsz Hev) as [Hidm Hszm].
    destruct (handle_confirmation _ _ _ _ _ _ Hidm Hszm E1 Hup)
      as [Hm|[-> Hidle]].
    + destruct (IH sm Hev Hm) as (before & after & s1 & -> & Hb & Hi & Hstay).
      exists before, (after ++ [e]), s1.
      split; [now rewrite <- app_assoc|].
      split; [assumption|]. split; [assumption|].
      intros a1 a2 s2 Ha Hr.
      destruct a2 as [|x a2 _] using rev_ind.
      * rewrite app_nil_r in Ha. subst a1.
        rewrite <- app_assoc in Hall. cbn [app] in Hall. congruence.
      * rewrite app_assoc in Ha. apply app_inj_tail in Ha as [Ha _].
        now apply (Hstay a1 a2 s2).
    + exists events, [], sm. repeat split; try assumption.
      intros a1 a2 s2 Ha Hr. symmetry in Ha.
      apply app_eq_nil in Ha as [-> _]. congruence.
Qed.

(** X3 from start-up: a confirmation received while idle, then a path. *)
Lemma confirmation_comes_from_idle_feedback_example :
  exists (before after : list Event) (s1 : Controller),
    [Tick; MoveGroupFeedback "MONITOR"; DisplayPlannedPath example_path]
    = before ++ MoveGroupFeedback "MONITOR" :: after /\
    run TICK minimumJerkTra 0%float before initPositionController = Ok s1 /\
    is_moving_ s1 = false.
Proof.
  destruct (run TICK minimumJerkTra 0%float
      [Tick; MoveGroupFeedback "MONITOR"; DisplayPlannedPath example_path]
      initPositionController) as [s'|] eqn:E; [|vm_compute in E; discriminate].
  assert (Hup : moveit_execution_ s' = true).
  { vm_compute in E. injection E as <-. reflexivity. }
  destruct (confirmation_comes_from_idle_feedback
              TICK minimumJerkTra 0%float _ initPositionController s'
              ltac:(reflexivity) ltac:(split; reflexivity)
              ltac:(reflexivity) E Hup)
    as (before & after & s1 & H1 & H2 & H3 & _).
  exists before, after, s1. auto.
Defined.

(** ** What a motion publishes *)

Lemma published_emit (e : Effect) (s : Controller) :
  published (emit e s)
  = published s ++
    match e with Publish msg => [msg] | _ => [] end.
Proof.
  unfold published. fields. rewrite omap_app. destruct e; reflexivity.
Qed.

(** The message of a tick depends on the state through the id table and
    the goal of the kind that is not played. *)
Lemma setpoint_of_row_eq (row : list float) (s s0 : Controller) :
  joint_id_ s = joint_id_ s0 ->
  gripper_ s = gripper_ s0 ->
  goal_of (negb (gripper_ s0)) s = goal_of (negb (gripper_ s0)) s0 ->
  setpoint (advanced row s) = setpoint_of_row s0 row.
Proof.
  unfold setpoint_of_row, setpoint, joint_setpoint, advanced, active_width,
    goal_of.
  intros Hid Hg. rewrite Hg.
  destruct (gripper_ s0); cbn [negb]; fields; intros Hgoal;
    rewrite Hid, ?Hgoal; reflexivity.
Qed.

Lemma tick_played (s0 s : Controller) (n : Z) (k : nat) :
  all_time_steps_ s0 = n ->
  n <= Double.INT_MAX ->
  ids_valid (joint_id_ s0) = true ->
  rows_ready s0 n = true ->
  Z.of_nat k < n ->
  played s0 k s ->
  exists s', process s = Ok s' /\ played s0 (S k) s'.
Proof.
  intros Hn Hmax Hids Hready Hk
    (Hid & Hall & Hjt & Hgt & Hsz & Hother & Hpub & _ & Hplay).
  rewrite Hn in Hplay.
  destruct (Z.of_nat k <? n) eqn:Ek; [|lia].
  destruct Hplay as (Hm & Hg & Hstep).
  destruct (rows_ready_row s0 n k Hready Hk) as (row & Hrow & Hw).
  assert (Hact : active_trajectory s = active_trajectory s0).
  { unfold active_trajectory. now rewrite Hg, Hjt, Hgt. }
  assert (Hwid : active_width s = active_width s0).
  { unfold active_width. now rewrite Hg. }
  exists (ticked row s). split.
  { apply process_playing; try assumption.
    - now rewrite Hid.
    - unfold Double.INT_MAX in *. lia.
    - rewrite Hact, Hstep, Nat2Z.id. assumption.
    - now rewrite Hwid. }
  pose proof (advanced_frame row s)
    as (Fm & Fg & Fall & Fstep & Fid & Fjt & Fgt & Fem & _).
  pose proof (setpoint_of_row_eq row s s0 Hid Hg Hother) as Hset.
  assert (Hsz' : goals_sized (advanced row s)).
  { apply advanced_sized; [assumption|now rewrite Hwid]. }
  assert (Hother' : goal_of (negb (gripper_ s0)) (advanced row s)
                    = goal_of (negb (gripper_ s0)) s0).
  { rewrite <- Hother. unfold advanced, goal_of. rewrite Hg.
    destruct (gripper_ s0); reflexivity. }
  assert (Hactive : goal_of (gripper_ s0) (advanced row s)
                    = take (active_width s0) row).
  { unfold advanced, goal_of. rewrite Hg, Hwid.
    destruct (gripper_ s0); reflexivity. }
  assert (Hpub' : published (emit (Publish (setpoint (advanced row s)))
                               (advanced row s))
                  = published s0 ++
                    map (setpoint_of_row s0)
                      (take (S k) (active_trajectory s0))).
  { rewrite published_emit. unfold published at 1. rewrite Fem.
    fold (published s). rewrite Hpub, Hset.
    rewrite (take_S_r _ _ _ Hrow), map_app, <- app_assoc. reflexivity. }
  unfold ticked. cbv zeta.
  set (s2 := emit (Publish (setpoint (advanced row s))) (advanced row s)) in *.
  assert (H2 : joint_id_ s2 = joint_id_ s0 /\
               all_time_steps_ s2 = n /\
               goal_joint_trajectory_ s2 = goal_joint_trajectory_ s0 /\
               goal_gripper_trajectory_ s2 = goal_gripper_trajectory_ s0 /\
               goals_sized s2 /\
               goal_of (negb (gripper_ s0)) s2
               = goal_of (negb (gripper_ s0)) s0 /\
               goal_of (gripper_ s0) s2 = take (active_width s0) row /\
               is_moving_ s2 = true /\ gripper_ s2 = gripper_ s0 /\
               step_cnt_ s2 = Z.of_nat k + 1).
  { unfold s2, goals_sized, goal_of in *. fields.
    repeat (split; [first [assumption|congruence]|]). congruence. }
  clearbody s2.
  destruct H2 as (Gid & Gall & Gjt & Ggt & Gsz & Gother & Gact & Gm & Gg
                  & Gstep).
  rewrite Gstep, Gall.
  assert (Hlast : forall k' row',
            S k = S k' -> active_trajectory s0 !! k' = Some row' ->
            goal_of (gripper_ s0) s2 = take (active_width s0) row').
  { intros k' row' [= <-] Hrow'. congruence. }
  destruct (Z.of_nat k + 1 >=? n) eqn:Ec.
  - unfold played, stopped. rewrite published_emit, app_nil_r.
    unfold published at 1. unfold goal_of, goals_sized in *. fields.
    fold (published s2). rewrite Hn.
    replace (Z.of_nat (S k) <? n) with false by lia.
    repeat (split; [first [assumption|congruence]|]).
    repeat split.
  - unfold played. rewrite Hn.
    replace (Z.of_nat (S k) <? n) with true by lia.
    repeat (split; [first [assumption|congruence]|]).
    repeat split; first [assumption|lia].
Qed.

Lemma ticks_played (s : Controller) (n : Z) :
  is_moving_ s = true ->
  step_cnt_ s = 0 ->
  all_time_steps_ s = n ->
  0 < n <= Double.INT_MAX ->
  ids_valid (joint_id_ s) = true ->
  goals_sized s ->
  rows_ready s n = true ->
  forall k : nat,
    Z.of_nat k <= n ->
    exists sk, ticks k s = Ok sk /\ played s k sk.
Proof.
  intros Hm Hstep Hn Hpos Hids Hsz Hready.
  induction k as [|k IH]; intros Hk.
  - exists s. split; [reflexivity|].
    unfold played. cbn [take map]. rewrite app_nil_r, Hn.
    replace (Z.of_nat 0 <? n) with true by lia.
    repeat (split; [first [reflexivity|assumption]|]).
    split; [discriminate|]. repeat split; assumption.
  - destruct IH as (sk & Hticks & Hplayed); [lia|].
    destruct (tick_played s sk n k) as (s' & Hproc & Hplayed');
      try assumption; try lia.
    exists s'. split; [|assumption].
    replace (S k) with (k + 1)%nat by lia.
    rewrite ticks_app, Hticks. cbn [bind ticks]. rewrite Hproc. reflexivity.
Qed.

(** X4: a motion armed at step 0 publishes the rows of its buffer in
    order, one per tick: after [k] ticks the messages published since the
    arming are those of rows 0 to [k - 1], the goal of the kind that is
    played is the row played last, and the goal of the other kind has not
    changed.  After [all_time_steps_] ticks the controller is idle, having
    published each row exactly once. *)
Theorem playback_publishes_rows_in_order (s : Controller) (n : Z) :
  is_moving_ s = true ->
  step_cnt_ s = 0 ->
  all_time_steps_ s = n ->
  0 < n <= Double.INT_MAX ->
  ids_valid (joint_id_ s) = true ->
  goals_sized s ->
  rows_ready s n = true ->
  forall k : nat,
    Z.of_nat k <= n ->
    exists sk,
      ticks k s = Ok sk /\
      published sk
      = published s ++
        map (setpoint_of_row s) (take k (active_trajectory s)) /\
      goal_of (negb (gripper_ s)) sk = goal_of (negb (gripper_ s)) s /\
      (forall k' row,
         k = S k' -> active_trajectory s !! k' = Some row ->
         goal_of (gripper_ s) sk = take (active_width s) row) /\
      (Z.of_nat k = n -> idle sk).
Proof.
  intros Hm Hstep Hn Hpos Hids Hsz Hready k Hk.
  destruct (ticks_played s n Hm Hstep Hn Hpos Hids Hsz Hready k Hk)
    as (sk & Hticks & _ & _ & _ & _ & _ & Hother & Hpub & Hlast & Hend).
  exists sk. repeat (split; [assumption|]).
  intros Hkn. rewrite Hn in Hend.
  destruct (Z.of_nat k <? n) eqn:E; [lia|assumption].
Qed.

(** X4 for the grip_on motion armed at start-up: its 201 rows are
    published by 201 ticks. *)

(** X4 for the grip_on motion armed at start-up: its 201 rows are
    published by 201 ticks. *)
Lemma playback_publishes_rows_in_order_scenario_A :
  exists sk,
    ticks 201 scenario_A_armed = Ok sk /\
    published sk
    = published scenario_A_armed ++
      map (setpoint_of_row scenario_A_armed)
        (take 201 (active_trajectory scenario_A_armed)) /\
    idle sk.
Proof.
  destruct (playback_publishes_rows_in_order scenario_A_armed 201)
    with 201%nat as (sk & H1 & H2 & _ & _ & H5).
  - vm_compute; reflexivity.
  - vm_compute; reflexivity.
  - vm_compute; reflexivity.
  - unfold Double.INT_MAX; lia.
  - vm_compute; reflexivity.
  - split; reflexivity.
  - vm_compute; reflexivity.
  - lia.
  - exists sk. split; [exact H1|]. split; [exact H2|].
    apply H5. reflexivity.
Defined.

(** ** A grip command, from the message to the last setpoint *)

Lemma has_shape_rows (m : MatrixXd) (n : Z) :
  Eigen.has_shape m n 1 = true ->
  Eigen.rows m = n /\ forall row, In row m -> exists x, row = [x].
Proof.
  unfold Eigen.has_shape. intros H.
  apply andb_true_iff in H as [Hr Hc]. apply Z.eqb_eq in Hr.
  split; [assumption|]. intros row Hin.
  rewrite forallb_forall in Hc. apply Hc, Z.eqb_eq in Hin.
  destruct row as [|x [|y row]]; simpl length in Hin; try lia.
  now exists x.
Qed.

(** X5: a grip command followed by as many ticks as the trajectory has
    steps.  The controller publishes one message per sample of the
    generated trajectory, in order; each names the registered joints and
    grip_joint and carries the joint goals, which do not change, followed
    by the sample.  It ends idle, with nothing published besides, the
    joint goal as it was and the gripper goal at the last sample. *)
Theorem grip_command_is_played_out
    (dt : float)
    (gen : float -> float -> float -> float -> float -> float -> float ->
           float -> MatrixXd)
    (fill angle : float) (s : Controller) (x : float) (n : Z) :
  ids_valid (joint_id_ s) = true ->
  goals_sized s ->
  Eigen.get (present_joint_position_ s) 4 = Some x ->
  Double.to_int (Double.floor (2.0 / dt + 1.0)%float) = Some n ->
  0 < n ->
  Eigen.has_shape
    (gen x 0.0 0.0 angle 0.0 0.0 dt (Double.of_int (n - 1) * dt))%float n 1
  = true ->
  exists s1 sn,
    grip dt gen fill angle s = Ok s1 /\
    ticks (Z.to_nat n) s1 = Ok sn /\
    idle sn /\
    published sn
    = published s ++
      map (fun row =>
             {| name := StdMap.keys (joint_id_ s) ++ ["grip_joint"];
                position :=
                  map (joint_setpoint s) (StdMap.keys (joint_id_ s)) ++ row |})
        (gen x 0.0 0.0 angle 0.0 0.0 dt (Double.of_int (n - 1) * dt))%float /\
    goal_joint_position_ sn = goal_joint_position_ s /\
    Some (goal_gripper_position_ sn)
    = last (gen x 0.0 0.0 angle 0.0 0.0 dt (Double.of_int (n - 1) * dt))%float.
Proof.
  intros Hids Hsz Hx Hn Hpos Hshape.
  set (tra := (gen x 0.0 0.0 angle 0.0 0.0 dt
                 (Double.of_int (n - 1) * dt))%float) in *.
  destruct (has_shape_rows _ _ Hshape) as [Hrows Hcols].
  assert (Hg : (0 < length (goal_gripper_position_ s))%nat).
  { destruct Hsz as [_ ->]. change (Z.to_nat MAX_GRIPPER_NUM) with 1%nat. lia. }
  pose proof (grip_arms dt gen fill angle s n x Hx Hg Hn
                ltac:(lia) Hshape) as Harm.
  match type of Harm with _ = Ok ?a => set (s1 := a) in * end.
  assert (Hact : active_trajectory s1 = tra) by reflexivity.
  assert (Hready : rows_ready s1 n = true).
  { unfold rows_ready. rewrite Hact. apply andb_true_iff. split; [lia|].
    apply forallb_forall. intros row Hin.
    apply list_elem_of_In, elem_of_take in Hin as (i & Hin & _).
    apply list_elem_of_lookup_2, list_elem_of_In, Hcols in Hin as [v ->].
    reflexivity. }
  assert (Hsz1 : goals_sized s1).
  { unfold s1, gripper_armed, goals_sized in *. fields.
    rewrite length_insert. assumption. }
  pose proof (to_int_range _ _ Hn) as Hrange.
  destruct (ticks_played s1 n) with (Z.to_nat n)
    as (sn & Hticks & _ & _ & _ & _ & _ & Hother & Hpub & Hlast & Hend);
    try assumption; try reflexivity; try lia.
  exists s1, sn. split; [assumption|]. split; [assumption|].
  change (all_time_steps_ s1) with n in Hend.
  destruct (Z.of_nat (Z.to_nat n) <? n) eqn:E; [lia|].
  split; [assumption|].
  change (gripper_ s1) with true in *. cbn [negb goal_of] in *.
  rewrite Hact in *.
  split; [|split].
  - rewrite Hpub, take_ge by (unfold Eigen.rows in Hrows; lia).
    assert (published s1 = published s) as ->.
    { unfold s1, gripper_armed. rewrite published_emit, app_nil_r.
      reflexivity. }
    f_equal. apply map_ext_in. intros row Hin. apply Hcols in Hin as [v ->].
    reflexivity.
  - exact Hother.
  - assert (exists k', Z.to_nat n = S k') as [k' Hk']
      by (exists (Z.to_nat (n - 1)); lia).
    destruct (tra !! k') as [row|] eqn:Hrow.
    + rewrite (Hlast k' row Hk' Hrow).
      assert (In row tra) as Hin.
      { apply list_elem_of_In. eapply list_elem_of_lookup_2. eassumption. }
      apply Hcols in Hin as [v ->].
      rewrite last_lookup.
      replace (Nat.pred (length tra)) with k'
        by (unfold Eigen.rows in Hrows; lia).
      rewrite Hrow. reflexivity.
    + apply lookup_ge_None in Hrow. unfold Eigen.rows in Hrows. lia.
Qed.

(** X5 at start-up, with a tick of 0.01 s and the closed-form generator:
    grip_on is played out by 201 ticks. *)
Lemma grip_command_is_played_out_at_startup :
  exists s1 sn,
    grip TICK minimumJerkTra 0%float (-75.0 * DEGREE2RADIAN)%float
      initPositionController = Ok s1 /\
    ticks 201 s1 = Ok sn /\
    idle sn /\
    goal_joint_position_ sn = goal_joint_position_ initPositionController.
Proof.
  destruct (grip_command_is_played_out TICK minimumJerkTra 0%float
              (-75.0 * DEGREE2RADIAN)%float initPositionController
              0%float 201)
    as (s1 & sn & H1 & H2 & H3 & _ & H5 & _).
  - reflexivity.
  - split; reflexivity.
  - reflexivity.
  - vm_compute; reflexivity.
  - lia.
  - vm_compute; reflexivity.
  - exists s1, sn. repeat split; try assumption; apply H3.
Defined.

(** ** The present configuration *)

(** X6: a joint state message overwrites the present configuration
    component by component, from 0 on.  With five positions or more the
    first five replace it; a shorter message makes [at] throw, and the
    components copied before the throw stay overwritten: nothing is
    rolled back.  No other member changes in either case. *)
Theorem present_position_update (msg : JointState) (s : Controller) :
  length (present_joint_position_ s) = 5%nat ->
  let s' :=
    with_present_joint_position
      (take 5 (position msg) ++
       drop (length (position msg)) (present_joint_position_ s)) s in
  presentJointPositionMsgCallback msg s
  = if (5 <=? length (position msg))%nat then Ok s'
    else Crash OutOfRangeThrown s'.
Proof.
  destruct msg as [names pos].
  destruct s as [m mt ats sc me g ji pr gj gg gjt ggt tool sl em].
  cbn [present_joint_position_ position]. intros Hlen.
  do 5 (destruct pr as [|? pr]; [discriminate Hlen|]).
  destruct pr; [|discriminate Hlen]. clear Hlen.
  destruct pos as [|a0 [|a1 [|a2 [|a3 [|a4 pos]]]]]; try reflexivity.
  cbn [length drop take Nat.leb app]. rewrite drop_nil. reflexivity.
Qed.

(** X6 at start-up: a message with two positions. *)
Lemma present_position_update_short_message :
  presentJointPositionMsgCallback
    {| name := ["joint1"; "joint2"]; position := [0.5; 0.25]%float |}
    initPositionController
  = Crash OutOfRangeThrown
      (with_present_joint_position [0.5; 0.25; 0.0; 0.0; 0.0]%float
         initPositionController).
Proof.
  apply (present_position_update
           {| name := ["joint1"; "joint2"]; position := [0.5; 0.25]%float |}
           initPositionController).
  reflexivity.
Defined.

Section PresentIsNotFedBack.

Variable v : VectorXd.

Local Abbreviation W := (with_present_joint_position v).

Lemma for_each_map_state {X} (l : list X)
    (body : X -> Controller -> Result Controller) :
  (forall x s, body x (W s) = map_state W (body x s)) ->
  forall s, for_each l body (W s) = map_state W (for_each l body s).
Proof.
  intros Hbody. induction l as [|x l IH]; intros s; [reflexivity|].
  cbn [for_each]. rewrite Hbody.
  destruct (body x s) as [s1|]; cbn [bind map_state]; [apply IH|reflexivity].
Qed.

Lemma advance_map_state (s : Controller) :
  advance (W s) = map_state W (advance s).
Proof.
  unfold advance. fields.
  destruct (is_moving_ s); [|reflexivity].
  destruct (gripper_ s).
  - rewrite for_each_map_state.
    + destruct (for_each _ _ s) as [s1|]; cbn [bind map_state];
        [|reflexivity].
      fields. destruct (int_ok _); reflexivity.
    + clear. intros index s. fields.
      destruct (Eigen.coeff _ _ _); fields; [|reflexivity].
      destruct (Eigen.set _ _ _); reflexivity.
  - rewrite for_each_map_state.
    + destruct (for_each _ _ s) as [s1|]; cbn [bind map_state];
        [|reflexivity].
      fields. destruct (int_ok _); reflexivity.
    + clear. intros index s. fields.
      destruct (Eigen.coeff _ _ _); fields; [|reflexivity].
      destruct (Eigen.set _ _ _); reflexivity.
Qed.

Lemma joint_state_entries_map_state (names : list string) (s : Controller)
    (msg : JointState) :
  joint_state_entries names (W s, msg)
  = match joint_state_entries names (s, msg) with
    | Ok (s', msg') => Ok (W s', msg')
    | Crash e s' => Crash e (W s')
    end.
Proof.
  revert s msg. induction names as [|nm names IH]; intros s msg;
    [reflexivity|].
  cbn [joint_state_entries joint_state_entry]. fields.
  destruct (StdMap.index (joint_id_ s) nm) as [ids id]. fields.
  destruct (Eigen.get _ _); fields; [|reflexivity].
  apply (IH (with_joint_id ids s)).
Qed.

End PresentIsNotFedBack.

(** X7: the present configuration is never fed back into a tick.  A tick
    in a state whose present configuration has been replaced ends as the
    tick in the original state does, with the same goals, step, flags,
    publications and fault if any; only the present configuration
    differs, and it is the replaced one. *)
Theorem tick_ignores_present_configuration (v : VectorXd) (s : Controller) :
  process (with_present_joint_position v s)
  = map_state (with_present_joint_position v) (process s).
Proof.
  unfold process. rewrite advance_map_state.
  destruct (advance s) as [s1|]; cbn [bind map_state]; [|reflexivity].
  rewrite joint_state_entries_map_state. fields.
  destruct (joint_state_entries _ _) as [[s2 msg]|]; cbn [bind];
    [|reflexivity].
  fields. destruct (Eigen.get _ _); fields; [|reflexivity].
  destruct (is_moving_ s2) eqn:Hm; fields; rewrite ?Hm;
    [destruct (_ >=? _)|]; reflexivity.
Qed.

(** ** What a planned path changes *)

(** X8: a well-formed planned path and the thread it starts, whatever
    the controller is doing when they run.  The joint buffer and the step
    count are replaced by the table and the number of waypoints of the
    last trajectory, whether or not the execution was confirmed and
    whether or not a motion is playing.  The gripper flag, the gripper
    buffer and the goal vectors are never touched.  Playback is armed at
    step 0 exactly when the confirmation flag is up, which clears the
    flag; otherwise the playing flag and the step stay as they are. *)
Theorem planned_path_replaces_joint_buffer (dt : float)
    (gen : float -> float -> float -> float -> float -> float -> float ->
           float -> MatrixXd)
    (fill : float) (s : Controller) (msg : DisplayTrajectory)
    (tra : RobotTrajectory) :
  length (goal_joint_position_ s) = Z.to_nat MAX_JOINT_NUM ->
  forallb (trajectory_well_formed (joint_id_ s)) (trajectory msg) = true ->
  last (trajectory msg) = Some tra ->
  exists s',
    run dt gen fill [DisplayPlannedPath msg; ThreadWakes] s = Ok s' /\
    goal_joint_trajectory_ s'
    = planned_positions (joint_id_ s) (goal_joint_position_ s) tra /\
    all_time_steps_ s' = Z.of_nat (length (points (joint_trajectory tra))) /\
    gripper_ s' = gripper_ s /\
    goal_gripper_trajectory_ s' = goal_gripper_trajectory_ s /\
    goal_joint_position_ s' = goal_joint_position_ s /\
    goal_gripper_position_ s' = goal_gripper_position_ s /\
    moveit_execution_ s' = false /\
    if moveit_execution_ s
    then is_moving_ s' = true /\ step_cnt_ s' = 0 /\
         emitted_ s'
         = emitted_ s ++ [ROS_INFO "Get Joint Trajectory";
                          ROS_INFO "Send Motion Trajectory"]
    else is_moving_ s' = is_moving_ s /\ step_cnt_ s' = step_cnt_ s /\
         emitted_ s' = emitted_ s ++ [ROS_INFO "Get Joint Trajectory"].
Proof.
  intros Hgoal Hmsg Hlast.
  destruct (path_ingested fill s msg Hgoal Hmsg) as (t' & Hth & _ & Ht').
  rewrite Hlast in Ht'. destruct Ht' as [Hpos Hpts].
  cbn [run handle]. rewrite Hth. fields.
  eexists. split; [reflexivity|].
  unfold thread_after_sleep. fields.
  destruct (moveit_execution_ s) eqn:Hflag; fields;
    rewrite <- ?app_assoc; repeat split; assumption.
Qed.

(** X8 while a grip motion plays: the path of the examples arrives
    unconfirmed after three ticks. *)
Lemma planned_path_replaces_joint_buffer_while_playing :
  exists s3 s',
    run TICK minimumJerkTra 0%float
      [GripperCommand "grip_on"; Tick; Tick; Tick] initPositionController
    = Ok s3 /\
    run TICK minimumJerkTra 0%float
      [DisplayPlannedPath example_path; ThreadWakes] s3 = Ok s' /\
    is_moving_ s' = true /\ gripper_ s' = true /\ step_cnt_ s' = 3 /\
    all_time_steps_ s' = 2.
Proof.
  destruct (run TICK minimumJerkTra 0%float
      [GripperCommand "grip_on"; Tick; Tick; Tick] initPositionController)
    as [s3|] eqn:E; [|vm_compute in E; discriminate].
  assert (H3 : is_moving_ s3 = true /\ gripper_ s3 = true /\
               step_cnt_ s3 = 3 /\ moveit_execution_ s3 = false /\
               goal_joint_position_ s3 = [0.0; 0.0; 0.0; 0.0]%float /\
               joint_id_ s3 = joint_id_ initPositionController).
  { vm_compute in E. injection E as <-. repeat split. }
  destruct H3 as (Hm & Hg & Hc & Hf & Hgoal & Hid).
  edestruct (planned_path_replaces_joint_buffer TICK minimumJerkTra 0%float
               s3 example_path)
    as (s' & Hrun & _ & Hall & Hg' & _ & _ & _ & _ & Hrest).
  - rewrite Hgoal. reflexivity.
  - rewrite Hid. reflexivity.
  - reflexivity.
  - rewrite Hf in Hrest. destruct Hrest as (Hm' & Hc' & _).
    exists s3, s'. split; [reflexivity|]. split; [exact Hrun|].
    split; [congruence|]. split; [congruence|]. split; [congruence|].
    exact Hall.
Defined.

(** ** The joystick node: what it knows of the arm *)

Lemma joint_states_step_slot (msg : JointState) (temp : list float)
    (i : nat) (nm : string) :
  Joystick.joint_states_step msg temp i nm
  = match Joystick.slot nm with
    | Some k => position msg !! i ≫= fun x => Some (<[k := x]> temp)
    | None => Some temp
    end.
Proof.
  unfold Joystick.joint_states_step, Joystick.slot.
  repeat (destruct (String.eqb nm _); [reflexivity|]). reflexivity.
Qed.

Lemma joint_states_loop_returned (msg : JointState) (names : list string) :
  forall (i : nat) (temp temp' : list float),
    Joystick.joint_states_loop msg i names temp = Some temp' ->
    length temp' = length temp /\
    forall k : nat,
      ((forall j nm, names !! j = Some nm -> Joystick.slot nm <> Some k) ->
       temp' !! k = temp !! k) /\
      (forall j nm x,
         names !! j = Some nm -> Joystick.slot nm = Some k ->
         (forall j' nm', (j < j')%nat -> names !! j' = Some nm' ->
                         Joystick.slot nm' <> Some k) ->
         (k < length temp)%nat ->
         position msg !! (i + j)%nat = Some x ->
         temp' !! k = Some x).
Proof.
  induction names as [|nm0 names IH]; intros i temp temp' H.
  - injection H as <-. split; [reflexivity|]. intros k. split; [auto|].
    intros j nm x Hj. destruct j; discriminate Hj.
  - cbn [Joystick.joint_states_loop] in H.
    rewrite joint_states_step_slot in H.
    assert (exists temp1,
              Joystick.joint_states_loop msg (S i) names temp1 = Some temp'
              /\ length temp1 = length temp
              /\ forall k,
                   (Joystick.slot nm0 <> Some k -> temp1 !! k = temp !! k) /\
                   (Joystick.slot nm0 = Some k -> (k < length temp)%nat ->
                    forall x, position msg !! i = Some x ->
                              temp1 !! k = Some x))
      as (temp1 & Hloop & Hlen1 & Hstep).
    { destruct (Joystick.slot nm0) as [k0|].
      - destruct (position msg !! i) as [x0|]; [|discriminate H].
        cbn in H. exists (<[k0 := x0]> temp).
        split; [assumption|]. split; [apply length_insert|].
        intros k. split.
        + intros Hne. apply list_lookup_insert_ne. congruence.
        + intros [= <-] Hlt x [= <-].
          now apply list_lookup_insert_eq.
      - cbn in H. exists temp. split; [assumption|]. split; [reflexivity|].
        intros k. split; [reflexivity|discriminate]. }
    destruct (IH _ _ _ Hloop) as [Hlen Hk].
    split; [congruence|]. intros k. destruct (Hk k) as [Hkeep Hset].
    destruct (Hstep k) as [Hstep1 Hstep2]. split.
    + intros Hno. rewrite Hkeep.
      * apply Hstep1. apply (Hno 0%nat nm0). reflexivity.
      * intros j nm Hj. apply (Hno (S j) nm Hj).
    + intros j nm x Hj Hslot Hlater Hlt Hx.
      destruct j as [|j].
      * injection Hj as <-. rewrite Hkeep.
        -- apply Hstep2; try assumption.
           now rewrite Nat.add_0_r in Hx.
        -- intros j' nm' Hj'. apply (Hlater (S j') nm'); [lia|exact Hj'].
      * apply (Hset j nm x Hj Hslot).
        -- intros j' nm' Hlt' Hj'. apply (Hlater (S j') nm'); [lia|exact Hj'].
        -- congruence.
        -- now replace (S i + j)%nat with (i + S j)%nat by lia.
Qed.

Lemma joint_states_loop_threw (msg : JointState) (names : list string) :
  forall (i : nat) (temp : list float),
    Joystick.joint_states_loop msg i names temp = None ->
    exists j nm k,
      names !! j = Some nm /\ Joystick.slot nm = Some k /\
      position msg !! (i + j)%nat = None.
Proof.
  induction names as [|nm0 names IH]; intros i temp H; [discriminate H|].
  cbn [Joystick.joint_states_loop] in H.
  rewrite joint_states_step_slot in H.
  destruct (Joystick.slot nm0) as [k0|] eqn:Hs.
  - destruct (position msg !! i) as [x0|] eqn:Hx.
    + cbn in H. apply IH in H as (j & nm & k & Hj & Hk & Hp).
      exists (S j), nm, k. repeat split; try assumption.
      now replace (i + S j)%nat with (S i + j)%nat by lia.
    + exists 0%nat, nm0, k0. rewrite Nat.add_0_r. auto.
  - cbn in H. apply IH in H as (j & nm & k & Hj & Hk & Hp).
    exists (S j), nm, k. repeat split; try assumption.
    now replace (i + S j)%nat with (S i + j)%nat by lia.
Qed.

(** X9: what [joint_states_callback] stores.  When it returns, the
    present joint angles are four numbers: for each of joint1..joint4
    the position at the last index where the message names that joint,
    and 0 for a joint the message does not name, whatever the angle was
    before; nothing else changes.  It throws only when the message names
    one of the four joints at an index where it has no position, and then
    the node is as it was. *)
Theorem joint_states_callback_stores_named_joints (msg : JointState)
    (s : Joystick.State) :
  match Joystick.joint_states_callback msg s with
  | Joystick.Returned s' =>
      length (Teleop.present_joint_angle_ (Joystick.node s')) = 4%nat /\
      (forall k : nat,
         (k < 4)%nat ->
         ((forall j nm, name msg !! j = Some nm -> Joystick.slot nm <> Some k) ->
          Teleop.present_joint_angle_ (Joystick.node s') !! k
          = Some 0%float) /\
         (forall j nm x,
            name msg !! j = Some nm -> Joystick.slot nm = Some k ->
            (forall j' nm', (j < j')%nat -> name msg !! j' = Some nm' ->
                            Joystick.slot nm' <> Some k) ->
            position msg !! j = Some x ->
            Teleop.present_joint_angle_ (Joystick.node s') !! k = Some x)) /\
      Teleop.present_kinematic_position_ (Joystick.node s')
      = Teleop.present_kinematic_position_ (Joystick.node s) /\
      Teleop.sent_ (Joystick.node s') = Teleop.sent_ (Joystick.node s) /\
      Joystick.stdout s' = Joystick.stdout s
  | Joystick.Threw s' =>
      s' = s /\
      exists j nm k,
        name msg !! j = Some nm /\ Joystick.slot nm = Some k /\
        (length (position msg) <= j)%nat
  end.
Proof.
  unfold Joystick.joint_states_callback.
  destruct (Joystick.joint_states_loop msg 0 (name msg) _) as [temp'|] eqn:E.
  - apply joint_states_loop_returned in E as [Hlen Hk].
    cbn. split; [exact Hlen|]. split; [|auto].
    intros k Hlt. destruct (Hk k) as [Hkeep Hset]. split.
    + intros Hno. rewrite (Hkeep Hno).
      apply lookup_replicate_2. exact Hlt.
    + intros j nm x Hj Hslot Hlater Hx.
      apply (Hset j nm x Hj Hslot Hlater); [exact Hlt|exact Hx].
  - split; [reflexivity|].
    apply joint_states_loop_threw in E as (j & nm & k & Hj & Hk & Hp).
    exists j, nm, k. repeat split; try assumption.
    now apply lookup_ge_None in Hp.
Qed.

(** ** The joystick node: what a command causes *)

Lemma sent_at_most_refl (n : nat) (s : Joystick.State) : sent_at_most n s s.
Proof.
  repeat split. exists [], []. rewrite !app_nil_r. repeat split. simpl. lia.
Qed.

Lemma sent_at_most_trans (n m : nat) (s1 s2 s3 : Joystick.State) :
  sent_at_most n s1 s2 -> sent_at_most m s2 s3 ->
  sent_at_most (n + m) s1 s3.
Proof.
  intros (Ha & Hk & r1 & l1 & Hs1 & Ho1 & He1 & Hn)
         (Ha' & Hk' & r2 & l2 & Hs2 & Ho2 & He2 & Hm).
  split; [congruence|]. split; [congruence|].
  exists (r1 ++ r2), (l1 ++ l2).
  rewrite Hs2, Hs1, Ho2, Ho1, <- !app_assoc, !length_app.
  repeat split; lia.
Qed.

(** [set_goal] returns, whatever it is given: every pose it builds has
    three components.  It sends one request and prints one line, or does
    nothing at all. *)
Lemma set_goal_sends_at_most_one (literal : string -> Z) (str : Z)
    (s : Joystick.State) :
  exists s',
    Joystick.set_goal literal str s = Joystick.Returned s' /\
    sent_at_most 1 s s'.
Proof.
  unfold Joystick.set_goal.
  repeat (destruct (str =? _);
          [eexists; split; [reflexivity|];
           repeat split; eexists [_], [_]; repeat split; simpl; lia|]).
  exists s. split; [reflexivity|apply sent_at_most_refl].
Qed.

(** X10: [set_goal] recognises a command by the address of its
    characters.  A pointer that is none of the addresses of the ten
    literals written in [set_goal] has no effect at all, whatever
    characters it points to: nothing is sent and nothing is printed. *)
Theorem set_goal_ignores_foreign_pointers (literal : string -> Z) (str : Z)
    (s : Joystick.State) :
  (forall c, In c Joystick.commands -> str <> literal c) ->
  Joystick.set_goal literal str s = Joystick.Returned s.
Proof.
  intros Hnot. unfold Joystick.set_goal.
  repeat match goal with
    | |- context [str =? literal ?c] =>
        destruct (Z.eqb_spec str (literal c)) as [Heq|_];
        [exfalso; apply (Hnot c); [unfold Joystick.commands; simpl; tauto
                                  |exact Heq]|]
    end.
  reflexivity.
Qed.

(** X10 for a compiler that pools literals from address 4096 on: a
    buffer at address 0 has no effect. *)
Lemma set_goal_ignores_foreign_pointers_example :
  Joystick.set_goal Joystick.pooled 0
    {| Joystick.node := Teleop.fresh_node; Joystick.stdout := [] |}
  = Joystick.Returned
      {| Joystick.node := Teleop.fresh_node; Joystick.stdout := [] |}.
Proof.
  apply set_goal_ignores_foreign_pointers.
  intros c Hc. unfold Joystick.commands in Hc. simpl in Hc.
  repeat (destruct Hc as [<-|Hc]; [vm_compute; discriminate|]).
  destruct Hc.
Defined.

Lemma joy_motion_sends_at_most_one (l1 l2 : string -> Z)
    (msg : Joystick.Joy) (s : Joystick.State) :
  sent_at_most 1 s (Joystick.final (Joystick.joy_motion l1 l2 msg s)).
Proof.
  unfold Joystick.joy_motion, Joystick.at_.
  repeat match goal with
    | |- context [Joystick.set_goal l1 ?p s] =>
        let s' := fresh "s'" in
        let E := fresh "E" in
        let H := fresh "H" in
        destruct (set_goal_sends_at_most_one l1 p s) as (s' & E & H);
        rewrite E; clear E
    end.
  repeat match goal with
    | |- context [match ?o with Some _ => _ | None => _ end] => destruct o
    | |- context [if ?c then _ else _] => destruct c
    end; cbn [Joystick.final]; first [assumption|apply sent_at_most_refl].
Qed.

Lemma joy_gripper_sends_at_most_one (l1 l2 : string -> Z)
    (msg : Joystick.Joy) (s : Joystick.State) :
  sent_at_most 1 s (Joystick.final (Joystick.joy_gripper l1 l2 msg s)).
Proof.
  unfold Joystick.joy_gripper, Joystick.at_.
  repeat match goal with
    | |- context [Joystick.set_goal l1 ?p s] =>
        let s' := fresh "s'" in
        let E := fresh "E" in
        let H := fresh "H" in
        destruct (set_goal_sends_at_most_one l1 p s) as (s' & E & H);
        rewrite E; clear E
    end.
  repeat match goal with
    | |- context [match ?o with Some _ => _ | None => _ end] => destruct o
    | |- context [if ?c then _ else _] => destruct c
    end; cbn [Joystick.final]; first [assumption|apply sent_at_most_refl].
Qed.

(** X11: whatever a joystick message holds, and wherever the compiler
    has put the literals, [joy_callback] sends at most two requests and
    prints one line for each; it never changes the node's view of the
    arm's joints and position.  This holds also when it is left by an
    exception, for what it did before. *)
Theorem joy_callback_sends_at_most_two
    (literal_of_set_goal literal_of_joy_callback : string -> Z)
    (msg : Joystick.Joy) (s : Joystick.State) :
  sent_at_most 2 s
    (Joystick.final
       (Joystick.joy_callback literal_of_set_goal literal_of_joy_callback
          msg s)).
Proof.
  unfold Joystick.joy_callback.
  pose proof (joy_motion_sends_at_most_one literal_of_set_goal
                literal_of_joy_callback msg s) as H1.
  destruct (Joystick.joy_motion _ _ msg s) as [s1|s1]; cbn [Joystick.final] in *.
  - apply (sent_at_most_trans 1 1 s s1); [assumption|].
    apply joy_gripper_sends_at_most_one.
  - destruct H1 as (Ha & Hk & r & l & Hs & Ho & He & Hn).
    repeat split; try assumption. exists r, l. repeat split; try assumption. lia.
Qed.

(** ** The joystick node: which command a message selects *)

Lemma pooled_distinct : distinct_literals Joystick.pooled.
Proof.
  intros c c' Hc Hc'. unfold Joystick.commands in *. simpl in Hc, Hc'.
  repeat (destruct Hc as [<-|Hc]);
    repeat (destruct Hc' as [<-|Hc']);
    try contradiction; try reflexivity; vm_compute; discriminate.
Qed.

(** A comparison of the addresses of two of [set_goal]'s literals. *)
Ltac compare_literals Hd :=
  repeat match goal with
    | |- context [?l ?c =? ?l ?c] => rewrite (Z.eqb_refl (l c))
    | |- context [?l ?c =? ?l ?c'] =>
        let Heq := fresh "Heq" in
        destruct (Z.eqb_spec (l c) (l c')) as [Heq|_];
        [apply Hd in Heq;
         [discriminate Heq
         |unfold Joystick.commands; simpl; tauto
         |unfold Joystick.commands; simpl; tauto]|]
    end.

Lemma set_goal_forward (literal : string -> Z) (s : Joystick.State) :
  Joystick.set_goal literal (literal "x+") s
  = Joystick.Returned
      {| Joystick.node := Teleop.async_send_request step_along_x
                            (Joystick.node s);
         Joystick.stdout :=
           Joystick.stdout s ++ ["increase(++) x axis in cartesian space"] |}.
Proof. unfold Joystick.set_goal. rewrite Z.eqb_refl. reflexivity. Qed.

Lemma set_goal_gripper (literal : string -> Z) (s : Joystick.State)
    (c : string) :
  distinct_literals literal ->
  c = "gripper open" \/ c = "gripper close" ->
  exists t line,
    Joystick.set_goal literal (literal c) s
    = Joystick.Returned
        {| Joystick.node :=
             Teleop.async_send_request (Teleop.goal_tool_control t)
               (Joystick.node s);
           Joystick.stdout := Joystick.stdout s ++ [line] |}.
Proof.
  intros Hd [-> | ->]; unfold Joystick.set_goal; compare_literals Hd;
    eexists; eexists; reflexivity.
Qed.

(** X12: pushing the stick forward has priority.  With literals that the
    compiler shares between [joy_callback] and [set_goal], a message
    whose axis 1 is at 0.9 or more makes the node send one step of DELTA
    along x first, whatever the other axis and the buttons are.  After it
    comes at most one gripper request.  The callback returns if the
    message has three buttons or more; with fewer it has sent the step
    when [at] throws. *)
Theorem forward_stick_has_priority (literal : string -> Z)
    (msg : Joystick.Joy) (s : Joystick.State) (a : float) :
  distinct_literals literal ->
  Joystick.axes msg !! 1%nat = Some a ->
  PrimFloat.leb 0.9 a = true ->
  exists rest,
    Teleop.sent_
      (Joystick.node
         (Joystick.final (Joystick.joy_callback literal literal msg s)))
    = Teleop.sent_ (Joystick.node s) ++ step_along_x :: rest /\
    (rest = [] \/ exists t, rest = [Teleop.goal_tool_control t]) /\
    ((exists s', Joystick.joy_callback literal literal msg s
                 = Joystick.Returned s')
     <-> (3 <= length (Joystick.buttons msg))%nat).
Proof.
  intros Hd Ha Hle.
  unfold Joystick.joy_callback, Joystick.joy_motion, Joystick.at_.
  rewrite Ha, Hle, set_goal_forward.
  set (s1 := {| Joystick.node := _; Joystick.stdout := _ |}).
  unfold Joystick.joy_gripper, Joystick.at_.
  destruct (Joystick.buttons msg !! 2%nat) as [b2|] eqn:E2.
  - pose proof (lookup_lt_Some _ _ _ E2) as Hlen.
    destruct (b2 =? 1).
    + destruct (set_goal_gripper literal s1 "gripper close" Hd)
        as (t & line & ->); [auto|].
      cbn. rewrite <- app_assoc. eexists. split; [reflexivity|].
      split; [right; eexists; reflexivity|].
      split; [intros _; lia|intros _; eexists; reflexivity].
    + destruct (Joystick.buttons msg !! 1%nat) as [b1|] eqn:E1.
      * destruct (b1 =? 1).
        -- destruct (set_goal_gripper literal s1 "gripper open" Hd)
             as (t & line & ->); [auto|].
           cbn. rewrite <- app_assoc. eexists. split; [reflexivity|].
           split; [right; eexists; reflexivity|].
           split; [intros _; lia|intros _; eexists; reflexivity].
        -- cbn. exists []. split; [reflexivity|].
           split; [left; reflexivity|].
           split; [intros _; lia|intros _; eexists; reflexivity].
      * apply lookup_ge_None in E1. lia.
  - apply lookup_ge_None in E2.
    cbn. exists []. split; [reflexivity|].
    split; [left; reflexivity|].
    split; [intros [s' H]; discriminate H|lia].
Qed.

(** X12 for pooled literals: stick forward and the close button. *)
Lemma forward_stick_has_priority_example :
  exists rest,
    Teleop.sent_
      (Joystick.node
         (Joystick.final
            (Joystick.joy_callback Joystick.pooled Joystick.pooled
               {| Joystick.axes := [1.0; 1.0]%float;
                  Joystick.buttons := [1; 1; 1; 1; 1; 1] |}
               {| Joystick.node := Teleop.fresh_node;
                  Joystick.stdout := [] |})))
    = [] ++ step_along_x :: rest /\
    (rest = [] \/ exists t, rest = [Teleop.goal_tool_control t]).
Proof.
  destruct (forward_stick_has_priority Joystick.pooled
              {| Joystick.axes := [1.0; 1.0]%float;
                 Joystick.buttons := [1; 1; 1; 1; 1; 1] |}
              {| Joystick.node := Teleop.fresh_node;
                 Joystick.stdout := [] |}
              1.0%float pooled_distinct)
    as (rest & H1 & H2 & _).
  - reflexivity.
  - reflexivity.
  - exists rest. split; assumption.
Defined.

(** X13: a joystick at rest does nothing.  When both axes are strictly
    between -0.9 and 0.9 (or are not numbers) and none of the six buttons
    reads 1, [joy_callback] returns without sending or printing
    anything, wherever the compiler has put the literals. *)
Theorem joystick_at_rest_does_nothing
    (literal_of_set_goal literal_of_joy_callback : string -> Z)
    (msg : Joystick.Joy) (s : Joystick.State) (a0 a1 : float) :
  Joystick.axes msg !! 0%nat = Some a0 ->
  Joystick.axes msg !! 1%nat = Some a1 ->
  PrimFloat.leb 0.9 a1 = false ->
  PrimFloat.leb a1 (-0.9) = false ->
  PrimFloat.leb 0.9 a0 = false ->
  PrimFloat.leb a0 (-0.9) = false ->
  (6 <= length (Joystick.buttons msg))%nat ->
  (forall k b, (k < 6)%nat -> Joystick.buttons msg !! k = Some b -> b <> 1) ->
  Joystick.joy_callback literal_of_set_goal literal_of_joy_callback msg s
  = Joystick.Returned s.
Proof.
  intros Ha0 Ha1 H1 H2 H3 H4 Hlen Hb.
  assert (Hbutton : forall k, (k < 6)%nat ->
            exists b, Joystick.buttons msg !! k = Some b /\ (b =? 1) = false).
  { intros k Hk.
    destruct (Joystick.buttons msg !! k) as [b|] eqn:E.
    - exists b. split; [reflexivity|]. apply Z.eqb_neq. now apply (Hb k).
    - apply lookup_ge_None in E. lia. }
  unfold Joystick.joy_callback, Joystick.joy_motion, Joystick.joy_gripper,
    Joystick.at_.
  rewrite Ha1, H1, H2, Ha0, H3, H4.
  destruct (Hbutton 3%nat) as (b3 & -> & ->); [lia|].
  destruct (Hbutton 0%nat) as (b0 & -> & ->); [lia|].
  destruct (Hbutton 5%nat) as (b5 & -> & ->); [lia|].
  destruct (Hbutton 4%nat) as (b4 & -> & ->); [lia|].
  destruct (Hbutton 2%nat) as (b2 & -> & ->); [lia|].
  destruct (Hbutton 1%nat) as (b1 & -> & ->); [lia|].
  reflexivity.
Qed.

(** X13 for a joystick with both axes at 0.5 and six buttons up. *)
Lemma joystick_at_rest_does_nothing_example :
  Joystick.joy_callback Joystick.pooled Joystick.pooled
    {| Joystick.axes := [0.5; 0.5]%float;
       Joystick.buttons := [0; 0; 0; 0; 0; 0] |}
    {| Joystick.node := Teleop.fresh_node; Joystick.stdout := [] |}
  = Joystick.Returned
      {| Joystick.node := Teleop.fresh_node; Joystick.stdout := [] |}.
Proof.
  apply (joystick_at_rest_does_nothing Joystick.pooled Joystick.pooled
           {| Joystick.axes := [0.5; 0.5]%float;
              Joystick.buttons := [0; 0; 0; 0; 0; 0] |}
           {| Joystick.node := Teleop.fresh_node; Joystick.stdout := [] |}
           0.5%float 0.5%float);
    try reflexivity; try (simpl; lia).
  intros k b Hk.
  do 6 (destruct k as [|k]; [intros [= <-]; discriminate|]). lia.
Defined.

(** ** A confirmed path, from the messages to the last setpoint *)

Lemma planned_positions_rows (ids : JointIdMap) (goal : VectorXd)
    (tra : RobotTrajectory) (row : list float) :
  In row (planned_positions ids goal tra) -> length row = length goal.
Proof.
  unfold planned_positions. intros H. apply in_map_iff in H as (p & <- & _).
  apply fold_write_length.
Qed.

(** X14: a confirmation received while idle, a well-formed path and the
    end of its thread's sleep, then as many ticks as the path has
    waypoints.  The controller publishes one message per waypoint, in
    order, built from the rows of the planned table; it ends idle, with
    the joint goal at the last row and the gripper goal as it was. *)
Theorem confirmed_path_is_played_out (dt : float)
    (gen : float -> float -> float -> float -> float -> float -> float ->
           float -> MatrixXd)
    (fill : float) (s : Controller) (msg : DisplayTrajectory)
    (tra : RobotTrajectory) (n : nat) :
  is_moving_ s = false ->
  gripper_ s = false ->
  ids_valid (joint_id_ s) = true ->
  goals_sized s ->
  forallb (trajectory_well_formed (joint_id_ s)) (trajectory msg) = true ->
  last (trajectory msg) = Some tra ->
  length (points (joint_trajectory tra)) = n ->
  (0 < n)%nat ->
  Z.of_nat n <= Double.INT_MAX ->
  exists s1 sn,
    run dt gen fill
      [MoveGroupFeedback "MONITOR"; DisplayPlannedPath msg; ThreadWakes] s
    = Ok s1 /\
    ticks n s1 = Ok sn /\
    idle sn /\
    published sn
    = published s ++
      map (setpoint_of_row s1)
        (planned_positions (joint_id_ s) (goal_joint_position_ s) tra) /\
    Some (goal_joint_position_ sn)
    = last (planned_positions (joint_id_ s) (goal_joint_position_ s) tra) /\
    goal_gripper_position_ sn = goal_gripper_position_ s.
Proof.
  intros Hidle Hg Hids Hsz Hmsg Hlast Hn Hpos Hmax.
  pose proof Hsz as [Hgoal Hgrip].
  set (table := planned_positions (joint_id_ s) (goal_joint_position_ s) tra).
  assert (Htable : length table = n).
  { unfold table, planned_positions. now rewrite length_map. }
  destruct (path_ingested fill (with_moveit_execution true s) msg Hgoal Hmsg)
    as (t' & Hth & _ & Ht').
  rewrite Hlast in Ht'. destruct Ht' as [Hp Hpts].
  cbn [run handle]. unfold moveGroupActionFeedbackMsgCallback.
  rewrite Hidle. cbn [negb andb String.eqb Ascii.eqb Bool.eqb bind].
  rewrite Hth. fields. unfold thread_after_sleep. fields.
  match goal with
  | |- exists s1 sn, Ok ?a = Ok s1 /\ _ => set (s1 := a)
  end.
  assert (Hact : active_trajectory s1 = table).
  { unfold active_trajectory, s1. fields. rewrite Hg. exact Hp. }
  assert (Hready : rows_ready s1 (Z.of_nat n) = true).
  { unfold rows_ready. rewrite Hact. apply andb_true_iff.
    split; [unfold Eigen.rows; lia|].
    apply forallb_forall. intros row Hin.
    apply list_elem_of_In, elem_of_take in Hin as (i & Hin & _).
    apply list_elem_of_lookup_2, list_elem_of_In, planned_positions_rows
      in Hin.
    unfold active_width, s1. fields. rewrite Hg, Hin, Hgoal.
    apply Nat.leb_refl. }
  destruct (ticks_played s1 (Z.of_nat n)) with n
    as (sn & Hticks & _ & _ & _ & _ & _ & Hother & Hpub & Hlastrow & Hend);
    try assumption; try reflexivity; try lia.
  { unfold s1. fields. rewrite Hpts. now rewrite Hn. }
  exists s1, sn. split; [reflexivity|]. split; [assumption|].
  assert (Hsteps : all_time_steps_ s1 = Z.of_nat n).
  { unfold s1. fields. now rewrite Hpts, Hn. }
  rewrite Hsteps in Hend.
  destruct (Z.of_nat n <? Z.of_nat n) eqn:E; [lia|].
  split; [assumption|].
  assert (Hg1 : gripper_ s1 = false) by (unfold s1; fields; exact Hg).
  rewrite Hg1 in *. cbn [negb goal_of] in *. rewrite Hact in *.
  split; [|split].
  - rewrite Hpub, take_ge by lia. f_equal.
    unfold published, s1. fields. rewrite !omap_app. simpl.
    now rewrite !app_nil_r.
  - destruct n as [|k']; [lia|].
    destruct (table !! k') as [row|] eqn:Hrow.
    + rewrite (Hlastrow k' row eq_refl Hrow), last_lookup, Htable.
      cbn [Nat.pred]. rewrite Hrow. f_equal.
      apply take_ge.
      assert (In row table) as Hin
        by (eapply list_elem_of_In, list_elem_of_lookup_2; eassumption).
      apply planned_positions_rows in Hin.
      unfold active_width. rewrite Hg1, Hin, Hgoal. lia.
    + apply lookup_ge_None in Hrow. lia.
  - exact Hother.
Qed.

(** X14 at start-up, for the path of the examples: two waypoints, two
    ticks. *)
Lemma confirmed_path_is_played_out_example :
  exists s1 sn,
    run TICK minimumJerkTra 0%float
      [MoveGroupFeedback "MONITOR"; DisplayPlannedPath example_path;
       ThreadWakes] initPositionController
    = Ok s1 /\
    ticks 2 s1 = Ok sn /\
    idle sn /\
    Some (goal_joint_position_ sn) = Some [0.5; 0.6; 0.7; 0.8]%float.
Proof.
  destruct (confirmed_path_is_played_out TICK minimumJerkTra 0%float
              initPositionController example_path _ 2
              eq_refl eq_refl eq_refl (conj eq_refl eq_refl)
              eq_refl eq_refl eq_refl
              ltac:(lia) ltac:(unfold Double.INT_MAX; lia))
    as (s1 & sn & H1 & H2 & H3 & _ & H5 & _).
  exists s1, sn. split; [exact H1|]. split; [exact H2|].
  split; [exact H3|]. rewrite H5. reflexivity.
Defined.

(** ** The gate, at start-up *)

(** X15 at start-up: ticks, a previewed path and its thread, a feedback
    that is no confirmation and an unknown gripper command. *)
Lemma without_confirmation_stays_idle_from_startup :
  is_moving_
    (outcome_state id
       (run TICK minimumJerkTra 0%float
          [Tick; DisplayPlannedPath example_path; ThreadWakes;
           MoveGroupFeedback "IDLE"; GripperCommand "foo"; Tick]
          initPositionController)) = false /\
  moveit_execution_
    (outcome_state id
       (run TICK minimumJerkTra 0%float
          [Tick; DisplayPlannedPath example_path; ThreadWakes;
           MoveGroupFeedback "IDLE"; GripperCommand "foo"; Tick]
          initPositionController)) = false.
Proof.
  apply (without_confirmation_stays_idle TICK minimumJerkTra 0%float
           [Tick; DisplayPlannedPath example_path; ThreadWakes;
            MoveGroupFeedback "IDLE"; GripperCommand "foo"; Tick]
           initPositionController eq_refl eq_refl eq_refl).
Defined.

(** X16 at start-up: the confirmation arrives while the thread of the
    path of the examples sleeps. *)
Lemma confirmed_path_is_played_from_startup :
  exists s',
    run TICK minimumJerkTra 0%float
      [DisplayPlannedPath example_path; MoveGroupFeedback "MONITOR";
       ThreadWakes] initPositionController = Ok s' /\
    is_moving_ s' = true /\ gripper_ s' = false /\ step_cnt_ s' = 0 /\
    moveit_execution_ s' = false.
Proof.
  destruct (confirmed_path_is_played TICK minimumJerkTra 0%float
              initPositionController example_path
              eq_refl eq_refl eq_refl eq_refl
              [DisplayPlannedPath example_path; MoveGroupFeedback "MONITOR";
               ThreadWakes] (or_intror eq_refl))
    as (s' & H1 & H2 & H3 & H4 & H5 & _).
  exists s'. auto.
Defined.
